(** * Smart Attendance Analyzer: normalisation, deduplication, aggregation

    A shallow embedding of [attendance_analyzer.py] and the properties its
    specification states about [clean_row], [deduplicate_records] and
    [analyze].

    Conventions of the embedding.
    - A Python [str] is a sequence of Unicode code points.  It is held as a
      [string], its UTF-8 encoding (a lone surrogate is encoded like any
      other code point below 65536).  Equality of two [str]s is equality of
      their encodings, and the order of two [str]s, which compares code
      points, is the order of their encodings, which compares bytes.  The
      operations that look at characters ([strip], [upper], indexing, the
      classes of a regular expression) work on [Str.chars], the list of the
      encodings of the code points.  The tables of whitespace, of uppercase
      mappings and of decimal digits are those of Unicode 14.0.0, the
      version of CPython 3.11.
    - A Python [int] is a [Z]; a Python [float] is an IEEE 754 binary64
      number, given by [spec_float] with precision 53 and maximal exponent
      1024.
    - The raw row handed to [clean_row] is a [dict] read with [.get]: a
      [gmap string (option string)].  A value is a [str] or [None]: the
      fields typed at the menu are [str]s, and [csv.DictReader] gives a
      [str] for every cell of a row and [None] for the cells a short row
      lacks.  The row built by [clean_row] has four fixed keys and is a
      record.
    - The two [defaultdict]s of [analyze] are association lists in insertion
      order, which is the order [dict.items()] iterates in.
    - The CSV file is the list of its rows, each the list of its cells, and
      what a function prints is returned with its result.  The calls into
      matplotlib are represented by the data handed to them. *)

From Stdlib Require Import ZArith Lia Ascii String Bool List Sorted Permutation.
From Stdlib Require Import Floats.SpecFloat.
From stdpp Require Import base option list gmap strings.

#[local] Set Warnings "-clear-no-such-hyp".

Local Open Scope string_scope.
Local Open Scope list_scope.
Local Open Scope Z_scope.

(** ** Python strings *)

Module Str.

Definition code (c : ascii) : Z := Z.of_N (N_of_ascii c).

Definition byte (n : Z) : ascii := ascii_of_N (Z.to_N n).

(** The UTF-8 encoding of the code point [cp]. *)
Definition encode (cp : Z) : string :=
  if cp <? 128 then String (byte cp) EmptyString
  else if cp <? 2048 then
    String (byte (192 + cp / 64)) (String (byte (128 + cp mod 64)) EmptyString)
  else if cp <? 65536 then
    String (byte (224 + cp / 4096))
      (String (byte (128 + (cp / 64) mod 64))
         (String (byte (128 + cp mod 64)) EmptyString))
  else
    String (byte (240 + cp / 262144))
      (String (byte (128 + (cp / 4096) mod 64))
         (String (byte (128 + (cp / 64) mod 64))
            (String (byte (128 + cp mod 64)) EmptyString))).

(** The number of bytes of the character whose first byte is [c]. *)
Definition width (c : ascii) : nat :=
  if code c <? 192 then 1%nat
  else if code c <? 224 then 2%nat
  else if code c <? 240 then 3%nat
  else 4%nat.

(** [chunks need s] cuts [s] into characters: the first component is made of
    the [need] bytes that the character begun before [s] still lacks, the
    second lists the characters that follow. *)
Fixpoint chunks (need : nat) (s : string) : string * list string :=
  match s with
  | EmptyString => (EmptyString, [])
  | String c s' =>
      match need with
      | S n => let '(cur, rest) := chunks n s' in (String c cur, rest)
      | O =>
          let '(cur, rest) := chunks (pred (width c)) s' in
          (EmptyString, String c cur :: rest)
      end
  end.

(** The characters of [s], each a one-character string. *)
Definition chars (s : string) : list string := snd (chunks 0 s).

(** [''.join(cs)] *)
Definition join (cs : list string) : string := foldr String.append EmptyString cs.

(** The code points [c] with [chr(c).isspace()]. *)
Definition whitespace : list Z :=
  [
   9; 10; 11; 12; 13; 28; 29; 30; 31; 32; 133; 160; 5760; 8192; 8193; 8194;
   8195; 8196; 8197; 8198; 8199; 8200; 8201; 8202; 8232; 8233; 8239; 8287;
   12288
  ].

Definition whitespace_chars : list string := Eval vm_compute in map encode whitespace.

Definition is_space (ch : string) : bool := existsb (String.eqb ch) whitespace_chars.

Fixpoint lstrip (cs : list string) : list string :=
  match cs with
  | c :: cs' => if is_space c then lstrip cs' else cs
  | [] => []
  end.

Fixpoint rstrip (cs : list string) : list string :=
  match cs with
  | [] => []
  | c :: cs' =>
      match rstrip cs' with
      | [] => if is_space c then [] else [c]
      | t => c :: t
      end
  end.

(** [s.strip()]: the whitespace characters at both ends are removed. *)
Definition strip (s : string) : string := join (rstrip (lstrip (chars s))).

(** The code points [c] with [chr(c).upper() != chr(c)], each with the code
    points of [chr(c).upper()]. *)
Definition upper_table : list (Z * list Z) :=
  [
   (97, [65]); (98, [66]); (99, [67]); (100, [68]); (101, [69]); (102, [70]);
   (103, [71]); (104, [72]); (105, [73]); (106, [74]); (107, [75]);
   (108, [76]); (109, [77]); (110, [78]); (111, [79]); (112, [80]);
   (113, [81]); (114, [82]); (115, [83]); (116, [84]); (117, [85]);
   (118, [86]); (119, [87]); (120, [88]); (121, [89]); (122, [90]);
   (181, [924]); (223, [83; 83]); (224, [192]); (225, [193]); (226, [194]);
   (227, [195]); (228, [196]); (229, [197]); (230, [198]); (231, [199]);
   (232, [200]); (233, [201]); (234, [202]); (235, [203]); (236, [204]);
   (237, [205]); (238, [206]); (239, [207]); (240, [208]); (241, [209]);
   (242, [210]); (243, [211]); (244, [212]); (245, [213]); (246, [214]);
   (248, [216]); (249, [217]); (250, [218]); (251, [219]); (252, [220]);
   (253, [221]); (254, [222]); (255, [376]); (257, [256]); (259, [258]);
   (261, [260]); (263, [262]); (265, [264]); (267, [266]); (269, [268]);
   (271, [270]); (273, [272]); (275, [274]); (277, [276]); (279, [278]);
   (281, [280]); (283, [282]); (285, [284]); (287, [286]); (289, [288]);
   (291, [290]); (293, [292]); (295, [294]); (297, [296]); (299, [298]);
   (301, [300]); (303, [302]); (305, [73]); (307, [306]); (309, [308]);
   (311, [310]); (314, [313]); (316, [315]); (318, [317]); (320, [319]);
   (322, [321]); (324, [323]); (326, [325]); (328, [327]); (329, [700; 78]);
   (331, [330]); (333, [332]); (335, [334]); (337, [336]); (339, [338]);
   (341, [340]); (343, [342]); (345, [344]); (347, [346]); (349, [348]);
   (351, [350]); (353, [352]); (355, [354]); (357, [356]); (359, [358]);
   (361, [360]); (363, [362]); (365, [364]); (367, [366]); (369, [368]);
   (371, [370]); (373, [372]); (375, [374]); (378, [377]); (380, [379]);
   (382, [381]); (383, [83]); (384, [579]); (387, [386]); (389, [388]);
   (392, [391]); (396, [395]); (402, [401]); (405, [502]); (409, [408]);
   (410, [573]); (414, [544]); (417, [416]); (419, [418]); (421, [420]);
   (424, [423]); (429, [428]); (432, [431]); (436, [435]); (438, [437]);
   (441, [440]); (445, [444]); (447, [503]); (453, [452]); (454, [452]);
   (456, [455]); (457, [455]); (459, [458]); (460, [458]); (462, [461]);
   (464, [463]); (466, [465]); (468, [467]); (470, [469]); (472, [471]);
   (474, [473]); (476, [475]); (477, [398]); (479, [478]); (481, [480]);
   (483, [482]); (485, [484]); (487, [486]); (489, [488]); (491, [490]);
   (493, [492]); (495, [494]); (496, [74; 780]); (498, [497]); (499, [497]);
   (501, [500]); (505, [504]); (507, [506]); (509, [508]); (511, [510]);
   (513, [512]); (515, [514]); (517, [516]); (519, [518]); (521, [520]);
   (523, [522]); (525, [524]); (527, [526]); (529, [528]); (531, [530]);
   (533, [532]); (535, [534]); (537, [536]); (539, [538]); (541, [540]);
   (543, [542]); (547, [546]); (549, [548]); (551, [550]); (553, [552]);
   (555, [554]); (557, [556]); (559, [558]); (561, [560]); (563, [562]);
   (572, [571]); (575, [11390]); (576, [11391]); (578, [577]); (583, [582]);
   (585, [584]); (587, [586]); (589, [588]); (591, [590]); (592, [11375]);
   (593, [11373]); (594, [11376]); (595, [385]); (596, [390]); (598, [393]);
   (599, [394]); (601, [399]); (603, [400]); (604, [42923]); (608, [403]);
   (609, [42924]); (611, [404]); (613, [42893]); (614, [42922]);
   (616, [407]); (617, [406]); (618, [42926]); (619, [11362]);
   (620, [42925]); (623, [412]); (625, [11374]); (626, [413]); (629, [415]);
   (637, [11364]); (640, [422]); (642, [42949]); (643, [425]);
   (647, [42929]); (648, [430]); (649, [580]); (650, [433]); (651, [434]);
   (652, [581]); (658, [439]); (669, [42930]); (670, [42928]); (837, [921]);
   (881, [880]); (883, [882]); (887, [886]); (891, [1021]); (892, [1022]);
   (893, [1023]); (912, [921; 776; 769]); (940, [902]); (941, [904]);
   (942, [905]); (943, [906]); (944, [933; 776; 769]); (945, [913]);
   (946, [914]); (947, [915]); (948, [916]); (949, [917]); (950, [918]);
   (951, [919]); (952, [920]); (953, [921]); (954, [922]); (955, [923]);
   (956, [924]); (957, [925]); (958, [926]); (959, [927]); (960, [928]);
   (961, [929]); (962, [931]); (963, [931]); (964, [932]); (965, [933]);
   (966, [934]); (967, [935]); (968, [936]); (969, [937]); (970, [938]);
   (971, [939]); (972, [908]); (973, [910]); (974, [911]); (976, [914]);
   (977, [920]); (981, [934]); (982, [928]); (983, [975]); (985, [984]);
   (987, [986]); (989, [988]); (991, [990]); (993, [992]); (995, [994]);
   (997, [996]); (999, [998]); (1001, [1000]); (1003, [1002]);
   (1005, [1004]); (1007, [1006]); (1008, [922]); (1009, [929]);
   (1010, [1017]); (1011, [895]); (1013, [917]); (1016, [1015]);
   (1019, [1018]); (1072, [1040]); (1073, [1041]); (1074, [1042]);
   (1075, [1043]); (1076, [1044]); (1077, [1045]); (1078, [1046]);
   (1079, [1047]); (1080, [1048]); (1081, [1049]); (1082, [1050]);
   (1083, [1051]); (1084, [1052]); (1085, [1053]); (1086, [1054]);
   (1087, [1055]); (1088, [1056]); (1089, [1057]); (1090, [1058]);
   (1091, [1059]); (1092, [1060]); (1093, [1061]); (1094, [1062]);
   (1095, [1063]); (1096, [1064]); (1097, [1065]); (1098, [1066]);
   (1099, [1067]); (1100, [1068]); (1101, [1069]); (1102, [1070]);
   (1103, [1071]); (1104, [1024]); (1105, [1025]); (1106, [1026]);
   (1107, [1027]); (1108, [1028]); (1109, [1029]); (1110, [1030]);
   (1111, [1031]); (1112, [1032]); (1113, [1033]); (1114, [1034]);
   (1115, [1035]); (1116, [1036]); (1117, [1037]); (1118, [1038]);
   (1119, [1039]); (1121, [1120]); (1123, [1122]); (1125, [1124]);
   (1127, [1126]); (1129, [1128]); (1131, [1130]); (1133, [1132]);
   (1135, [1134]); (1137, [1136]); (1139, [1138]); (1141, [1140]);
   (1143, [1142]); (1145, [1144]); (1147, [1146]); (1149, [1148]);
   (1151, [1150]); (1153, [1152]); (1163, [1162]); (1165, [1164]);
   (1167, [1166]); (1169, [1168]); (1171, [1170]); (1173, [1172]);
   (1175, [1174]); (1177, [1176]); (1179, [1178]); (1181, [1180]);
   (1183, [1182]); (1185, [1184]); (1187, [1186]); (1189, [1188]);
   (1191, [1190]); (1193, [1192]); (1195, [1194]); (1197, [1196]);
   (1199, [1198]); (1201, [1200]); (1203, [1202]); (1205, [1204]);
   (1207, [1206]); (1209, [1208]); (1211, [1210]); (1213, [1212]);
   (1215, [1214]); (1218, [1217]); (1220, [1219]); (1222, [1221]);
   (1224, [1223]); (1226, [1225]); (1228, [1227]); (1230, [1229]);
   (1231, [1216]); (1233, [1232]); (1235, [1234]); (1237, [1236]);
   (1239, [1238]); (1241, [1240]); (1243, [1242]); (1245, [1244]);
   (1247, [1246]); (1249, [1248]); (1251, [1250]); (1253, [1252]);
   (1255, [1254]); (1257, [1256]); (1259, [1258]); (1261, [1260]);
   (1263, [1262]); (1265, [1264]); (1267, [1266]); (1269, [1268]);
   (1271, [1270]); (1273, [1272]); (1275, [1274]); (1277, [1276]);
   (1279, [1278]); (1281, [1280]); (1283, [1282]); (1285, [1284]);
   (1287, [1286]); (1289, [1288]); (1291, [1290]); (1293, [1292]);
   (1295, [1294]); (1297, [1296]); (1299, [1298]); (1301, [1300]);
   (1303, [1302]); (1305, [1304]); (1307, [1306]); (1309, [1308]);
   (1311, [1310]); (1313, [1312]); (1315, [1314]); (1317, [1316]);
   (1319, [1318]); (1321, [1320]); (1323, [1322]); (1325, [1324]);
   (1327, [1326]); (1377, [1329]); (1378, [1330]); (1379, [1331]);
   (1380, [1332]); (1381, [1333]); (1382, [1334]); (1383, [1335]);
   (1384, [1336]); (1385, [1337]); (1386, [1338]); (1387, [1339]);
   (1388, [1340]); (1389, [1341]); (1390, [1342]); (1391, [1343]);
   (1392, [1344]); (1393, [1345]); (1394, [1346]); (1395, [1347]);
   (1396, [1348]); (1397, [1349]); (1398, [1350]); (1399, [1351]);
   (1400, [1352]); (1401, [1353]); (1402, [1354]); (1403, [1355]);
   (1404, [1356]); (1405, [1357]); (1406, [1358]); (1407, [1359]);
   (1408, [1360]); (1409, [1361]); (1410, [1362]); (1411, [1363]);
   (1412, [1364]); (1413, [1365]); (1414, [1366]); (1415, [1333; 1362]);
   (4304, [7312]); (4305, [7313]); (4306, [7314]); (4307, [7315]);
   (4308, [7316]); (4309, [7317]); (4310, [7318]); (4311, [7319]);
   (4312, [7320]); (4313, [7321]); (4314, [7322]); (4315, [7323]);
   (4316, [7324]); (4317, [7325]); (4318, [7326]); (4319, [7327]);
   (4320, [7328]); (4321, [7329]); (4322, [7330]); (4323, [7331]);
   (4324, [7332]); (4325, [7333]); (4326, [7334]); (4327, [7335]);
   (4328, [7336]); (4329, [7337]); (4330, [7338]); (4331, [7339]);
   (4332, [7340]); (4333, [7341]); (4334, [7342]); (4335, [7343]);
   (4336, [7344]); (4337, [7345]); (4338, [7346]); (4339, [7347]);
   (4340, [7348]); (4341, [7349]); (4342, [7350]); (4343, [7351]);
   (4344, [7352]); (4345, [7353]); (4346, [7354]); (4349, [7357]);
   (4350, [7358]); (4351, [7359]); (5112, [5104]); (5113, [5105]);
   (5114, [5106]); (5115, [5107]); (5116, [5108]); (5117, [5109]);
   (7296, [1042]); (7297, [1044]); (7298, [1054]); (7299, [1057]);
   (7300, [1058]); (7301, [1058]); (7302, [1066]); (7303, [1122]);
   (7304, [42570]); (7545, [42877]); (7549, [11363]); (7566, [42950]);
   (7681, [7680]); (7683, [7682]); (7685, [7684]); (7687, [7686]);
   (7689, [7688]); (7691, [7690]); (7693, [7692]); (7695, [7694]);
   (7697, [7696]); (7699, [7698]); (7701, [7700]); (7703, [7702]);
   (7705, [7704]); (7707, [7706]); (7709, [7708]); (7711, [7710]);
   (7713, [7712]); (7715, [7714]); (7717, [7716]); (7719, [7718]);
   (7721, [7720]); (7723, [7722]); (7725, [7724]); (7727, [7726]);
   (7729, [7728]); (7731, [7730]); (7733, [7732]); (7735, [7734]);
   (7737, [7736]); (7739, [7738]); (7741, [7740]); (7743, [7742]);
   (7745, [7744]); (7747, [7746]); (7749, [7748]); (7751, [7750]);
   (7753, [7752]); (7755, [7754]); (7757, [7756]); (7759, [7758]);
   (7761, [7760]); (7763, [7762]); (7765, [7764]); (7767, [7766]);
   (7769, [7768]); (7771, [7770]); (7773, [7772]); (7775, [7774]);
   (7777, [7776]); (7779, [7778]); (7781, [7780]); (7783, [7782]);
   (7785, [7784]); (7787, [7786]); (7789, [7788]); (7791, [7790]);
   (7793, [7792]); (7795, [7794]); (7797, [7796]); (7799, [7798]);
   (7801, [7800]); (7803, [7802]); (7805, [7804]); (7807, [7806]);
   (7809, [7808]); (7811, [7810]); (7813, [7812]); (7815, [7814]);
   (7817, [7816]); (7819, [7818]); (7821, [7820]); (7823, [7822]);
   (7825, [7824]); (7827, [7826]); (7829, [7828]); (7830, [72; 817]);
   (7831, [84; 776]); (7832, [87; 778]); (7833, [89; 778]);
   (7834, [65; 702]); (7835, [7776]); (7841, [7840]); (7843, [7842]);
   (7845, [7844]); (7847, [7846]); (7849, [7848]); (7851, [7850]);
   (7853, [7852]); (7855, [7854]); (7857, [7856]); (7859, [7858]);
   (7861, [7860]); (7863, [7862]); (7865, [7864]); (7867, [7866]);
   (7869, [7868]); (7871, [7870]); (7873, [7872]); (7875, [7874]);
   (7877, [7876]); (7879, [7878]); (7881, [7880]); (7883, [7882]);
   (7885, [7884]); (7887, [7886]); (7889, [7888]); (7891, [7890]);
   (7893, [7892]); (7895, [7894]); (7897, [7896]); (7899, [7898]);
   (7901, [7900]); (7903, [7902]); (7905, [7904]); (7907, [7906]);
   (7909, [7908]); (7911, [7910]); (7913, [7912]); (7915, [7914]);
   (7917, [7916]); (7919, [7918]); (7921, [7920]); (7923, [7922]);
   (7925, [7924]); (7927, [7926]); (7929, [7928]); (7931, [7930]);
   (7933, [7932]); (7935, [7934]); (7936, [7944]); (7937, [7945]);
   (7938, [7946]); (7939, [7947]); (7940, [7948]); (7941, [7949]);
   (7942, [7950]); (7943, [7951]); (7952, [7960]); (7953, [7961]);
   (7954, [7962]); (7955, [7963]); (7956, [7964]); (7957, [7965]);
   (7968, [7976]); (7969, [7977]); (7970, [7978]); (7971, [7979]);
   (7972, [7980]); (7973, [7981]); (7974, [7982]); (7975, [7983]);
   (7984, [7992]); (7985, [7993]); (7986, [7994]); (7987, [7995]);
   (7988, [7996]); (7989, [7997]); (7990, [7998]); (7991, [7999]);
   (8000, [8008]); (8001, [8009]); (8002, [8010]); (8003, [8011]);
   (8004, [8012]); (8005, [8013]); (8016, [933; 787]); (8017, [8025]);
   (8018, [933; 787; 768]); (8019, [8027]); (8020, [933; 787; 769]);
   (8021, [8029]); (8022, [933; 787; 834]); (8023, [8031]); (8032, [8040]);
   (8033, [8041]); (8034, [8042]); (8035, [8043]); (8036, [8044]);
   (8037, [8045]); (8038, [8046]); (8039, [8047]); (8048, [8122]);
   (8049, [8123]); (8050, [8136]); (8051, [8137]); (8052, [8138]);
   (8053, [8139]); (8054, [8154]); (8055, [8155]); (8056, [8184]);
   (8057, [8185]); (8058, [8170]); (8059, [8171]); (8060, [8186]);
   (8061, [8187]); (8064, [7944; 921]); (8065, [7945; 921]);
   (8066, [7946; 921]); (8067, [7947; 921]); (8068, [7948; 921]);
   (8069, [7949; 921]); (8070, [7950; 921]); (8071, [7951; 921]);
   (8072, [7944; 921]); (8073, [7945; 921]); (8074, [7946; 921]);
   (8075, [7947; 921]); (8076, [7948; 921]); (8077, [7949; 921]);
   (8078, [7950; 921]); (8079, [7951; 921]); (8080, [7976; 921]);
   (8081, [7977; 921]); (8082, [7978; 921]); (8083, [7979; 921]);
   (8084, [7980; 921]); (8085, [7981; 921]); (8086, [7982; 921]);
   (8087, [7983; 921]); (8088, [7976; 921]); (8089, [7977; 921]);
   (8090, [7978; 921]); (8091, [7979; 921]); (8092, [7980; 921]);
   (8093, [7981; 921]); (8094, [7982; 921]); (8095, [7983; 921]);
   (8096, [8040; 921]); (8097, [8041; 921]); (8098, [8042; 921]);
   (8099, [8043; 921]); (8100, [8044; 921]); (8101, [8045; 921]);
   (8102, [8046; 921]); (8103, [8047; 921]); (8104, [8040; 921]);
   (8105, [8041; 921]); (8106, [8042; 921]); (8107, [8043; 921]);
   (8108, [8044; 921]); (8109, [8045; 921]); (8110, [8046; 921]);
   (8111, [8047; 921]); (8112, [8120]); (8113, [8121]); (8114, [8122; 921]);
   (8115, [913; 921]); (8116, [902; 921]); (8118, [913; 834]);
   (8119, [913; 834; 921]); (8124, [913; 921]); (8126, [921]);
   (8130, [8138; 921]); (8131, [919; 921]); (8132, [905; 921]);
   (8134, [919; 834]); (8135, [919; 834; 921]); (8140, [919; 921]);
   (8144, [8152]); (8145, [8153]); (8146, [921; 776; 768]);
   (8147, [921; 776; 769]); (8150, [921; 834]); (8151, [921; 776; 834]);
   (8160, [8168]); (8161, [8169]); (8162, [933; 776; 768]);
   (8163, [933; 776; 769]); (8164, [929; 787]); (8165, [8172]);
   (8166, [933; 834]); (8167, [933; 776; 834]); (8178, [8186; 921]);
   (8179, [937; 921]); (8180, [911; 921]); (8182, [937; 834]);
   (8183, [937; 834; 921]); (8188, [937; 921]); (8526, [8498]);
   (8560, [8544]); (8561, [8545]); (8562, [8546]); (8563, [8547]);
   (8564, [8548]); (8565, [8549]); (8566, [8550]); (8567, [8551]);
   (8568, [8552]); (8569, [8553]); (8570, [8554]); (8571, [8555]);
   (8572, [8556]); (8573, [8557]); (8574, [8558]); (8575, [8559]);
   (8580, [8579]); (9424, [9398]); (9425, [9399]); (9426, [9400]);
   (9427, [9401]); (9428, [9402]); (9429, [9403]); (9430, [9404]);
   (9431, [9405]); (9432, [9406]); (9433, [9407]); (9434, [9408]);
   (9435, [9409]); (9436, [9410]); (9437, [9411]); (9438, [9412]);
   (9439, [9413]); (9440, [9414]); (9441, [9415]); (9442, [9416]);
   (9443, [9417]); (9444, [9418]); (9445, [9419]); (9446, [9420]);
   (9447, [9421]); (9448, [9422]); (9449, [9423]); (11312, [11264]);
   (11313, [11265]); (11314, [11266]); (11315, [11267]); (11316, [11268]);
   (11317, [11269]); (11318, [11270]); (11319, [11271]); (11320, [11272]);
   (11321, [11273]); (11322, [11274]); (11323, [11275]); (11324, [11276]);
   (11325, [11277]); (11326, [11278]); (11327, [11279]); (11328, [11280]);
   (11329, [11281]); (11330, [11282]); (11331, [11283]); (11332, [11284]);
   (11333, [11285]); (11334, [11286]); (11335, [11287]); (11336, [11288]);
   (11337, [11289]); (11338, [11290]); (11339, [11291]); (11340, [11292]);
   (11341, [11293]); (11342, [11294]); (11343, [11295]); (11344, [11296]);
   (11345, [11297]); (11346, [11298]); (11347, [11299]); (11348, [11300]);
   (11349, [11301]); (11350, [11302]); (11351, [11303]); (11352, [11304]);
   (11353, [11305]); (11354, [11306]); (11355, [11307]); (11356, [11308]);
   (11357, [11309]); (11358, [11310]); (11359, [11311]); (11361, [11360]);
   (11365, [570]); (11366, [574]); (11368, [11367]); (11370, [11369]);
   (11372, [11371]); (11379, [11378]); (11382, [11381]); (11393, [11392]);
   (11395, [11394]); (11397, [11396]); (11399, [11398]); (11401, [11400]);
   (11403, [11402]); (11405, [11404]); (11407, [11406]); (11409, [11408]);
   (11411, [11410]); (11413, [11412]); (11415, [11414]); (11417, [11416]);
   (11419, [11418]); (11421, [11420]); (11423, [11422]); (11425, [11424]);
   (11427, [11426]); (11429, [11428]); (11431, [11430]); (11433, [11432]);
   (11435, [11434]); (11437, [11436]); (11439, [11438]); (11441, [11440]);
   (11443, [11442]); (11445, [11444]); (11447, [11446]); (11449, [11448]);
   (11451, [11450]); (11453, [11452]); (11455, [11454]); (11457, [11456]);
   (11459, [11458]); (11461, [11460]); (11463, [11462]); (11465, [11464]);
   (11467, [11466]); (11469, [11468]); (11471, [11470]); (11473, [11472]);
   (11475, [11474]); (11477, [11476]); (11479, [11478]); (11481, [11480]);
   (11483, [11482]); (11485, [11484]); (11487, [11486]); (11489, [11488]);
   (11491, [11490]); (11500, [11499]); (11502, [11501]); (11507, [11506]);
   (11520, [4256]); (11521, [4257]); (11522, [4258]); (11523, [4259]);
   (11524, [4260]); (11525, [4261]); (11526, [4262]); (11527, [4263]);
   (11528, [4264]); (11529, [4265]); (11530, [4266]); (11531, [4267]);
   (11532, [4268]); (11533, [4269]); (11534, [4270]); (11535, [4271]);
   (11536, [4272]); (11537, [4273]); (11538, [4274]); (11539, [4275]);
   (11540, [4276]); (11541, [4277]); (11542, [4278]); (11543, [4279]);
   (11544, [4280]); (11545, [4281]); (11546, [4282]); (11547, [4283]);
   (11548, [4284]); (11549, [4285]); (11550, [4286]); (11551, [4287]);
   (11552, [4288]); (11553, [4289]); (11554, [4290]); (11555, [4291]);
   (11556, [4292]); (11557, [4293]); (11559, [4295]); (11565, [4301]);
   (42561, [42560]); (42563, [42562]); (42565, [42564]); (42567, [42566]);
   (42569, [42568]); (42571, [42570]); (42573, [42572]); (42575, [42574]);
   (42577, [42576]); (42579, [42578]); (42581, [42580]); (42583, [42582]);
   (42585, [42584]); (42587, [42586]); (42589, [42588]); (42591, [42590]);
   (42593, [42592]); (42595, [42594]); (42597, [42596]); (42599, [42598]);
   (42601, [42600]); (42603, [42602]); (42605, [42604]); (42625, [42624]);
   (42627, [42626]); (42629, [42628]); (42631, [42630]); (42633, [42632]);
   (42635, [42634]); (42637, [42636]); (42639, [42638]); (42641, [42640]);
   (42643, [42642]); (42645, [42644]); (42647, [42646]); (42649, [42648]);
   (42651, [42650]); (42787, [42786]); (42789, [42788]); (42791, [42790]);
   (42793, [42792]); (42795, [42794]); (42797, [42796]); (42799, [42798]);
   (42803, [42802]); (42805, [42804]); (42807, [42806]); (42809, [42808]);
   (42811, [42810]); (42813, [42812]); (42815, [42814]); (42817, [42816]);
   (42819, [42818]); (42821, [42820]); (42823, [42822]); (42825, [42824]);
   (42827, [42826]); (42829, [42828]); (42831, [42830]); (42833, [42832]);
   (42835, [42834]); (42837, [42836]); (42839, [42838]); (42841, [42840]);
   (42843, [42842]); (42845, [42844]); (42847, [42846]); (42849, [42848]);
   (42851, [42850]); (42853, [42852]); (42855, [42854]); (42857, [42856]);
   (42859, [42858]); (42861, [42860]); (42863, [42862]); (42874, [42873]);
   (42876, [42875]); (42879, [42878]); (42881, [42880]); (42883, [42882]);
   (42885, [42884]); (42887, [42886]); (42892, [42891]); (42897, [42896]);
   (42899, [42898]); (42900, [42948]); (42903, [42902]); (42905, [42904]);
   (42907, [42906]); (42909, [42908]); (42911, [42910]); (42913, [42912]);
   (42915, [42914]); (42917, [42916]); (42919, [42918]); (42921, [42920]);
   (42933, [42932]); (42935, [42934]); (42937, [42936]); (42939, [42938]);
   (42941, [42940]); (42943, [42942]); (42945, [42944]); (42947, [42946]);
   (42952, [42951]); (42954, [42953]); (42961, [42960]); (42967, [42966]);
   (42969, [42968]); (42998, [42997]); (43859, [42931]); (43888, [5024]);
   (43889, [5025]); (43890, [5026]); (43891, [5027]); (43892, [5028]);
   (43893, [5029]); (43894, [5030]); (43895, [5031]); (43896, [5032]);
   (43897, [5033]); (43898, [5034]); (43899, [5035]); (43900, [5036]);
   (43901, [5037]); (43902, [5038]); (43903, [5039]); (43904, [5040]);
   (43905, [5041]); (43906, [5042]); (43907, [5043]); (43908, [5044]);
   (43909, [5045]); (43910, [5046]); (43911, [5047]); (43912, [5048]);
   (43913, [5049]); (43914, [5050]); (43915, [5051]); (43916, [5052]);
   (43917, [5053]); (43918, [5054]); (43919, [5055]); (43920, [5056]);
   (43921, [5057]); (43922, [5058]); (43923, [5059]); (43924, [5060]);
   (43925, [5061]); (43926, [5062]); (43927, [5063]); (43928, [5064]);
   (43929, [5065]); (43930, [5066]); (43931, [5067]); (43932, [5068]);
   (43933, [5069]); (43934, [5070]); (43935, [5071]); (43936, [5072]);
   (43937, [5073]); (43938, [5074]); (43939, [5075]); (43940, [5076]);
   (43941, [5077]); (43942, [5078]); (43943, [5079]); (43944, [5080]);
   (43945, [5081]); (43946, [5082]); (43947, [5083]); (43948, [5084]);
   (43949, [5085]); (43950, [5086]); (43951, [5087]); (43952, [5088]);
   (43953, [5089]); (43954, [5090]); (43955, [5091]); (43956, [5092]);
   (43957, [5093]); (43958, [5094]); (43959, [5095]); (43960, [5096]);
   (43961, [5097]); (43962, [5098]); (43963, [5099]); (43964, [5100]);
   (43965, [5101]); (43966, [5102]); (43967, [5103]); (64256, [70; 70]);
   (64257, [70; 73]); (64258, [70; 76]); (64259, [70; 70; 73]);
   (64260, [70; 70; 76]); (64261, [83; 84]); (64262, [83; 84]);
   (64275, [1348; 1350]); (64276, [1348; 1333]); (64277, [1348; 1339]);
   (64278, [1358; 1350]); (64279, [1348; 1341]); (65345, [65313]);
   (65346, [65314]); (65347, [65315]); (65348, [65316]); (65349, [65317]);
   (65350, [65318]); (65351, [65319]); (65352, [65320]); (65353, [65321]);
   (65354, [65322]); (65355, [65323]); (65356, [65324]); (65357, [65325]);
   (65358, [65326]); (65359, [65327]); (65360, [65328]); (65361, [65329]);
   (65362, [65330]); (65363, [65331]); (65364, [65332]); (65365, [65333]);
   (65366, [65334]); (65367, [65335]); (65368, [65336]); (65369, [65337]);
   (65370, [65338]); (66600, [66560]); (66601, [66561]); (66602, [66562]);
   (66603, [66563]); (66604, [66564]); (66605, [66565]); (66606, [66566]);
   (66607, [66567]); (66608, [66568]); (66609, [66569]); (66610, [66570]);
   (66611, [66571]); (66612, [66572]); (66613, [66573]); (66614, [66574]);
   (66615, [66575]); (66616, [66576]); (66617, [66577]); (66618, [66578]);
   (66619, [66579]); (66620, [66580]); (66621, [66581]); (66622, [66582]);
   (66623, [66583]); (66624, [66584]); (66625, [66585]); (66626, [66586]);
   (66627, [66587]); (66628, [66588]); (66629, [66589]); (66630, [66590]);
   (66631, [66591]); (66632, [66592]); (66633, [66593]); (66634, [66594]);
   (66635, [66595]); (66636, [66596]); (66637, [66597]); (66638, [66598]);
   (66639, [66599]); (66776, [66736]); (66777, [66737]); (66778, [66738]);
   (66779, [66739]); (66780, [66740]); (66781, [66741]); (66782, [66742]);
   (66783, [66743]); (66784, [66744]); (66785, [66745]); (66786, [66746]);
   (66787, [66747]); (66788, [66748]); (66789, [66749]); (66790, [66750]);
   (66791, [66751]); (66792, [66752]); (66793, [66753]); (66794, [66754]);
   (66795, [66755]); (66796, [66756]); (66797, [66757]); (66798, [66758]);
   (66799, [66759]); (66800, [66760]); (66801, [66761]); (66802, [66762]);
   (66803, [66763]); (66804, [66764]); (66805, [66765]); (66806, [66766]);
   (66807, [66767]); (66808, [66768]); (66809, [66769]); (66810, [66770]);
   (66811, [66771]); (66967, [66928]); (66968, [66929]); (66969, [66930]);
   (66970, [66931]); (66971, [66932]); (66972, [66933]); (66973, [66934]);
   (66974, [66935]); (66975, [66936]); (66976, [66937]); (66977, [66938]);
   (66979, [66940]); (66980, [66941]); (66981, [66942]); (66982, [66943]);
   (66983, [66944]); (66984, [66945]); (66985, [66946]); (66986, [66947]);
   (66987, [66948]); (66988, [66949]); (66989, [66950]); (66990, [66951]);
   (66991, [66952]); (66992, [66953]); (66993, [66954]); (66995, [66956]);
   (66996, [66957]); (66997, [66958]); (66998, [66959]); (66999, [66960]);
   (67000, [66961]); (67001, [66962]); (67003, [66964]); (67004, [66965]);
   (68800, [68736]); (68801, [68737]); (68802, [68738]); (68803, [68739]);
   (68804, [68740]); (68805, [68741]); (68806, [68742]); (68807, [68743]);
   (68808, [68744]); (68809, [68745]); (68810, [68746]); (68811, [68747]);
   (68812, [68748]); (68813, [68749]); (68814, [68750]); (68815, [68751]);
   (68816, [68752]); (68817, [68753]); (68818, [68754]); (68819, [68755]);
   (68820, [68756]); (68821, [68757]); (68822, [68758]); (68823, [68759]);
   (68824, [68760]); (68825, [68761]); (68826, [68762]); (68827, [68763]);
   (68828, [68764]); (68829, [68765]); (68830, [68766]); (68831, [68767]);
   (68832, [68768]); (68833, [68769]); (68834, [68770]); (68835, [68771]);
   (68836, [68772]); (68837, [68773]); (68838, [68774]); (68839, [68775]);
   (68840, [68776]); (68841, [68777]); (68842, [68778]); (68843, [68779]);
   (68844, [68780]); (68845, [68781]); (68846, [68782]); (68847, [68783]);
   (68848, [68784]); (68849, [68785]); (68850, [68786]); (71872, [71840]);
   (71873, [71841]); (71874, [71842]); (71875, [71843]); (71876, [71844]);
   (71877, [71845]); (71878, [71846]); (71879, [71847]); (71880, [71848]);
   (71881, [71849]); (71882, [71850]); (71883, [71851]); (71884, [71852]);
   (71885, [71853]); (71886, [71854]); (71887, [71855]); (71888, [71856]);
   (71889, [71857]); (71890, [71858]); (71891, [71859]); (71892, [71860]);
   (71893, [71861]); (71894, [71862]); (71895, [71863]); (71896, [71864]);
   (71897, [71865]); (71898, [71866]); (71899, [71867]); (71900, [71868]);
   (71901, [71869]); (71902, [71870]); (71903, [71871]); (93792, [93760]);
   (93793, [93761]); (93794, [93762]); (93795, [93763]); (93796, [93764]);
   (93797, [93765]); (93798, [93766]); (93799, [93767]); (93800, [93768]);
   (93801, [93769]); (93802, [93770]); (93803, [93771]); (93804, [93772]);
   (93805, [93773]); (93806, [93774]); (93807, [93775]); (93808, [93776]);
   (93809, [93777]); (93810, [93778]); (93811, [93779]); (93812, [93780]);
   (93813, [93781]); (93814, [93782]); (93815, [93783]); (93816, [93784]);
   (93817, [93785]); (93818, [93786]); (93819, [93787]); (93820, [93788]);
   (93821, [93789]); (93822, [93790]); (93823, [93791]); (125218, [125184]);
   (125219, [125185]); (125220, [125186]); (125221, [125187]);
   (125222, [125188]); (125223, [125189]); (125224, [125190]);
   (125225, [125191]); (125226, [125192]); (125227, [125193]);
   (125228, [125194]); (125229, [125195]); (125230, [125196]);
   (125231, [125197]); (125232, [125198]); (125233, [125199]);
   (125234, [125200]); (125235, [125201]); (125236, [125202]);
   (125237, [125203]); (125238, [125204]); (125239, [125205]);
   (125240, [125206]); (125241, [125207]); (125242, [125208]);
   (125243, [125209]); (125244, [125210]); (125245, [125211]);
   (125246, [125212]); (125247, [125213]); (125248, [125214]);
   (125249, [125215]); (125250, [125216]); (125251, [125217])
  ].

Definition upper_chars : list (string * string) :=
  Eval vm_compute in
    map (fun kv => (encode (fst kv), join (map encode (snd kv)))) upper_table.

(** [ch.upper()] for a one-character string [ch]; the result can have up to
    three characters. *)
Definition upper_char (ch : string) : string :=
  match List.find (fun kv => String.eqb ch (fst kv)) upper_chars with
  | Some kv => snd kv
  | None => ch
  end.

(** [s.upper()]: every character is mapped on its own. *)
Definition upper (s : string) : string := join (map upper_char (chars s)).

(** [s[0]] of a string known to be non-empty; the guard of the caller makes
    the empty case unreachable, and the source maps it to the empty string
    as well. *)
Definition first_char (s : string) : string :=
  match chars s with
  | c :: _ => c
  | [] => EmptyString
  end.

(** Truth value of a string: non-empty. *)
Definition truthy (s : string) : bool :=
  match s with EmptyString => false | _ => true end.

(** [a or b] on strings. *)
Definition or_else (a b : string) : string := if truthy a then a else b.

End Str.

(** ** [datetime.strptime(_, '%Y-%m-%d').date()] and [date.isoformat()] *)

Module Dates.

Record date := mkDate { year : Z; month : Z; day : Z }.

#[global] Instance date_eq_dec : EqDecision date.
Proof. solve_decision. Defined.

(** The value of one of the characters [0] to [9]. *)
Definition ascii_digit (ch : string) : option Z :=
  match ch with
  | String c EmptyString =>
      if (48 <=? Str.code c) && (Str.code c <=? 57) then Some (Str.code c - 48)
      else None
  | _ => None
  end.

(** The code points of the digit zero of every script: the decimal digits
    of Unicode are the ten code points from each of these on. *)
Definition digit_zeros : list Z :=
  [
   48; 1632; 1776; 1984; 2406; 2534; 2662; 2790; 2918; 3046; 3174; 3302;
   3430; 3558; 3664; 3792; 3872; 4160; 4240; 6112; 6160; 6470; 6608; 6784;
   6800; 6992; 7088; 7232; 7248; 42528; 43216; 43264; 43472; 43504; 43600;
   44016; 65296; 66720; 68912; 69734; 69872; 69942; 70096; 70384; 70736;
   70864; 71248; 71360; 71472; 71904; 72016; 72784; 73040; 73120; 92768;
   92864; 93008; 120782; 120792; 120802; 120812; 120822; 123200; 123632;
   125264; 130032
  ].

Definition digit_chars : list (string * Z) :=
  Eval vm_compute in
    (zero ← digit_zeros;
     map (fun i => (Str.encode (zero + i), i)) [0; 1; 2; 3; 4; 5; 6; 7; 8; 9]).

(** The class [\d] of a [str] pattern is every Unicode decimal digit, and
    [int] reads each with its value. *)
Definition digit_val (ch : string) : option Z :=
  snd <$> List.find (fun kv => String.eqb ch (fst kv)) digit_chars.

Definition between (lo hi x : Z) : bool := (lo <=? x) && (x <=? hi).

(** The regular expression [strptime] compiles the format to is
    [(\d\d\d\d)-(1[0-2]|0[1-9]|[1-9])-(3[0-1]|[1-2]\d|0[1-9]|[1-9]| [1-9])].
    Each piece below returns the list of its matches at the head of the
    input, in the priority order of a backtracking matcher, each with the
    integer value of the matched text and the rest of the input.  The input
    is a list of characters.  A range such as [[0-2]] or [[1-9]] holds
    ASCII digits only; the class [\d] holds the decimal digits of every
    script. *)

(** A digit of a range, then a digit of a range or of the class [second]. *)
Definition two_digits (second : string -> option Z) (p q : Z -> bool)
    (s : list string) : list (Z * list string) :=
  match s with
  | a :: b :: rest =>
      match ascii_digit a, second b with
      | Some x, Some y => if p x && q y then [(10 * x + y, rest)] else []
      | _, _ => []
      end
  | _ => []
  end.

Definition one_digit (p : Z -> bool) (s : list string) : list (Z * list string) :=
  match s with
  | a :: rest =>
      match ascii_digit a with
      | Some x => if p x then [(x, rest)] else []
      | None => []
      end
  | _ => []
  end.

Definition space_digit (p : Z -> bool) (s : list string) : list (Z * list string) :=
  match s with
  | a :: rest => if String.eqb a " " then one_digit p rest else []
  | _ => []
  end.

Definition lit (c : string) (s : list string) : list (list string) :=
  match s with
  | a :: rest => if String.eqb a c then [rest] else []
  | _ => []
  end.

(** [\d\d\d\d] *)
Definition re_Y (s : list string) : list (Z * list string) :=
  match s with
  | a :: b :: c :: d :: rest =>
      match digit_val a, digit_val b, digit_val c, digit_val d with
      | Some x3, Some x2, Some x1, Some x0 =>
          [(1000 * x3 + 100 * x2 + 10 * x1 + x0, rest)]
      | _, _, _, _ => []
      end
  | _ => []
  end.

(** [1[0-2]|0[1-9]|[1-9]] *)
Definition re_m (s : list string) : list (Z * list string) :=
  two_digits ascii_digit (Z.eqb 1) (between 0 2) s
  ++ two_digits ascii_digit (Z.eqb 0) (between 1 9) s
  ++ one_digit (between 1 9) s.

(** [3[0-1]|[1-2]\d|0[1-9]|[1-9]| [1-9]] *)
Definition re_d (s : list string) : list (Z * list string) :=
  two_digits ascii_digit (Z.eqb 3) (between 0 1) s
  ++ two_digits digit_val (between 1 2) (between 0 9) s
  ++ two_digits ascii_digit (Z.eqb 0) (between 1 9) s
  ++ one_digit (between 1 9) s
  ++ space_digit (between 1 9) s.

(** What the expression matches after the year [y]. *)
Definition after_year (y : Z) (s1 : list string) : list (Z * Z * Z * list string) :=
  s2 ← lit "-" s1;
  '(m, s3) ← re_m s2;
  s4 ← lit "-" s3;
  '(d, s5) ← re_d s4;
  [(y, m, d, s5)].

(** All matches of the whole expression at the start of [s], best first. *)
Definition re_matches (s : list string) : list (Z * Z * Z * list string) :=
  '(y, s1) ← re_Y s;
  after_year y s1.

Definition is_leap (y : Z) : bool :=
  (y mod 4 =? 0) && (negb (y mod 100 =? 0) || (y mod 400 =? 0)).

Definition days_in_month (y m : Z) : Z :=
  if m =? 2 then (if is_leap y then 29 else 28)
  else if (m =? 4) || (m =? 6) || (m =? 9) || (m =? 11) then 30
  else 31.

(** The range checks of the [date] constructor. *)
Definition valid (d : date) : bool :=
  between 1 9999 (year d) && between 1 12 (month d)
  && between 1 (days_in_month (year d) (month d)) (day d).

(** [strptime]: [re.match] takes the first match; text left over after it,
    or field values that are no calendar date, raise [ValueError], which
    is [None] here. *)
Definition strptime (s : string) : option date :=
  match re_matches (Str.chars s) with
  | (y, m, d, rest) :: _ =>
      match rest with
      | [] => let dt := mkDate y m d in if valid dt then Some dt else None
      | _ => None
      end
  | [] => None
  end.

Definition digit_char (n : Z) : ascii := ascii_of_N (Z.to_N (48 + n mod 10)).

Definition pad2 (n : Z) (k : string) : string :=
  String (digit_char (n / 10)) (String (digit_char n) k).

Definition pad4 (n : Z) (k : string) : string :=
  String (digit_char (n / 1000)) (String (digit_char (n / 100)) (pad2 n k)).

(** [d.isoformat()], that is ["%04d-%02d-%02d"]. *)
Definition isoformat (d : date) : string :=
  pad4 (year d) (String "-" (pad2 (month d) (String "-" (pad2 (day d) EmptyString)))).

End Dates.

(** ** Rows *)

(** The dict returned by [clean_row]. *)
Record row := mkRow {
  student_id : string;
  student_name : string;
  date : string;
  status : string
}.

#[global] Instance row_eq_dec : EqDecision row.
Proof. solve_decision. Defined.

(** The exceptions [clean_row] raises. *)
Inductive exception : Type := ValueError | AttributeError.

(** A call either returns a value or raises an exception with a message. *)
Inductive outcome (A : Type) : Type :=
| Returned (a : A)
| Raised (e : exception) (msg : string).
Arguments Returned {A} a.
Arguments Raised {A} e msg.

Definition returns {A} (o : outcome A) : bool :=
  match o with Returned _ => true | Raised _ _ => false end.

(** [row.get(k, '')]: a [str], or [None]. *)
Definition cell (r : gmap string (option string)) (k : string) : option string :=
  default (Some EmptyString) (r !! k).

(** [str(v)] of a [str] or [None]. *)
Definition str (v : option string) : string := default "None" v.

(** [str(row.get(k, ''))] *)
Definition get (r : gmap string (option string)) (k : string) : string :=
  str (cell r k).

Definition known_status (s : string) : bool :=
  bool_decide (s = "P" ∨ s = "A" ∨ s = "L" ∨ s = "H").

(** Lines 33 to 36: the status after trimming, uppercasing and shortening. *)
Definition clean_status (raw : string) : string :=
  let status := Str.upper (Str.strip raw) in
  if Str.truthy status && negb (known_status status)
  then (if Str.truthy status then Str.first_char status else EmptyString)
  else status.

(** The message of the [AttributeError] of [None.strip()]. *)
Definition no_strip : string := "'NoneType' object has no attribute 'strip'".

(** Lines 29 to 43.  The identifier and the status go through [str]; the
    name and the date do not, so that [.strip()] is called on [None] when
    one of them is [None].  The [try] encloses the call of [strptime]
    alone. *)
Definition clean_row (r : gmap string (option string)) : outcome row :=
  let sid := Str.strip (get r "student_id") in
  match cell r "student_name" with
  | None => Raised AttributeError no_strip
  | Some nm =>
      let name := Str.strip nm in
      match cell r "date" with
      | None => Raised AttributeError no_strip
      | Some dt =>
          let date_s := Str.strip dt in
          let status := clean_status (get r "status") in
          match Dates.strptime date_s with
          | Some d => Returned (mkRow sid name (Dates.isoformat d) status)
          | None => Raised ValueError ("Invalid date: " ++ date_s)%string
          end
      end
  end.

(** ** Python numbers *)

Module Num.

Definition prec : Z := 53.
Definition emax : Z := 1024.

(** An [int] or a [float]. *)
Inductive number : Type :=
| Int (z : Z)
| Float (f : spec_float).

(** An integer as an unrounded binary operand: mantissa [|z|], exponent 0. *)
Definition operand (z : Z) : spec_float :=
  match z with
  | Z0 => S754_zero false
  | Zpos p => S754_finite false p 0
  | Zneg p => S754_finite true p 0
  end.

(** [float(z)]: the integer rounded to the nearest binary64. *)
Definition of_int (z : Z) : spec_float := binary_normalize prec emax z 0 false.

Definition is_finite (f : spec_float) : bool :=
  match f with
  | S754_zero _ | S754_finite _ _ _ => true
  | _ => false
  end.

(** [a / b] on two [int]s: the exact quotient rounded once, to nearest
    even.  [None] stands for the two exceptions of the operation,
    [ZeroDivisionError] and [OverflowError] (quotient too large for a
    float). *)
Definition truediv (a b : Z) : option spec_float :=
  if b =? 0 then None
  else
    let q := SFdiv prec emax (operand a) (operand b) in
    if is_finite q then Some q else None.

(** [x * n] for a [float] [x] and an [int] [n]: [n] is converted first. *)
Definition mul_int (x : spec_float) (n : Z) : spec_float :=
  SFmul prec emax x (of_int n).

(** Nearest integer to [n / d] for [d > 0], ties to even. *)
Definition round_half_even (n d : Z) : Z :=
  let q := n / d in
  match 2 * (n mod d) ?= d with
  | Lt => q
  | Gt => q + 1
  | Eq => if Z.even q then q else q + 1
  end.

(** [round(x, 2)] on a [float]: the value is rounded to the nearest
    multiple of 1/100 (ties to even, judged on the exact binary value),
    written as a decimal string, and that string is read back as the
    nearest binary64.  Infinities and NaN round to themselves. *)
Definition round2_float (x : spec_float) : spec_float :=
  match x with
  | S754_finite s m e =>
      let hundredths :=
        if 0 <=? e then Zpos m * 2 ^ e * 100
        else round_half_even (Zpos m * 100) (2 ^ (- e)) in
      match hundredths with
      | Zpos h => SFdiv prec emax (S754_finite s h 0) (S754_finite false 100 0)
      | _ => S754_zero s
      end
  | _ => x
  end.

(** [round(x, 2)]: an [int] is returned as it is. *)
Definition round2 (x : number) : number :=
  match x with
  | Int z => Int z
  | Float f => Float (round2_float f)
  end.

(** The exact value of a number, for comparisons: NaN, an infinity, or
    [m * 2 ^ e]. *)
Inductive value : Type :=
| VNan
| VInf (negative : bool)
| VFin (m e : Z).

Definition value_of (x : number) : value :=
  match x with
  | Int z => VFin z 0
  | Float (S754_zero _) => VFin 0 0
  | Float (S754_finite s m e) => VFin (if s then Zneg m else Zpos m) e
  | Float (S754_infinity s) => VInf s
  | Float S754_nan => VNan
  end.

Definition compare_value (a b : value) : option comparison :=
  match a, b with
  | VNan, _ | _, VNan => None
  | VInf s1, VInf s2 =>
      Some (match s1, s2 with
            | true, false => Lt
            | false, true => Gt
            | _, _ => Eq
            end)
  | VInf s, VFin _ _ => Some (if s then Lt else Gt)
  | VFin _ _, VInf s => Some (if s then Gt else Lt)
  | VFin m1 e1, VFin m2 e2 =>
      let e := Z.min e1 e2 in
      Some (m1 * 2 ^ (e1 - e) ?= m2 * 2 ^ (e2 - e))
  end.

(** Python compares an [int] with a [float], and two [float]s, by their
    exact values; any comparison with NaN is false. *)
Definition compare (x y : number) : option comparison :=
  compare_value (value_of x) (value_of y).

(** [x < y] *)
Definition ltb (x y : number) : bool :=
  match compare x y with Some Lt => true | _ => false end.

(** [x <= y] *)
Definition leb (x y : number) : bool :=
  match compare x y with Some Lt | Some Eq => true | _ => false end.

(** [x == y] *)
Definition eqb (x y : number) : bool :=
  match compare x y with Some Eq => true | _ => false end.

End Num.

Import Num.

(** ** [deduplicate_records] *)

Definition key (r : row) : string * string := (student_id r, date r).

(** The loop of [deduplicate_records], on its two variables [seen] and
    [out]. *)
Fixpoint dedup_loop (records : list row) (seen : gset (string * string))
    (out : list row) : list row :=
  match records with
  | [] => out
  | r :: rest =>
      if decide (key r ∈ seen) then dedup_loop rest seen out
      else dedup_loop rest ({[key r]} ∪ seen) (out ++ [r])
  end.

Definition deduplicate_records (records : list row) : list row :=
  dedup_loop records ∅ [].

(** ** [analyze] *)

(** A [defaultdict] keyed by strings, as the list of its items in insertion
    order. *)
Section DefaultDict.
Context {V : Type}.
Variable fresh : V.

(** [d[k] = f(d[k])]: a key that is missing is first inserted, at the end,
    with the default value. *)
Fixpoint dd_update (f : V -> V) (k : string) (d : list (string * V))
    : list (string * V) :=
  match d with
  | [] => [(k, f fresh)]
  | (k', v) :: d' =>
      if decide (k' = k) then (k', f v) :: d'
      else (k', v) :: dd_update f k d'
  end.
End DefaultDict.

(** [sorted(d.items())]: the keys of a dict are distinct, so the items are
    ordered by key alone, strings being compared character by character.
    The sort is stable. *)
Section Sorted.
Context {V : Type}.

Fixpoint insert_item (x : string * V) (l : list (string * V)) : list (string * V) :=
  match l with
  | [] => [x]
  | y :: l' =>
      if String.leb (fst x) (fst y) then x :: y :: l'
      else y :: insert_item x l'
  end.

Definition sorted_items (d : list (string * V)) : list (string * V) :=
  foldr insert_item [] d.
End Sorted.

(** The counters kept per student and per day. *)
Record student_acc := mkStudentAcc {
  acc_name : string;
  acc_present : Z;
  acc_total : Z
}.

Record day_acc := mkDayAcc {
  day_present : Z;
  day_total : Z
}.

Definition fresh_student : student_acc := mkStudentAcc "" 0 0.
Definition fresh_day : day_acc := mkDayAcc 0 0.

(** The body of the accumulation loop (lines 92 to 98). *)
Definition accumulate (st : list (string * student_acc) * list (string * day_acc))
    (r : row) : list (string * student_acc) * list (string * day_acc) :=
  let '(students, daily) := st in
  let sid := student_id r in
  let students :=
    dd_update fresh_student
      (fun v => mkStudentAcc (Str.or_else (acc_name v) (student_name r))
                             (acc_present v) (acc_total v))
      sid students in
  let students :=
    dd_update fresh_student
      (fun v => mkStudentAcc (acc_name v) (acc_present v) (acc_total v + 1))
      sid students in
  let daily :=
    dd_update fresh_day
      (fun v => mkDayAcc (day_present v) (day_total v + 1)) (date r) daily in
  if String.eqb (status r) "P" then
    (dd_update fresh_student
       (fun v => mkStudentAcc (acc_name v) (acc_present v + 1) (acc_total v))
       sid students,
     dd_update fresh_day
       (fun v => mkDayAcc (day_present v + 1) (day_total v)) (date r) daily)
  else (students, daily).

(** [(present / total * 100) if total else 0]; [None] when the division
    raises. *)
Definition percent (present total : Z) : option number :=
  if total =? 0 then Some (Int 0)
  else q ← truediv present total; Some (Float (mul_int q 100)).

Record student_summary := mkSummary {
  summary_id : string;
  name : string;
  present : Z;
  total : Z;
  percentage : number
}.

Record day_rate := mkDayRate {
  rate_date : string;
  rate_present : Z;
  rate_total : Z;
  rate : number
}.

Record analysis := mkAnalysis {
  students : list student_summary;
  defaulters : list student_summary;
  daily_rates : list day_rate
}.

Definition summarize (item : string * student_acc) : option student_summary :=
  let '(sid, v) := item in
  perc ← percent (acc_present v) (acc_total v);
  Some (mkSummary sid (acc_name v) (acc_present v) (acc_total v) (round2 perc)).

Definition day_summarize (item : string * day_acc) : option day_rate :=
  let '(date_s, v) := item in
  r ← percent (day_present v) (day_total v);
  Some (mkDayRate date_s (day_present v) (day_total v) (round2 r)).

Definition default_threshold : number := Int 75.

(** [analyze(records, defaulter_threshold)]; [None] when an exception
    escapes. *)
Definition analyze (records : list row) (defaulter_threshold : number)
    : option analysis :=
  let records := deduplicate_records records in
  let '(students, daily) := fold_left accumulate records ([], []) in
  result ← mapM summarize students;
  let defaulters :=
    filter (fun r => Is_true (Num.ltb (percentage r) defaulter_threshold)) result in
  daily_rates ← mapM day_summarize (sorted_items daily);
  Some (mkAnalysis result defaulters daily_rates).

(** * Vocabulary of the statements

    The definitions below are not part of the program.  They name what the
    theorems talk about: the number of records of a student or of a day,
    the first non-empty name, the keys of a dict in insertion order, and
    integer bounds on binary64 values. *)

(** A raw row with its four fields given, each a [str]. *)
Definition raw_row (sid nm d st : string) : gmap string (option string) :=
  <["student_id" := Some sid]> (<["student_name" := Some nm]>
    (<["date" := Some d]> (<["status" := Some st]> ∅))).

(** ** Bounds on floats *)

Definition loc_weight (l : location) : Z :=
  match l with loc_Exact => 0 | loc_Inexact _ => 1 end.

(** The mantissa of a shift record, counted one higher when bits have been
    shifted out, is at most [K]. *)
Definition shr_inv (mrs : shr_record) (K : Z) : Prop :=
  0 <= shr_m mrs /\ shr_m mrs + (if shr_r mrs || shr_s mrs then 1 else 0) <= K.

(** [0 <= x <= B], for an integer [B]. *)
Definition at_most (B : Z) (x : spec_float) : Prop :=
  match x with
  | S754_zero _ => True
  | S754_finite false m e => e <= 0 /\ Zpos m <= B * 2 ^ (- e)
  | _ => False
  end.

(** The mantissa of a shift record is at least [L] and, counted one higher
    when bits have been shifted out, at most [K]. *)
Definition shr_within (mrs : shr_record) (L K : Z) : Prop :=
  L <= shr_m mrs /\ shr_m mrs + (if shr_r mrs || shr_s mrs then 1 else 0) <= K.

(** [L * 2^-k <= x <= B * 2^-k], for whole numbers [L >= 0] and [B]. *)
Definition within (L B k : Z) (x : spec_float) : Prop :=
  match x with
  | S754_zero _ => L <= 0
  | S754_finite false m e => e <= - k /\ L * 2 ^ (- e - k) <= Zpos m <= B * 2 ^ (- e - k)
  | _ => False
  end.

(** [0 <= x] and [x <= 100] hold as Python comparisons. *)
Definition in_percent_range (x : number) : Prop :=
  Num.leb (Int 0) x = true /\ Num.leb x (Int 100) = true.

(** ** Keys and counts *)

(** Keys in the order in which they first occur. *)
Definition add_key (ks : list string) (k : string) : list string :=
  if decide (k ∈ ks) then ks else ks ++ [k].

Definition distinct (ks : list string) : list string := fold_left add_key ks [].

(** The rows of [l] whose field [proj] is [k], and their counts. *)
Definition rows_with (proj : row -> string) (k : string) (l : list row) : list row :=
  filter (fun r => proj r = k) l.

Definition count_total (proj : row -> string) (k : string) (l : list row) : Z :=
  Z.of_nat (length (rows_with proj k l)).

Definition count_present (proj : row -> string) (k : string) (l : list row) : Z :=
  Z.of_nat (length (filter (fun r => status r = "P") (rows_with proj k l))).

(** The first non-empty name among the rows of a student, or the empty
    string. *)
Definition name_of (sid : string) (l : list row) : string :=
  default "" (head (filter (fun n => n ≠ "") (map student_name (rows_with student_id sid l)))).

(** The counters of a student and of a day once the rows [l] have been
    accumulated. *)
Definition acc_of (l : list row) (sid : string) : student_acc :=
  mkStudentAcc (name_of sid l) (count_present student_id sid l) (count_total student_id sid l).

Definition day_acc_of (l : list row) (d : string) : day_acc :=
  mkDayAcc (count_present date d l) (count_total date d l).

(** The dict with keys [ks], in that order, and value [g k] at [k]. *)
Definition view {V : Type} (g : string -> V) (ks : list string) : list (string * V) :=
  map (fun k => (k, g k)) ks.

(** [sorted_items] on the keys alone. *)
Fixpoint insert_key (k : string) (ks : list string) : list string :=
  match ks with
  | [] => [k]
  | y :: ks' => if String.leb k y then k :: y :: ks' else y :: insert_key k ks'
  end.

Definition sort_keys (ks : list string) : list string := foldr insert_key [] ks.

(** [a < b] on strings. *)
Definition str_lt (a b : string) : Prop := String.ltb a b = true.

Definition sum_Z (l : list Z) : Z := foldr Z.add 0 l.

(** The summary of a student and the rate of a day, from the rows [l]. *)
Definition summary_of (l : list row) (sid : string) : student_summary :=
  mkSummary sid (name_of sid l)
    (count_present student_id sid l) (count_total student_id sid l)
    (round2 (default (Int 0)
       (percent (count_present student_id sid l) (count_total student_id sid l)))).

Definition day_rate_of (l : list row) (d : string) : day_rate :=
  mkDayRate d (count_present date d l) (count_total date d l)
    (round2 (default (Int 0) (percent (count_present date d l) (count_total date d l)))).

(** * Vocabulary of the further properties *)

(** No character of the list is whitespace. *)
Definition nonspace (cs : list string) : bool :=
  forallb (fun c => negb (Str.is_space c)) cs.

(** The list is empty or starts with a character that is not whitespace. *)
Definition starts_clean (cs : list string) : Prop :=
  match cs with
  | [] => True
  | c :: _ => Str.is_space c = false
  end.

(** A whole character: a first byte and the bytes it announces. *)
Definition whole (c : string) : bool :=
  match c with
  | String a c' => Nat.eqb (String.length c') (pred (Str.width a))
  | EmptyString => false
  end.

(** A string of one character. *)
Definition single (c : string) : Prop := Str.chars c = [c].

(** A list of characters as [Str.chars] gives it: every element is one
    character, whole unless it is the last. *)
Fixpoint well_formed (cs : list string) : Prop :=
  match cs with
  | [] => True
  | c :: cs' =>
      match cs' with
      | [] => single c
      | _ => whole c = true /\ well_formed cs'
      end
  end.

(** What holds of every result of the uppercase table: it is made of whole
    characters, none of them whitespace and none with an uppercase mapping
    of its own. *)
Definition upper_result (u : string) : bool :=
  match Str.chars u with
  | [] => false
  | cs =>
      forallb
        (fun c => whole c && negb (Str.is_space c) && String.eqb (Str.upper_char c) c)
        cs
  end.

(** A character that [strip] and [upper] leave alone. *)
Definition plain_char (c : string) : Prop :=
  single c /\ Str.is_space c = false /\ Str.upper_char c = c.

(** A row that [clean_row] maps to itself. *)
Definition normalized (r : row) : Prop :=
  clean_row (raw_row (student_id r) (student_name r) (date r) (status r)) = Returned r.

(** Calendar order of two dates. *)
Definition date_compare (a b : Dates.date) : comparison :=
  match Dates.year a ?= Dates.year b with
  | Eq =>
      match Dates.month a ?= Dates.month b with
      | Eq => Dates.day a ?= Dates.day b
      | c => c
      end
  | c => c
  end.

(** * The record store

    The CSV file is modelled by the rows that [csv.reader] yields from it,
    which are the rows [csv.writer] wrote to it: each row is the list of
    its cells.  The first row is the header.  What the functions print is
    returned with their result, one string per line. *)

(** [DATA_FILE], with the path separator of POSIX. *)
Definition DATA_FILE : string := "data/attendance.csv".

Definition header : list string := ["student_id"; "student_name"; "date"; "status"].

(** Lines 21 to 25: a file that does not exist is created with the header. *)
Definition ensure_file (f : option (list (list string))) : list (list string) :=
  match f with
  | Some rows => rows
  | None => [header]
  end.

(** The cells written for a row. *)
Definition cells_of (r : row) : list string :=
  [student_id r; student_name r; date r; status r].


(** The dict [csv.DictReader] builds for a row: [dict(zip(fieldnames, row))],
    then [None] under every field name the row is too short for.  A cell is
    [Some s] or [None].  The list of surplus cells kept under the key [None]
    is left out: no string key reads it. *)
Definition dict_row (fieldnames cells : list string) : gmap string (option string) :=
  fold_left (fun d k => <[k := None]> d) (drop (length cells) fieldnames)
    (fold_left (fun d kv => <[fst kv := Some (snd kv)]> d) (zip fieldnames cells) ∅).

(** The body of the loop of [read_all_records] for one row of the reader;
    [DictReader] passes over empty rows. *)
Definition read_row (fieldnames : list string)
    (st : list row * list string) (cells : list string) : list row * list string :=
  match cells with
  | [] => st
  | _ =>
      match clean_row (dict_row fieldnames cells) with
      | Returned r => (fst st ++ [r], snd st)
      | Raised _ e => (fst st, snd st ++ ["Skipping invalid row: " ++ e]%string)
      end
  end.

(** [read_all_records]: the records and the lines printed.  The first row of
    the file gives the field names; a file without rows gives no record. *)
Definition read_all_records (f : list (list string)) : list row * list string :=
  match f with
  | [] => ([], [])
  | fieldnames :: rows => fold_left (read_row fieldnames) rows ([], [])
  end.

(** [save_cleaned]: the file after the call and the line printed. *)
Definition save_cleaned (records : list row) (f : list (list string))
    : list (list string) * list string :=
  (header :: map cells_of (deduplicate_records records),
   ["Cleaned data saved to " ++ DATA_FILE]%string).

(** ** The bar chart of [plot_attendance_by_student] *)

(** [sorted(students, key=lambda x: x['percentage'], reverse=True)]: a stable
    sort into descending order; [x] goes before the first element whose key
    is not greater than its own. *)
Fixpoint insert_desc (x : student_summary) (l : list student_summary)
    : list student_summary :=
  match l with
  | [] => [x]
  | y :: l' =>
      if Num.ltb (percentage x) (percentage y) then y :: insert_desc x l'
      else x :: y :: l'
  end.

Definition sorted_desc (l : list student_summary) : list student_summary :=
  foldr insert_desc [] l.

(** The slice [l[:n]]; a negative [n] counts from the end. *)
Definition slice_to {A : Type} (n : Z) (l : list A) : list A :=
  if 0 <=? n then take (Z.to_nat n) l
  else take (length l - Z.to_nat (- n)) l.

(** What is handed to [plt.barh] and [plt.title]. *)
Record bar_chart := mkBarChart {
  bar_labels : list string;
  bar_values : list number;
  bar_count : nat
}.

(** [plot_attendance_by_student]: the lines printed and the chart drawn, if
    any.  The title of the chart is ['Top {bar_count} Students by
    Attendance']. *)
Definition plot_attendance_by_student (students : list student_summary) (top_n : Z)
    : list string * option bar_chart :=
  let data := slice_to top_n (sorted_desc students) in
  match data with
  | [] => (["No student data to plot."], None)
  | _ =>
      let names :=
        map (fun x => (name x ++ " (" ++ summary_id x ++ ")")%string) data in
      let vals := map percentage data in
      (["Saved data/top_students.png"],
       Some (mkBarChart (reverse names) (reverse vals) (length vals)))
  end.

(** ** Vocabulary for the store *)

(** The row of cells [a; b; c; d] as [clean_row] reads it. *)
Definition row_of_cells (r : row) : gmap string (option string) :=
  raw_row (student_id r) (student_name r) (date r) (status r).

(** Menu choice 3: read the file, deduplicate, write it back. *)
Definition clean_file (f : list (list string)) : list (list string) :=
  fst (save_cleaned (fst (read_all_records f)) f).

(** [a >= b] on the percentages of two summaries. *)
Definition percentage_ge (a b : student_summary) : Prop :=
  Num.leb (percentage b) (percentage a) = true.

(** The percentage is a number, not NaN. *)
Definition comparable (s : student_summary) : Prop :=
  value_of (percentage s) ≠ VNan.

(** * Properties *)

(** ** Characters *)

Lemma string_app_cons (c : ascii) (s t : string) :
  (String c s ++ t)%string = String c (s ++ t)%string.
Proof. reflexivity. Qed.

Lemma string_app_nil_l (s : string) : ("" ++ s)%string = s.
Proof. reflexivity. Qed.

Lemma string_app_nil_r (s : string) : (s ++ "")%string = s.
Proof.
  induction s as [|c s IH]; [reflexivity |].
  now rewrite string_app_cons, IH.
Qed.

Lemma string_app_assoc (a b c : string) : ((a ++ b) ++ c = a ++ (b ++ c))%string.
Proof.
  induction a as [|x a IH]; [reflexivity |].
  now rewrite !string_app_cons, IH.
Qed.

Lemma join_cons (c : string) (cs : list string) :
  Str.join (c :: cs) = (c ++ Str.join cs)%string.
Proof. reflexivity. Qed.

Lemma chunks_eq (n : nat) (s : string) :
  Str.chunks n s = (fst (Str.chunks n s), snd (Str.chunks n s)).
Proof. now destruct (Str.chunks n s). Qed.

Lemma chunks_cons_S (n : nat) (c : ascii) (s : string) :
  Str.chunks (S n) (String c s)
  = (String c (fst (Str.chunks n s)), snd (Str.chunks n s)).
Proof. cbn [Str.chunks]. now destruct (Str.chunks n s). Qed.

Lemma chunks_cons_O (c : ascii) (s : string) :
  Str.chunks 0 (String c s)
  = (EmptyString,
     String c (fst (Str.chunks (pred (Str.width c)) s))
     :: snd (Str.chunks (pred (Str.width c)) s)).
Proof. cbn [Str.chunks]. now destruct (Str.chunks _ s). Qed.

Lemma chunks_fst_O (s : string) : fst (Str.chunks 0 s) = EmptyString.
Proof. destruct s; [reflexivity |]. now rewrite chunks_cons_O. Qed.

Lemma chars_cons (c : ascii) (s : string) :
  Str.chars (String c s)
  = String c (fst (Str.chunks (pred (Str.width c)) s))
    :: snd (Str.chunks (pred (Str.width c)) s).
Proof. unfold Str.chars. now rewrite chunks_cons_O. Qed.

(** Cutting into characters loses nothing. *)
Lemma chunks_join (n : nat) (s : string) :
  (fst (Str.chunks n s) ++ Str.join (snd (Str.chunks n s)))%string = s.
Proof.
  revert n. induction s as [|c s IH]; intros n; [reflexivity |].
  destruct n as [|n].
  - rewrite chunks_cons_O. cbn [fst snd].
    rewrite join_cons, string_app_nil_l, string_app_cons. now rewrite IH.
  - rewrite chunks_cons_S. cbn [fst snd]. now rewrite string_app_cons, IH.
Qed.

Lemma join_chars (s : string) : Str.join (Str.chars s) = s.
Proof.
  unfold Str.chars. pose proof (chunks_join 0 s) as H.
  now rewrite chunks_fst_O in H.
Qed.

Lemma chunks_exact (n : nat) (cur t : string) :
  String.length cur = n -> Str.chunks n (cur ++ t) = (cur, Str.chars t).
Proof.
  revert n. induction cur as [|c cur IH]; intros n L; cbn in L; subst n.
  - rewrite string_app_nil_l. rewrite chunks_eq at 1. now rewrite chunks_fst_O.
  - rewrite string_app_cons, chunks_cons_S, (IH _ eq_refl). reflexivity.
Qed.

Lemma chunks_length (n : nat) (s : string) :
  (String.length (fst (Str.chunks n s)) <= n)%nat
  /\ (snd (Str.chunks n s) <> [] -> String.length (fst (Str.chunks n s)) = n).
Proof.
  revert n. induction s as [|c s IH]; intros n.
  - cbn. split; [lia | congruence].
  - destruct n as [|n].
    + rewrite chunks_cons_O. cbn. split; [lia | reflexivity].
    + rewrite chunks_cons_S. cbn. destruct (IH n) as [H1 H2].
      split; [lia |]. intros H. now rewrite H2.
Qed.

Lemma chunks_short (n : nat) (s : string) :
  (String.length s <= n)%nat -> Str.chunks n s = (s, []).
Proof.
  revert n. induction s as [|c s IH]; intros n L; [reflexivity |].
  cbn in L. destruct n as [|n]; [lia |].
  rewrite chunks_cons_S, IH by lia. reflexivity.
Qed.

(** A whole character is cut off as one piece. *)
Lemma whole_chars (c t : string) :
  whole c = true -> Str.chars (c ++ t) = c :: Str.chars t.
Proof.
  destruct c as [|a c]; [discriminate |]. cbn [whole]. intros H.
  apply Nat.eqb_eq in H. rewrite string_app_cons.
  rewrite chars_cons, (chunks_exact _ _ _ H). reflexivity.
Qed.

Lemma single_whole (c : string) : whole c = true -> single c.
Proof.
  intros H. unfold single. rewrite <- (string_app_nil_r c) at 1.
  now rewrite whole_chars.
Qed.

Lemma single_cons (a : ascii) (s : string) :
  single (String a (fst (Str.chunks (pred (Str.width a)) s))).
Proof.
  unfold single. rewrite chars_cons.
  rewrite (chunks_short _ _ (proj1 (chunks_length _ s))). reflexivity.
Qed.

Lemma chars_well_formed (s : string) : well_formed (Str.chars s).
Proof.
  assert (G : forall n, well_formed (snd (Str.chunks n s))).
  { induction s as [|c s IH]; intros n; [exact I |].
    destruct n as [|n].
    - rewrite chunks_cons_O. cbn [snd well_formed].
      destruct (snd (Str.chunks (pred (Str.width c)) s)) as [|c' cs] eqn:E.
      + apply single_cons.
      + split.
        * cbn [whole]. apply Nat.eqb_eq.
          apply (proj2 (chunks_length _ s)). rewrite E. discriminate.
        * rewrite <- E. apply IH.
    - rewrite chunks_cons_S. apply IH. }
  apply G.
Qed.

Lemma well_formed_tail (c : string) (cs : list string) :
  well_formed (c :: cs) -> well_formed cs.
Proof. destruct cs; [easy |]. now intros [_ H]. Qed.

Lemma well_formed_single (cs : list string) (c : string) :
  well_formed cs -> c ∈ cs -> single c.
Proof.
  induction cs as [|x cs IH]; intros W H; [inversion H |].
  apply elem_of_cons in H as [-> | H].
  - destruct cs; [exact W | apply single_whole, W].
  - apply IH; [now apply well_formed_tail in W | exact H].
Qed.

Lemma well_formed_chars (cs : list string) :
  well_formed cs -> Str.chars (Str.join cs) = cs.
Proof.
  induction cs as [|c cs IH]; intros W; [reflexivity |].
  destruct cs as [|c' cs].
  - rewrite join_cons. cbn [Str.join foldr]. now rewrite string_app_nil_r.
  - destruct W as [Wc W]. rewrite join_cons.
    rewrite whole_chars by exact Wc. f_equal. now apply IH.
Qed.

(** ** Trimming *)

Lemma rstrip_idempotent (cs : list string) :
  Str.rstrip (Str.rstrip cs) = Str.rstrip cs.
Proof.
  induction cs as [|c cs IH]; [reflexivity |].
  cbn [Str.rstrip]. destruct (Str.rstrip cs) as [|d t] eqn:E.
  - destruct (Str.is_space c) eqn:Sp; [reflexivity |].
    cbn [Str.rstrip]. now rewrite Sp.
  - cbn [Str.rstrip] in *. now rewrite IH.
Qed.

Lemma rstrip_starts_clean (cs : list string) :
  starts_clean cs -> starts_clean (Str.rstrip cs).
Proof.
  destruct cs as [|c cs]; [easy |].
  cbn [starts_clean Str.rstrip]. intros Sp.
  destruct (Str.rstrip cs); [rewrite Sp |]; exact Sp.
Qed.

Lemma lstrip_starts_clean (cs : list string) : starts_clean (Str.lstrip cs).
Proof.
  induction cs as [|c cs IH]; [exact I |].
  cbn [Str.lstrip]. destruct (Str.is_space c) eqn:Sp; [exact IH | exact Sp].
Qed.

Lemma lstrip_clean (cs : list string) : starts_clean cs -> Str.lstrip cs = cs.
Proof.
  destruct cs as [|c cs]; [easy |].
  cbn [starts_clean Str.lstrip]. now intros ->.
Qed.

Lemma lstrip_well_formed (cs : list string) :
  well_formed cs -> well_formed (Str.lstrip cs).
Proof.
  induction cs as [|c cs IH]; intros W; [exact I |].
  cbn [Str.lstrip]. destruct (Str.is_space c); [| exact W].
  apply IH. now apply well_formed_tail in W.
Qed.

Lemma rstrip_well_formed (cs : list string) :
  well_formed cs -> well_formed (Str.rstrip cs).
Proof.
  induction cs as [|c cs IH]; intros W; [exact I |].
  cbn [Str.rstrip]. destruct (Str.rstrip cs) as [|d t] eqn:E.
  - destruct (Str.is_space c); [exact I |].
    apply (well_formed_single _ c W). now left.
  - destruct cs as [|c' cs]; [discriminate |].
    destruct W as [Wc W]. split; [exact Wc | now apply IH].
Qed.

Lemma strip_chars_well_formed (s : string) :
  well_formed (Str.rstrip (Str.lstrip (Str.chars s))).
Proof. apply rstrip_well_formed, lstrip_well_formed, chars_well_formed. Qed.

Lemma chars_strip (s : string) :
  Str.chars (Str.strip s) = Str.rstrip (Str.lstrip (Str.chars s)).
Proof. apply well_formed_chars, strip_chars_well_formed. Qed.

Lemma strip_starts_clean (s : string) : starts_clean (Str.chars (Str.strip s)).
Proof. rewrite chars_strip. apply rstrip_starts_clean, lstrip_starts_clean. Qed.

Lemma strip_idempotent (s : string) : Str.strip (Str.strip s) = Str.strip s.
Proof.
  unfold Str.strip at 1. rewrite chars_strip.
  rewrite lstrip_clean by apply rstrip_starts_clean, lstrip_starts_clean.
  now rewrite rstrip_idempotent.
Qed.

Lemma rstrip_nonspace (cs : list string) : nonspace cs = true -> Str.rstrip cs = cs.
Proof.
  induction cs as [|c cs IH]; [reflexivity |].
  cbn [nonspace forallb Str.rstrip]. intros H. apply andb_true_iff in H as [Hc Hs].
  rewrite (IH Hs). apply negb_true_iff in Hc. rewrite Hc. now destruct cs.
Qed.

Lemma lstrip_nonspace (cs : list string) : nonspace cs = true -> Str.lstrip cs = cs.
Proof.
  destruct cs as [|c cs]; [reflexivity |].
  cbn [nonspace forallb Str.lstrip]. intros H. apply andb_true_iff in H as [Hc _].
  apply negb_true_iff in Hc. now rewrite Hc.
Qed.

Lemma strip_nonspace (s : string) : nonspace (Str.chars s) = true -> Str.strip s = s.
Proof.
  intros H. unfold Str.strip.
  rewrite lstrip_nonspace, rstrip_nonspace by exact H. apply join_chars.
Qed.

Lemma strip_single (c : string) :
  single c -> Str.is_space c = false -> Str.strip c = c.
Proof.
  intros S Sp. apply strip_nonspace. rewrite S. cbn [nonspace forallb]. now rewrite Sp.
Qed.

(** ** Uppercasing *)

Lemma upper_chars_results :
  forallb (fun kv => upper_result (snd kv)) Str.upper_chars = true.
Proof. vm_compute. reflexivity. Qed.

Lemma upper_char_cases (c : string) :
  Str.upper_char c = c \/ upper_result (Str.upper_char c) = true.
Proof.
  unfold Str.upper_char.
  destruct (find _ Str.upper_chars) as [kv|] eqn:F; [right | now left].
  apply find_some in F as [F _].
  exact (proj1 (forallb_forall _ _) upper_chars_results kv F).
Qed.

Lemma upper_result_spec (u : string) :
  upper_result u = true ->
  Str.chars u <> []
  /\ forall c, c ∈ Str.chars u ->
       whole c = true /\ Str.is_space c = false /\ Str.upper_char c = c.
Proof.
  unfold upper_result. destruct (Str.chars u) as [|d cs] eqn:E; [discriminate |].
  intros H. split; [discriminate |]. intros c Hc.
  apply list_elem_of_In in Hc.
  pose proof (proj1 (forallb_forall _ _) H c Hc) as G.
  apply andb_true_iff in G as [G G3]. apply andb_true_iff in G as [G1 G2].
  apply negb_true_iff in G2. apply String.eqb_eq in G3. easy.
Qed.

Lemma whole_list_chars (cs : list string) (t : string) :
  (forall c, c ∈ cs -> whole c = true) ->
  Str.chars (Str.join cs ++ t) = cs ++ Str.chars t.
Proof.
  induction cs as [|c cs IH]; intros W; [reflexivity |].
  rewrite join_cons, string_app_assoc, whole_chars by (apply W; left).
  cbn [app]. f_equal. apply IH. intros c' H. apply W. now right.
Qed.

(** The characters of text that follows a whole character or a result of
    the table are found after the characters of that. *)
Lemma upper_char_complete (c t : string) :
  whole c = true ->
  Str.chars (Str.upper_char c ++ t) = Str.chars (Str.upper_char c) ++ Str.chars t.
Proof.
  intros W. destruct (upper_char_cases c) as [-> | R].
  - now rewrite whole_chars, (single_whole c W).
  - apply upper_result_spec in R as [_ R].
    rewrite <- (join_chars (Str.upper_char c)) at 1.
    apply whole_list_chars. intros c' H. now apply R.
Qed.

Lemma chars_upper_list (cs : list string) :
  well_formed cs ->
  Str.chars (Str.join (map Str.upper_char cs))
  = concat (map (fun c => Str.chars (Str.upper_char c)) cs).
Proof.
  induction cs as [|c cs IH]; intros W; [reflexivity |].
  cbn [map concat]. rewrite join_cons.
  destruct cs as [|c' cs].
  - cbn [Str.join foldr map concat]. now rewrite string_app_nil_r, app_nil_r.
  - destruct W as [Wc W]. rewrite upper_char_complete by exact Wc.
    f_equal. now apply IH.
Qed.

Lemma chars_upper (s : string) :
  Str.chars (Str.upper s)
  = concat (map (fun c => Str.chars (Str.upper_char c)) (Str.chars s)).
Proof. apply chars_upper_list, chars_well_formed. Qed.

(** What [upper] does to one character: it stays, or it becomes plain
    characters. *)
Lemma upper_char_chars (c e : string) :
  single c -> e ∈ Str.chars (Str.upper_char c) ->
  (e = c /\ Str.upper_char c = c)
  \/ (whole e = true /\ Str.is_space e = false /\ Str.upper_char e = e).
Proof.
  intros S H. destruct (upper_char_cases c) as [E | R].
  - left. rewrite E, S in H. apply list_elem_of_singleton in H. now split.
  - right. apply upper_result_spec in R as [_ R]. now apply R.
Qed.

Lemma upper_fixed (s e : string) :
  e ∈ Str.chars (Str.upper s) -> Str.upper_char e = e.
Proof.
  rewrite chars_upper. intros H.
  apply list_elem_of_In, in_concat in H as (l & Hl & He).
  apply in_map_iff in Hl as (c & <- & Hc).
  apply list_elem_of_In in Hc, He.
  pose proof (well_formed_single _ c (chars_well_formed s) Hc) as S.
  destruct (upper_char_chars c e S He) as [[-> E] | (_ & _ & E)]; exact E.
Qed.

Lemma map_fixed {A : Type} (f : A -> A) (l : list A) :
  (forall x, x ∈ l -> f x = x) -> map f l = l.
Proof.
  induction l as [|x l IH]; intros H; [reflexivity |].
  cbn. rewrite H by left. f_equal. apply IH. intros y Hy. apply H. now right.
Qed.

Lemma upper_idempotent (s : string) : Str.upper (Str.upper s) = Str.upper s.
Proof.
  unfold Str.upper at 1. rewrite map_fixed by apply upper_fixed.
  apply join_chars.
Qed.

Lemma upper_starts_clean (s : string) :
  starts_clean (Str.chars s) -> starts_clean (Str.chars (Str.upper s)).
Proof.
  rewrite chars_upper.
  pose proof (chars_well_formed s) as W.
  destruct (Str.chars s) as [|c cs]; [easy |].
  cbn [starts_clean map concat]. intros Sp.
  assert (S : single c) by (apply (well_formed_single _ c W); left).
  destruct (Str.chars (Str.upper_char c)) as [|e es] eqn:E.
  - destruct (upper_char_cases c) as [U | R].
    + rewrite U, S in E. discriminate.
    + apply upper_result_spec in R as [R _]. contradiction.
  - cbn [app starts_clean].
    assert (He : e ∈ Str.chars (Str.upper_char c)) by (rewrite E; left).
    destruct (upper_char_chars c e S He) as [[-> _] | (_ & G & _)]; easy.
Qed.

Lemma upper_single (c : string) :
  single c -> Str.upper_char c = c -> Str.upper c = c.
Proof.
  intros S U. unfold Str.upper. rewrite S. cbn [map].
  rewrite U, join_cons. apply string_app_nil_r.
Qed.

Lemma single_truthy (c : string) : single c -> Str.truthy c = true.
Proof. unfold single. now destruct c. Qed.

Lemma first_char_single (c : string) : single c -> Str.first_char c = c.
Proof. unfold single, Str.first_char. now intros ->. Qed.

(** ** Dates *)

Section DateFacts.
Import Dates.

Lemma digit_cases (n : Z) : In (n mod 10) (map Z.of_nat (seq 0 10)).
Proof.
  assert (H : 0 <= n mod 10 < 10) by (apply Z.mod_pos_bound; lia).
  apply in_map_iff. exists (Z.to_nat (n mod 10)).
  split; [lia | apply in_seq; lia].
Qed.

Lemma digit_val_char (n : Z) :
  digit_val (String (digit_char n) EmptyString) = Some (n mod 10).
Proof.
  unfold digit_char. pose proof (digit_cases n) as E. simpl in E.
  repeat (destruct E as [E | E]; [rewrite <- E; vm_compute; reflexivity |]).
  destruct E.
Qed.

Lemma digit_char_width (n : Z) : Str.width (digit_char n) = 1%nat.
Proof.
  unfold digit_char. pose proof (digit_cases n) as E. simpl in E.
  repeat (destruct E as [E | E]; [rewrite <- E; vm_compute; reflexivity |]).
  destruct E.
Qed.

Lemma digit_char_space (n : Z) :
  Str.is_space (String (digit_char n) EmptyString) = false.
Proof.
  unfold digit_char. pose proof (digit_cases n) as E. simpl in E.
  repeat (destruct E as [E | E]; [rewrite <- E; vm_compute; reflexivity |]).
  destruct E.
Qed.

Lemma chars_cons_1 (c : ascii) (s : string) :
  Str.width c = 1%nat -> Str.chars (String c s) = String c EmptyString :: Str.chars s.
Proof.
  intros H. rewrite chars_cons, H. cbn [pred].
  now rewrite chunks_fst_O.
Qed.

(** The characters of an ISO date are its ten bytes. *)
Lemma chars_isoformat (d : date) :
  Str.chars (isoformat d)
  = [String (digit_char (year d / 1000)) EmptyString;
     String (digit_char (year d / 100)) EmptyString;
     String (digit_char (year d / 10)) EmptyString;
     String (digit_char (year d)) EmptyString;
     "-"%string;
     String (digit_char (month d / 10)) EmptyString;
     String (digit_char (month d)) EmptyString;
     "-"%string;
     String (digit_char (day d / 10)) EmptyString;
     String (digit_char (day d)) EmptyString].
Proof.
  unfold isoformat, pad4, pad2.
  rewrite !chars_cons_1 by (apply digit_char_width || reflexivity).
  reflexivity.
Qed.

Lemma re_Y_digits (y : Z) (k : list string) :
  0 <= y <= 9999 ->
  re_Y (String (digit_char (y / 1000)) EmptyString
        :: String (digit_char (y / 100)) EmptyString
        :: String (digit_char (y / 10)) EmptyString
        :: String (digit_char y) EmptyString :: k) = [(y, k)].
Proof.
  intros Hy. unfold re_Y.
  rewrite !digit_val_char.
  do 3 f_equal.
  Z.to_euclidean_division_equations; lia.
Qed.

Lemma after_year_iso (y m d : Z) :
  1 <= m <= 12 -> 1 <= d <= 31 ->
  head (after_year y
          ["-"%string;
           String (digit_char (m / 10)) EmptyString; String (digit_char m) EmptyString;
           "-"%string;
           String (digit_char (d / 10)) EmptyString; String (digit_char d) EmptyString])
  = Some (y, m, d, []).
Proof.
  intros Hm Hd.
  assert (Em : In m (map Z.of_nat (seq 1 12))).
  { apply in_map_iff. exists (Z.to_nat m). split; [lia | apply in_seq; lia]. }
  assert (Ed : In d (map Z.of_nat (seq 1 31))).
  { apply in_map_iff. exists (Z.to_nat d). split; [lia | apply in_seq; lia]. }
  simpl in Em, Ed. clear Hm Hd.
  repeat (destruct Em as [Em | Em];
    [ rewrite <- Em; clear Em;
      repeat (destruct Ed as [Ed | Ed]; [rewrite <- Ed; vm_compute; reflexivity |]);
      destruct Ed | ]).
  destruct Em.
Qed.

Lemma valid_bounds (d : date) :
  valid d = true -> 1 <= year d <= 9999 /\ 1 <= month d <= 12 /\ 1 <= day d <= 31.
Proof.
  intros Hv. unfold valid, between, days_in_month in Hv.
  repeat match type of Hv with context [if ?c then _ else _] => destruct c end;
  lia.
Qed.

Lemma strptime_isoformat (d : date) :
  valid d = true -> strptime (isoformat d) = Some d.
Proof.
  intros Hv. destruct (valid_bounds d Hv) as (Hy & Hm & Hd).
  unfold strptime, re_matches. rewrite chars_isoformat.
  destruct d as [y m dd]. cbn [year month day] in *.
  rewrite re_Y_digits by lia.
  pose proof (after_year_iso y m dd Hm Hd) as H.
  cbn [mbind list_bind]. rewrite app_nil_r.
  destruct (after_year y _) as [|[[[y0 m0] d0] r0] tl]; cbn in H; [discriminate |].
  injection H as -> -> -> ->. now rewrite Hv.
Qed.

Lemma strptime_valid (s : string) (d : date) :
  strptime s = Some d -> valid d = true.
Proof.
  unfold strptime.
  destruct (re_matches (Str.chars s)) as [|[[[y m] dd] rest] tl]; [discriminate |].
  destruct rest; [| discriminate].
  destruct (valid (mkDate y m dd)) eqn:E; [| discriminate].
  now intros [= <-].
Qed.

Lemma isoformat_nonspace (d : date) : nonspace (Str.chars (isoformat d)) = true.
Proof.
  rewrite chars_isoformat. cbn [nonspace forallb].
  rewrite !digit_char_space. reflexivity.
Qed.

Lemma strip_isoformat (d : date) : Str.strip (isoformat d) = isoformat d.
Proof. apply strip_nonspace, isoformat_nonspace. Qed.

End DateFacts.

(** ** [clean_row] *)

Lemma cell_insert_ne (r : gmap string (option string)) (k k' : string) (v : option string) :
  k ≠ k' -> cell (<[k := v]> r) k' = cell r k'.
Proof. intros H. unfold cell. now rewrite lookup_insert_ne. Qed.

Lemma cell_insert_eq (r : gmap string (option string)) (k : string) (v : option string) :
  cell (<[k := v]> r) k = v.
Proof. unfold cell. now rewrite lookup_insert_eq. Qed.



Lemma clean_row_returned (r : gmap string (option string)) (nm dt : string) (d : Dates.date) :
  cell r "student_name" = Some nm -> cell r "date" = Some dt ->
  Dates.strptime (Str.strip dt) = Some d ->
  clean_row r =
    Returned (mkRow (Str.strip (get r "student_id")) (Str.strip nm)
                    (Dates.isoformat d) (clean_status (get r "status"))).
Proof. intros N D H. unfold clean_row. now rewrite N, D, H. Qed.

Lemma clean_row_raised (r : gmap string (option string)) (nm dt : string) :
  cell r "student_name" = Some nm -> cell r "date" = Some dt ->
  Dates.strptime (Str.strip dt) = None ->
  clean_row r = Raised ValueError ("Invalid date: " ++ Str.strip dt)%string.
Proof. intros N D H. unfold clean_row. now rewrite N, D, H. Qed.

Lemma clean_row_none (r : gmap string (option string)) :
  cell r "student_name" = None \/ cell r "date" = None ->
  clean_row r = Raised AttributeError no_strip.
Proof.
  unfold clean_row. intros [H | H].
  - now rewrite H.
  - rewrite H. now destruct (cell r "student_name").
Qed.

(** A row is returned only for a name and a date that are [str]s, the date
    one that parses. *)
Lemma clean_row_inv (r : gmap string (option string)) (out : row) :
  clean_row r = Returned out ->
  exists nm dt d,
    cell r "student_name" = Some nm /\ cell r "date" = Some dt
    /\ Dates.strptime (Str.strip dt) = Some d
    /\ out = mkRow (Str.strip (get r "student_id")) (Str.strip nm)
                   (Dates.isoformat d) (clean_status (get r "status")).
Proof.
  unfold clean_row.
  destruct (cell r "student_name") as [nm|]; [| discriminate].
  destruct (cell r "date") as [dt|]; [| discriminate].
  destruct (Dates.strptime (Str.strip dt)) as [d|] eqn:P; [| discriminate].
  intros [= <-]. now exists nm, dt, d.
Qed.

Lemma clean_row_returned_get (r : gmap string (option string)) (out : row) :
  clean_row r = Returned out ->
  exists d,
    Dates.strptime (Str.strip (get r "date")) = Some d
    /\ out = mkRow (Str.strip (get r "student_id")) (Str.strip (get r "student_name"))
                   (Dates.isoformat d) (clean_status (get r "status")).
Proof.
  intros H. apply clean_row_inv in H as (nm & dt & d & N & D & P & ->).
  assert (Gn : get r "student_name" = nm) by (unfold get; now rewrite N).
  assert (Gd : get r "date" = dt) by (unfold get; now rewrite D).
  exists d. rewrite Gn, Gd. now split.
Qed.

(** The status plays no part in whether a row is returned. *)
Lemma clean_row_returns_status (r : gmap string (option string)) (v : option string) :
  returns (clean_row (<["status" := v]> r)) = returns (clean_row r).
Proof.
  unfold clean_row. rewrite !cell_insert_ne by discriminate.
  destruct (cell r "student_name"); [| reflexivity].
  destruct (cell r "date"); [| reflexivity].
  now destruct (Dates.strptime _).
Qed.

Lemma clean_row_returns_id (r : gmap string (option string)) (v : option string) :
  returns (clean_row (<["student_id" := v]> r)) = returns (clean_row r).
Proof.
  unfold clean_row. rewrite !cell_insert_ne by discriminate.
  destruct (cell r "student_name"); [| reflexivity].
  destruct (cell r "date"); [| reflexivity].
  now destruct (Dates.strptime _).
Qed.

Lemma first_char_chars (s c : string) (rest : list string) :
  Str.chars s = c :: rest -> Str.first_char s = c.
Proof. unfold Str.first_char. now intros ->. Qed.

Lemma chars_truthy (s c : string) (rest : list string) :
  Str.chars s = c :: rest -> Str.truthy s = true.
Proof. now destruct s. Qed.

Lemma clean_status_first (raw c : string) (rest : list string) :
  Str.chars (Str.upper (Str.strip raw)) = c :: rest ->
  known_status (Str.upper (Str.strip raw)) = false ->
  clean_status raw = c.
Proof.
  intros E K. unfold clean_status.
  rewrite (chars_truthy _ _ _ E), K. cbn [andb negb].
  now apply first_char_chars with rest.
Qed.


Lemma clean_status_empty (raw : string) :
  Str.upper (Str.strip raw) = EmptyString -> clean_status raw = EmptyString.
Proof. intros E. unfold clean_status. now rewrite E. Qed.

(** C1, as the specification words it, fails: the status [X] is neither a
    known code nor shortened to one, and the row is still accepted, with
    status [X]. *)
Lemma clean_row_accepts_unknown_status :
  Str.upper (Str.strip (get (raw_row "S1" "Alice" "2024-01-01" "X") "status")) = "X"
  /\ known_status "X" = false
  /\ clean_row (raw_row "S1" "Alice" "2024-01-01" "X")
     = Returned (mkRow "S1" "Alice" "2024-01-01" "X").
Proof. vm_compute. repeat split. Qed.

(** C1, amended: a status that, trimmed and uppercased, is not one of P, A,
    L, H is reduced to its first character, if it has one, whether or not
    that character is a known code, and the status never causes the row to
    be rejected: whatever is put in its place, a known code or [None]
    included, the row is accepted or rejected as before.  The first
    character is the first code point, of however many bytes; an empty
    status stays empty. *)
Theorem clean_row_unknown_status (r : gmap string (option string)) :
  known_status (Str.upper (Str.strip (get r "status"))) = false ->
  (forall out,
     clean_row r = Returned out ->
     status out = default "" (head (Str.chars (Str.upper (Str.strip (get r "status"))))))
  /\ (forall nm dt d,
        cell r "student_name" = Some nm -> cell r "date" = Some dt ->
        Dates.strptime (Str.strip dt) = Some d ->
        exists out,
          clean_row r = Returned out
          /\ status out
             = default "" (head (Str.chars (Str.upper (Str.strip (get r "status"))))))
  /\ (forall v, returns (clean_row (<["status" := v]> r)) = returns (clean_row r)).
Proof.
  intros K.
  assert (E : clean_status (get r "status")
              = default "" (head (Str.chars (Str.upper (Str.strip (get r "status")))))).
  { destruct (Str.chars (Str.upper (Str.strip (get r "status")))) as [|c rest] eqn:C.
    - apply clean_status_empty.
      now rewrite <- (join_chars (Str.upper (Str.strip (get r "status")))), C.
    - now apply clean_status_first with rest. }
  split; [| split].
  - intros out H. apply clean_row_inv in H as (nm & dt & d & _ & _ & _ & ->).
    exact E.
  - intros nm dt d N D P. rewrite (clean_row_returned r nm dt d N D P).
    eexists; split; [reflexivity | exact E].
  - apply clean_row_returns_status.
Qed.

Lemma clean_row_unknown_status_witness :
  (exists out, clean_row (raw_row "S1" "Alice" "2024-01-01" " xyz ") = Returned out
               /\ status out = "X")
  /\ (exists out, clean_row (raw_row "S1" "Alice" "2024-01-01" "été") = Returned out
                  /\ status out = "É").
Proof.
  split.
  - exact (proj1 (proj2
      (clean_row_unknown_status (raw_row "S1" "Alice" "2024-01-01" " xyz ")
         ltac:(vm_compute; reflexivity)))
      "Alice" "2024-01-01" (Dates.mkDate 2024 1 1)
      ltac:(vm_compute; reflexivity) ltac:(vm_compute; reflexivity)
      ltac:(vm_compute; reflexivity)).
  - exact (proj1 (proj2
      (clean_row_unknown_status (raw_row "S1" "Alice" "2024-01-01" "été")
         ltac:(vm_compute; reflexivity)))
      "Alice" "2024-01-01" (Dates.mkDate 2024 1 1)
      ltac:(vm_compute; reflexivity) ltac:(vm_compute; reflexivity)
      ltac:(vm_compute; reflexivity)).
Defined.



(** C3, as the specification words it, fails: a row that [csv.DictReader]
    builds from a line with three cells, under a header that has the name
    in the fourth column, has a date that parses, and [clean_row] raises
    all the same, an [AttributeError] and not a validation error, because
    the name is [None]. *)
Lemma clean_row_rejects_missing_name :
  cell (dict_row ["student_id"; "date"; "status"; "student_name"]
                 ["S1"; "2024-01-01"; "P"]) "date" = Some "2024-01-01"
  /\ Dates.strptime (Str.strip "2024-01-01") = Some (Dates.mkDate 2024 1 1)
  /\ clean_row (dict_row ["student_id"; "date"; "status"; "student_name"]
                         ["S1"; "2024-01-01"; "P"])
     = Raised AttributeError no_strip
  /\ returns (clean_row (dict_row ["student_id"; "date"; "status"; "student_name"]
                                  ["S1"; "2024-01-01"; "P"])) = false.
Proof. vm_compute. repeat split. Qed.

(** C3, amended: for a row whose name and date are [str]s, [clean_row]
    fails exactly when the trimmed date does not parse as a calendar date
    written year-month-day, and then with [ValueError] and the message
    [Invalid date: ] followed by the trimmed date.  When it succeeds, the
    date of the result is the ISO rendering of the parsed date, a string
    that parses back to the same date, so that two spellings of one date
    give one string.  The identifier and the status play no part in
    failure, and neither does a name that is a [str].  A date that parses
    is a date of the calendar: the year is between 1 and 9999, the month
    between 1 and 12, and the day exists in that month of that year; every
    such date parses from its ISO rendering.  The rows the amendment leaves
    out are covered as well, so that the first part is an equivalence over
    all rows: when the name or the date is [None], [None.strip()] raises
    [AttributeError] before the date is looked at. *)
Theorem clean_row_date (r r' : gmap string (option string)) :
  (returns (clean_row r) = false <->
     cell r "student_name" = None \/ cell r "date" = None
     \/ exists dt, cell r "date" = Some dt /\ Dates.strptime (Str.strip dt) = None)
  /\ (cell r "student_name" = None \/ cell r "date" = None ->
      clean_row r = Raised AttributeError no_strip)
  /\ (forall nm dt,
        cell r "student_name" = Some nm -> cell r "date" = Some dt ->
        Dates.strptime (Str.strip dt) = None ->
        clean_row r = Raised ValueError ("Invalid date: " ++ Str.strip dt)%string)
  /\ (forall nm dt d,
        cell r "student_name" = Some nm -> cell r "date" = Some dt ->
        Dates.strptime (Str.strip dt) = Some d ->
        exists out, clean_row r = Returned out
          /\ date out = Dates.isoformat d
          /\ Dates.strptime (date out) = Some d
          /\ (forall out', clean_row r' = Returned out' ->
                (date out' = date out
                 <-> Dates.strptime (Str.strip (get r' "date")) = Some d)))
  /\ (forall v w,
        returns (clean_row (<["student_id" := v]> (<["status" := w]> r)))
        = returns (clean_row r))
  /\ (forall s s',
        returns (clean_row (<["student_name" := Some s]> r))
        = returns (clean_row (<["student_name" := Some s']> r)))
  /\ (forall s d,
        Dates.strptime s = Some d ->
        1 <= Dates.year d <= 9999 /\ 1 <= Dates.month d <= 12
        /\ 1 <= Dates.day d <= 31
        /\ (Dates.month d = 4 \/ Dates.month d = 6 \/ Dates.month d = 9
            \/ Dates.month d = 11 -> Dates.day d <= 30)
        /\ (Dates.month d = 2 -> Dates.day d <= 29)
        /\ (Dates.month d = 2 -> Dates.day d = 29 ->
            Dates.year d mod 4 = 0
            /\ (Dates.year d mod 100 = 0 -> Dates.year d mod 400 = 0)))
  /\ (forall y m d,
        1 <= y <= 9999 -> 1 <= m <= 12 -> 1 <= d <= 31 ->
        (m = 4 \/ m = 6 \/ m = 9 \/ m = 11 -> d <= 30) ->
        (m = 2 -> d <= 29) ->
        (m = 2 -> d = 29 -> y mod 4 = 0 /\ (y mod 100 = 0 -> y mod 400 = 0)) ->
        Dates.strptime (Dates.isoformat (Dates.mkDate y m d)) = Some (Dates.mkDate y m d))
  /\ (forall s,
        In s ["2024-13-40"; "not-a-date"; ""; "2023-02-29"; "1900-02-29";
              "2024-02-30"; "2024-04-31"; "2024-06-31"; "2024-09-31"; "2024-11-31";
              "2024-00-10"; "2024-01-00"; "2024-01-32"; "0000-01-01"; "24-01-05";
              "2024/01/05"; "2024-01-05x"; "2024-01-05 10:00"; "2024-1-5-"; "2024- 1-05";
              "20240105"; "05-01-2024"; "2024-０1-15"; "2024-01-１5"; "2024-01-0٥";
              "2024-01-3١"]%string ->
        clean_row (<["date" := Some s]> (<["student_name" := Some ""]> r))
        = Raised ValueError ("Invalid date: " ++ s)%string)
  /\ (forall s t,
        In (s, t)
          [("2024-1-5", "2024-01-05"); (" 2024-01-05", "2024-01-05");
           ("2024-01- 5", "2024-01-05"); ("2024-01-05  ", "2024-01-05");
           ("2024-02-29", "2024-02-29"); ("2000-02-29", "2000-02-29");
           ("2023-02-28", "2023-02-28"); ("2024-12-31", "2024-12-31");
           ("0001-01-01", "0001-01-01"); ("9999-12-31", "9999-12-31");
           ("２０２４-01-1٥", "2024-01-15"); ("٢٠٢٤-1-5", "2024-01-05");
           (Str.encode 160 ++ "2024-3-07" ++ Str.encode 8195, "2024-03-07")]%string ->
        exists out,
          clean_row (<["date" := Some s]> (<["student_name" := Some ""]> r)) = Returned out
          /\ date out = t).
Proof.
  split; [| split; [| split; [| split; [| split; [| split; [| split;
    [| split; [| split]]]]]]]].
  - unfold clean_row.
    destruct (cell r "student_name") as [nm|]; [| cbn; tauto].
    destruct (cell r "date") as [dt|]; [| cbn; tauto].
    destruct (Dates.strptime (Str.strip dt)) as [d|] eqn:P; cbn; split.
    + discriminate.
    + intros [H | [H | (dt' & [= <-] & H)]]; congruence.
    + intros _. right; right. now exists dt.
    + reflexivity.
  - apply clean_row_none.
  - apply clean_row_raised.
  - intros nm dt d N D H.
    assert (V : Dates.valid d = true) by now apply strptime_valid with (Str.strip dt).
    rewrite (clean_row_returned r nm dt d N D H). eexists; split; [reflexivity |].
    cbn [date]. split; [reflexivity |].
    split; [now apply strptime_isoformat |].
    intros out' R'.
    apply clean_row_returned_get in R' as (d' & P' & ->). cbn [date]. split.
    + intros E.
      assert (V' : Dates.strptime (Dates.isoformat d') = Some d').
      { apply strptime_isoformat.
        now apply strptime_valid with (Str.strip (get r' "date")). }
      rewrite E, strptime_isoformat in V' by exact V. congruence.
    + rewrite P'. now intros [= ->].
  - intros v w. now rewrite clean_row_returns_id, clean_row_returns_status.
  - intros s s'. unfold clean_row.
    rewrite !cell_insert_eq, !cell_insert_ne by discriminate.
    destruct (cell r "date"); [| reflexivity].
    now destruct (Dates.strptime _).
  - intros s d H. apply strptime_valid in H.
    unfold Dates.valid, Dates.between, Dates.days_in_month, Dates.is_leap in H.
    destruct d as [y m dd]. cbn [Dates.year Dates.month Dates.day] in *.
    repeat match type of H with
           | context [if ?c then _ else _] => destruct c eqn:?
           end;
    repeat match goal with
           | E : (_ && _)%bool = true |- _ => apply andb_true_iff in E as [? ?]
           | E : (_ && _)%bool = false |- _ => apply andb_false_iff in E
           | E : (_ || _)%bool = true |- _ => apply orb_true_iff in E
           | E : (_ || _)%bool = false |- _ => apply orb_false_iff in E as [? ?]
           | E : negb _ = true |- _ => apply negb_true_iff in E
           | E : negb _ = false |- _ => apply negb_false_iff in E
           end;
    lia.
  - intros y m d Hy Hm Hd H30 H29 Hleap. apply strptime_isoformat.
    unfold Dates.valid, Dates.between, Dates.days_in_month, Dates.is_leap.
    cbn [Dates.year Dates.month Dates.day].
    destruct (m =? 2) eqn:E2.
    + apply Z.eqb_eq in E2.
      destruct (y mod 4 =? 0) eqn:E4; destruct (y mod 100 =? 0) eqn:E100;
      destruct (y mod 400 =? 0) eqn:E400; cbn; lia.
    + destruct ((m =? 4) || (m =? 6) || (m =? 9) || (m =? 11)) eqn:E; [| lia].
      assert (d <= 30) by (apply H30; lia). lia.
  - intros s H.
    rewrite (clean_row_raised _ "" s).
    + f_equal.
      repeat (destruct H as [<- | H]; [vm_compute; reflexivity |]). destruct H.
    + now rewrite cell_insert_ne, cell_insert_eq.
    + now rewrite cell_insert_eq.
    + repeat (destruct H as [<- | H]; [vm_compute; reflexivity |]). destruct H.
  - intros s t H.
    assert (G : exists d, Dates.strptime (Str.strip s) = Some d /\ Dates.isoformat d = t).
    { repeat (destruct H as [H | H];
              [injection H as <- <-; eexists; split; vm_compute; reflexivity |]).
      destruct H. }
    destruct G as (d & P & <-).
    rewrite (clean_row_returned _ "" s d);
      [| now rewrite cell_insert_ne, cell_insert_eq | now rewrite cell_insert_eq | exact P].
    eexists; split; reflexivity.
Qed.

Lemma clean_row_date_witness :
  exists out, clean_row (raw_row "S1" "Alice" " 2024-2- 9 " "P") = Returned out
    /\ date out = "2024-02-09".
Proof.
  destruct (proj1 (proj2 (proj2 (proj2
    (clean_row_date (raw_row "S1" "Alice" " 2024-2- 9 " "P") ∅))))
    "Alice" " 2024-2- 9 " (Dates.mkDate 2024 2 9) eq_refl eq_refl
    ltac:(vm_compute; reflexivity)) as (out & E & D & _).
  exists out. split; [exact E | exact D].
Defined.

(** ** [deduplicate_records] *)

Lemma dedup_loop_app (rs1 rs2 : list row) (seen : gset (string * string)) (out : list row) :
  dedup_loop (rs1 ++ rs2) seen out
  = dedup_loop rs2 (list_to_set (map key rs1) ∪ seen) (dedup_loop rs1 seen out).
Proof.
  revert seen out. induction rs1 as [|r rs1 IH]; intros seen out; cbn.
  - f_equal. set_solver.
  - destruct (decide (key r ∈ seen)) as [Hin|Hnin]; rewrite IH; f_equal; set_solver.
Qed.

Lemma dedup_snoc (rs : list row) (r : row) :
  deduplicate_records (rs ++ [r])
  = deduplicate_records rs ++ (if decide (key r ∈ map key rs) then [] else [r]).
Proof.
  unfold deduplicate_records. rewrite dedup_loop_app. cbn.
  assert (E : key r ∈ (list_to_set (map key rs) ∪ ∅ : gset (string * string))
              <-> key r ∈ map key rs).
  { rewrite elem_of_union, elem_of_list_to_set, elem_of_empty. tauto. }
  destruct (decide (key r ∈ list_to_set (map key rs) ∪ ∅)) as [Hin|Hnin];
    destruct (decide (key r ∈ map key rs)) as [Hin'|Hnin']; try tauto.
  now rewrite app_nil_r.
Qed.

Lemma dedup_keys (rs : list row) (k : string * string) :
  k ∈ map key (deduplicate_records rs) <-> k ∈ map key rs.
Proof.
  induction rs as [|r rs IH] using rev_ind; [reflexivity |].
  rewrite dedup_snoc, !map_app, !elem_of_app, IH.
  destruct (decide (key r ∈ map key rs)) as [Hin|Hnin]; cbn; [| reflexivity].
  split; [intros [H|H]; [now left | inversion H] | intros [H|H]; [now left |]].
  left. apply list_elem_of_singleton in H. now subst.
Qed.

Lemma dedup_NoDup (rs : list row) : NoDup (map key (deduplicate_records rs)).
Proof.
  induction rs as [|r rs IH] using rev_ind; [constructor |].
  rewrite dedup_snoc.
  destruct (decide (key r ∈ map key rs)) as [Hin|Hnin]; [now rewrite app_nil_r |].
  rewrite map_app. apply NoDup_app. split; [exact IH |]. split.
  - intros k Hk Hk'. cbn in Hk'. apply list_elem_of_singleton in Hk'. subst.
    apply Hnin. now apply dedup_keys.
  - cbn. apply NoDup_singleton.
Qed.

Lemma dedup_sublist (rs : list row) : sublist (deduplicate_records rs) rs.
Proof.
  induction rs as [|r rs IH] using rev_ind; [constructor |].
  rewrite dedup_snoc. apply sublist_app; [exact IH |].
  destruct (decide _); [apply sublist_nil_l | reflexivity].
Qed.

Lemma dedup_idempotent (rs : list row) :
  deduplicate_records (deduplicate_records rs) = deduplicate_records rs.
Proof.
  induction rs as [|r rs IH] using rev_ind; [reflexivity |].
  rewrite dedup_snoc.
  destruct (decide (key r ∈ map key rs)) as [Hin|Hnin].
  - now rewrite app_nil_r.
  - rewrite dedup_snoc, IH.
    destruct (decide (key r ∈ map key (deduplicate_records rs))) as [Hin'|Hnin'];
      [| reflexivity].
    exfalso. apply Hnin. now apply dedup_keys.
Qed.

(** C4: [deduplicate_records] keeps, in input order, exactly the records
    whose key (student_id, date) has not occurred earlier in the input, and
    drops the others; it is idempotent; and on [r1; r2; r3], where [r1] and
    [r2] share a key that [r3] does not have, it returns [r1; r3]. *)
Theorem deduplicate_records_first_occurrence (rs : list row) (r r1 r2 r3 : row) :
  deduplicate_records [] = []
  /\ deduplicate_records (rs ++ [r])
     = deduplicate_records rs ++ (if decide (key r ∈ map key rs) then [] else [r])
  /\ sublist (deduplicate_records rs) rs
  /\ NoDup (map key (deduplicate_records rs))
  /\ (forall k, k ∈ map key (deduplicate_records rs) <-> k ∈ map key rs)
  /\ deduplicate_records (deduplicate_records rs) = deduplicate_records rs
  /\ (key r1 = key r2 -> key r3 ≠ key r1 -> deduplicate_records [r1; r2; r3] = [r1; r3]).
Proof.
  split; [reflexivity |].
  split; [apply dedup_snoc |].
  split; [apply dedup_sublist |].
  split; [apply dedup_NoDup |].
  split; [apply dedup_keys |].
  split; [apply dedup_idempotent |].
  intros E12 N3.
  change [r1; r2; r3] with ((([] ++ [r1]) ++ [r2]) ++ [r3]).
  rewrite !dedup_snoc. cbn.
  repeat match goal with
         | |- context [decide ?P] =>
             let H := fresh "M" in
             destruct (decide P) as [H|H];
             rewrite ?elem_of_cons, ?elem_of_nil in H
         end;
    try reflexivity; exfalso; intuition congruence.
Qed.

Lemma deduplicate_records_first_occurrence_witness :
  deduplicate_records [mkRow "S1" "Alice" "2024-01-01" "P";
                       mkRow "S1" "Alice" "2024-01-01" "A";
                       mkRow "S1" "Alice" "2024-01-02" "A"]
  = [mkRow "S1" "Alice" "2024-01-01" "P"; mkRow "S1" "Alice" "2024-01-02" "A"].
Proof.
  refine (proj2 (proj2 (proj2 (proj2 (proj2 (proj2
    (deduplicate_records_first_occurrence [] (mkRow "" "" "" "")
       (mkRow "S1" "Alice" "2024-01-01" "P")
       (mkRow "S1" "Alice" "2024-01-01" "A")
       (mkRow "S1" "Alice" "2024-01-02" "A"))))))) eq_refl _).
  vm_compute. intros H. discriminate H.
Defined.

(** C8: [analyze] deduplicates first, so it gives the same result on a
    sequence and on its deduplication. *)
Theorem analyze_deduplicates (x : list row) (t : number) :
  analyze x t = analyze (deduplicate_records x) t.
Proof. unfold analyze. now rewrite dedup_idempotent. Qed.

(** ** Floating-point bounds *)

Lemma digits2_pos_lower (p : positive) : 2 ^ (Zpos (digits2_pos p) - 1) <= Zpos p.
Proof.
  induction p as [p IH|p IH|]; cbn [digits2_pos].
  - rewrite Pos2Z.inj_succ.
    replace (Z.succ (Zpos (digits2_pos p)) - 1) with (Z.succ (Zpos (digits2_pos p) - 1)) by lia.
    rewrite Z.pow_succ_r by lia. lia.
  - rewrite Pos2Z.inj_succ.
    replace (Z.succ (Zpos (digits2_pos p)) - 1) with (Z.succ (Zpos (digits2_pos p) - 1)) by lia.
    rewrite Z.pow_succ_r by lia. lia.
  - reflexivity.
Qed.

Lemma Zdigits2_upper (m k : Z) : 0 <= m -> 0 <= k -> m < 2 ^ k -> Zdigits2 m <= k.
Proof.
  intros Hm Hk Hlt. destruct m as [|p|p]; cbn [Zdigits2]; [lia | | lia].
  destruct (Z_le_gt_dec (Zpos (digits2_pos p)) k) as [H|H]; [exact H |].
  exfalso.
  pose proof (digits2_pos_lower p) as L.
  assert (2 ^ k <= 2 ^ (Zpos (digits2_pos p) - 1)) by (apply Z.pow_le_mono_r; lia).
  lia.
Qed.

Lemma shr_1_inv (mrs : shr_record) (K : Z) :
  shr_inv mrs (2 * K) -> shr_inv (shr_1 mrs) K.
Proof.
  destruct mrs as [m r s]. unfold shr_inv. cbn [shr_m shr_r shr_s shr_1].
  destruct m as [|[p|p|]|p]; destruct r, s; cbn; lia.
Qed.

Lemma iter_shr_1_inv (p : positive) (mrs : shr_record) (K : Z) :
  shr_inv mrs (2 ^ Zpos p * K) -> shr_inv (SpecFloat.iter_pos shr_1 p mrs) K.
Proof.
  revert mrs K. induction p as [p IH|p IH|]; intros mrs K H; cbn [SpecFloat.iter_pos].
  - apply IH, IH, shr_1_inv.
    replace (2 * (2 ^ Zpos p * (2 ^ Zpos p * K))) with (2 ^ Zpos p~1 * K); [exact H |].
    replace (Zpos p~1) with (Zpos p + Zpos p + 1) by lia.
    rewrite !Z.pow_add_r by lia. change (2 ^ 1) with 2. ring.
  - apply IH, IH.
    replace (2 ^ Zpos p * (2 ^ Zpos p * K)) with (2 ^ Zpos p~0 * K); [exact H |].
    replace (Zpos p~0) with (Zpos p + Zpos p) by lia.
    rewrite !Z.pow_add_r by lia. ring.
  - apply shr_1_inv. exact H.
Qed.

Lemma shr_fexp_inv (B m e : Z) (l : location) (mrs' : shr_record) (e' : Z) :
  0 <= B < 2 ^ 53 -> 0 <= m -> e <= 0 ->
  m + loc_weight l <= B * 2 ^ (- e) ->
  shr_fexp prec emax m e l = (mrs', e') ->
  e' <= 0 /\ shr_inv mrs' (B * 2 ^ (- e')).
Proof.
  intros HB Hm He Hle. unfold shr_fexp, shr.
  assert (I0 : shr_inv (shr_record_of_loc m l) (B * 2 ^ (- e))).
  { unfold shr_inv. destruct l as [|[| |]]; cbn in *; lia. }
  destruct (fexp prec emax (Zdigits2 m + e) - e) as [|n|n] eqn:En;
    intros [= <- <-]; try (split; [lia | exact I0]).
  assert (Hd : Zdigits2 m <= 53 - e).
  { apply Zdigits2_upper; [lia | lia |].
    replace (53 - e) with (53 + - e) by lia.
    rewrite Z.pow_add_r by lia.
    assert (0 < 2 ^ (- e)) by (apply Z.pow_pos_nonneg; lia).
    assert (0 <= loc_weight l) by (destruct l; cbn; lia).
    nia. }
  assert (He' : e + Zpos n <= 0).
  { unfold fexp, emin, prec, emax in En. lia. }
  split; [exact He' |].
  apply iter_shr_1_inv.
  assert (X : 2 ^ (- e) = 2 ^ Zpos n * 2 ^ (- (e + Zpos n)))
    by (rewrite <- Z.pow_add_r by lia; f_equal; lia).
  replace (2 ^ Zpos n * (B * 2 ^ (- (e + Zpos n)))) with (B * 2 ^ (- e))
    by (rewrite X; ring).
  exact I0.
Qed.

Lemma round_nearest_even_inv (mrs : shr_record) (K : Z) :
  shr_inv mrs K ->
  0 <= round_nearest_even (shr_m mrs) (loc_of_shr_record mrs) <= K.
Proof.
  destruct mrs as [m r s]. unfold shr_inv. cbn [shr_m shr_r shr_s].
  destruct r, s; cbn; try destruct (Z.even m); lia.
Qed.

Lemma binary_round_aux_at_most (B m e : Z) (l : location) :
  0 <= B < 2 ^ 53 -> 0 <= m -> e <= 0 ->
  m + loc_weight l <= B * 2 ^ (- e) ->
  at_most B (binary_round_aux prec emax false m e l).
Proof.
  intros HB Hm He Hle. unfold binary_round_aux.
  destruct (shr_fexp prec emax m e l) as [mrs' e'] eqn:E1.
  destruct (shr_fexp_inv B m e l mrs' e' HB Hm He Hle E1) as [He' I1].
  pose proof (round_nearest_even_inv mrs' _ I1) as R.
  destruct (shr_fexp prec emax _ e' loc_Exact) as [mrs'' e''] eqn:E2.
  apply (shr_fexp_inv B) in E2; [| exact HB | lia | exact He' | cbn; lia].
  destruct E2 as [He'' [I2 I2']].
  destruct (shr_m mrs'') as [|q|q] eqn:Eq; cbn; [exact I | | lia].
  replace (e'' <=? emax - prec) with true by (symmetry; apply Z.leb_le; unfold emax, prec; lia).
  cbn. split; [exact He'' |].
  destruct (shr_r mrs'' || shr_s mrs''); lia.
Qed.

Lemma new_location_weight (t r : Z) : 0 <= r -> loc_weight (new_location t r) <= r.
Proof.
  intros Hr. unfold new_location, new_location_even, new_location_odd.
  destruct (Z.even t); destruct (Z.eqb_spec r 0); cbn; lia.
Qed.

Lemma SFdiv_at_most (B : Z) (p t : positive) :
  0 <= B < 2 ^ 53 -> Zpos p <= B * Zpos t ->
  at_most B (SFdiv prec emax (S754_finite false p 0) (S754_finite false t 0)).
Proof.
  intros HB Hle. unfold SFdiv, SFdiv_core_binary.
  set (e' := Z.min (fexp prec emax (Zdigits2 (Zpos p) + 0 - (Zdigits2 (Zpos t) + 0))) (0 - 0)).
  assert (He' : e' <= 0) by (unfold e'; lia).
  set (m' := match 0 - 0 - e' with Zpos _ => Z.shiftl (Zpos p) (0 - 0 - e') | Z0 => Zpos p | Zneg _ => 0 end).
  assert (Em : m' = Zpos p * 2 ^ (- e')).
  { unfold m'. destruct (0 - 0 - e') as [|s|s] eqn:Es.
    - replace (- e') with 0 by lia. cbn. lia.
    - rewrite Z.shiftl_mul_pow2 by lia. f_equal. f_equal. lia.
    - lia. }
  clearbody m' e'.
  pose proof (Z_div_mod m' (Zpos t) eq_refl) as D.
  destruct (Z.div_eucl m' (Zpos t)) as [q r]. destruct D as [D Hr].
  cbn [xorb].
  assert (0 < 2 ^ (- e')) by (apply Z.pow_pos_nonneg; lia).
  pose proof (new_location_weight (Zpos t) r ltac:(lia)) as W.
  assert (0 <= loc_weight (new_location (Zpos t) r)) by (destruct (new_location _ _); cbn; lia).
  apply binary_round_aux_at_most; [exact HB | nia | exact He' |].
  destruct (Z.eq_dec r 0) as [->|Hr0].
  - assert (loc_weight (new_location (Zpos t) 0) = 0) by lia. nia.
  - assert (loc_weight (new_location (Zpos t) r) <= 1)
      by (destruct (new_location _ _); cbn; lia).
    assert (q < B * 2 ^ (- e')) by nia. lia.
Qed.

Lemma at_most_finite (B : Z) (x : spec_float) : at_most B x -> is_finite x = true.
Proof. destruct x as [s|s| |[|] m e]; cbn; tauto. Qed.

Lemma truediv_at_most (p t : Z) :
  0 <= p <= t -> 0 < t ->
  exists q, truediv p t = Some q /\ at_most 1 q.
Proof.
  intros Hp Ht. unfold truediv.
  replace (t =? 0) with false by (symmetry; apply Z.eqb_neq; lia).
  assert (A : at_most 1 (SFdiv prec emax (operand p) (operand t))).
  { destruct t as [|t|t]; try lia. destruct p as [|p|p]; try lia.
    - exact I.
    - apply SFdiv_at_most; [split; [lia | reflexivity] | lia]. }
  rewrite (at_most_finite _ _ A). eauto.
Qed.

Lemma truediv_zero (t : Z) : 0 < t -> truediv 0 t = Some (S754_zero false).
Proof. intros Ht. destruct t; try lia. reflexivity. Qed.

Lemma mul_int_100_at_most (x : spec_float) :
  at_most 1 x -> at_most 100 (mul_int x 100).
Proof.
  unfold mul_int.
  change (of_int 100) with (S754_finite false 7036874417766400 (-46)).
  destruct x as [s|s| |[|] m e]; cbn [at_most SFmul]; try tauto.
  intros [He Hm]. cbn [xorb].
  assert (0 < 2 ^ (- e)) by (apply Z.pow_pos_nonneg; lia).
  apply binary_round_aux_at_most; [split; [lia | reflexivity] | lia | lia |].
  cbn [loc_weight].
  replace (- (e + -46)) with (- e + 46) by lia.
  rewrite Z.pow_add_r by lia. change (2 ^ 46) with 70368744177664.
  rewrite Pos2Z.inj_mul. nia.
Qed.

Lemma round_half_even_upper (n d K : Z) :
  0 < d -> 0 <= n <= K * d -> 0 <= round_half_even n d <= K.
Proof.
  intros Hd Hn. unfold round_half_even.
  pose proof (Z.div_mod n d ltac:(lia)) as D.
  pose proof (Z.mod_pos_bound n d Hd) as M.
  assert (0 <= n / d) by (apply Z.div_pos; lia).
  destruct (Z.eq_dec (n mod d) 0) as [E|E].
  - rewrite E. replace (2 * 0 ?= d) with Lt by (symmetry; apply Z.compare_lt_iff; lia).
    nia.
  - assert (n / d < K) by nia.
    destruct (2 * (n mod d) ?= d); try destruct (Z.even (n / d)); lia.
Qed.

Lemma round2_float_at_most (x : spec_float) :
  at_most 100 x -> at_most 100 (round2_float x).
Proof.
  destruct x as [s|s| |[|] m e]; cbn [at_most round2_float]; try tauto.
  intros [He Hm].
  assert (P : 0 < 2 ^ (- e)) by (apply Z.pow_pos_nonneg; lia).
  set (h := if 0 <=? e then Zpos m * 2 ^ e * 100
            else round_half_even (Zpos m * 100) (2 ^ (- e))).
  assert (Hh : 0 <= h <= 100 * 100).
  { unfold h. destruct (Z.leb_spec 0 e).
    - replace e with 0 in * by lia. cbn in Hm. lia.
    - apply round_half_even_upper; [exact P | lia]. }
  clearbody h. destruct h as [|h|h]; cbn [at_most]; [exact I | | exact I].
  apply SFdiv_at_most; [split; [lia | reflexivity] | lia].
Qed.

Lemma at_most_in_range (f : spec_float) : at_most 100 f -> in_percent_range (Float f).
Proof.
  destruct f as [s|s| |[|] m e]; cbn [at_most]; try tauto.
  - intros _. split; reflexivity.
  - intros [He Hm]. unfold in_percent_range, Num.leb, Num.compare.
    cbn [value_of compare_value].
    rewrite Z.min_r, Z.min_l by lia.
    rewrite Z.sub_diag, Z.sub_0_l, Z.pow_0_r, Z.mul_1_r, Z.mul_0_l.
    assert (P : 0 < 2 ^ (- e)) by (apply Z.pow_pos_nonneg; lia).
    split.
    + reflexivity.
    + destruct (Zpos m ?= 100 * 2 ^ (- e)) eqn:C; [reflexivity | reflexivity |].
      apply Z.compare_gt_iff in C. lia.
Qed.

Lemma percent_in_range (p t : Z) :
  0 <= p <= t ->
  exists x, percent p t = Some x
            /\ in_percent_range x /\ in_percent_range (round2 x).
Proof.
  intros H. unfold percent. destruct (Z.eqb_spec t 0) as [E|E].
  - exists (Int 0). repeat split.
  - destruct (truediv_at_most p t H ltac:(lia)) as (q & -> & A).
    cbn. eexists; split; [reflexivity |].
    pose proof (mul_int_100_at_most q A) as A'.
    split; [now apply at_most_in_range |].
    cbn [round2]. now apply at_most_in_range, round2_float_at_most.
Qed.

Lemma percent_zero_present (t : Z) :
  0 < t -> percent 0 t = Some (Float (S754_zero false)).
Proof.
  intros Ht. unfold percent.
  replace (t =? 0) with false by (symmetry; apply Z.eqb_neq; lia).
  now rewrite truediv_zero.
Qed.

(** ** Two decimals *)

Lemma binary_round_aux_zero_sign (m e : Z) (l : location) (s : bool) :
  binary_round_aux prec emax false m e l = S754_zero s -> s = false.
Proof.
  unfold binary_round_aux.
  destruct (shr_fexp prec emax m e l) as [mrs' e'].
  destruct (shr_fexp prec emax _ e' loc_Exact) as [mrs'' e''].
  destruct (shr_m mrs'') as [|q|q]; [congruence | | discriminate].
  destruct (e'' <=? emax - prec); discriminate.
Qed.

Lemma SFdiv_zero_sign (p t : Z) (s : bool) :
  0 <= p -> 0 < t ->
  SFdiv prec emax (operand p) (operand t) = S754_zero s -> s = false.
Proof.
  intros Hp Ht. destruct t as [|t|t]; try lia. destruct p as [|p|p]; try lia.
  - cbn. congruence.
  - cbn [operand SFdiv xorb].
    destruct (SFdiv_core_binary _ _ _ _ _ _) as [[mz ez] lz].
    apply binary_round_aux_zero_sign.
Qed.

Lemma mul_int_100_zero_sign (x : spec_float) (s : bool) :
  at_most 1 x -> x <> S754_zero true ->
  mul_int x 100 = S754_zero s -> s = false.
Proof.
  unfold mul_int.
  change (of_int 100) with (S754_finite false 7036874417766400 (-46)).
  destruct x as [[|]|?| |[|] m e]; cbn [at_most SFmul xorb]; try tauto.
  - congruence.
  - intros _ _. apply binary_round_aux_zero_sign.
Qed.

(** Two-sided bounds through a rounding: a value between two numbers of
    the grid [2^-k] is rounded to a float between them. *)

Lemma shr_1_within (mrs : shr_record) (L K : Z) :
  0 <= L -> shr_within mrs (2 * L) (2 * K) -> shr_within (shr_1 mrs) L K.
Proof.
  destruct mrs as [m r s]. unfold shr_within. cbn [shr_m shr_r shr_s shr_1].
  destruct m as [|[p|p|]|p]; destruct r, s; cbn; lia.
Qed.

Lemma iter_shr_1_within (p : positive) (mrs : shr_record) (L K : Z) :
  0 <= L ->
  shr_within mrs (2 ^ Zpos p * L) (2 ^ Zpos p * K) ->
  shr_within (SpecFloat.iter_pos shr_1 p mrs) L K.
Proof.
  intros HL. revert mrs L K HL.
  induction p as [p IH|p IH|]; intros mrs L K HL H; cbn [SpecFloat.iter_pos].
  - assert (0 < 2 ^ Zpos p) by (apply Z.pow_pos_nonneg; lia).
    apply IH; [lia |]. apply IH; [nia |]. apply shr_1_within; [nia |].
    replace (2 * (2 ^ Zpos p * (2 ^ Zpos p * L))) with (2 ^ Zpos p~1 * L);
      [replace (2 * (2 ^ Zpos p * (2 ^ Zpos p * K))) with (2 ^ Zpos p~1 * K);
       [exact H |] |];
      replace (Zpos p~1) with (Zpos p + Zpos p + 1) by lia;
      rewrite !Z.pow_add_r by lia; change (2 ^ 1) with 2; ring.
  - assert (0 < 2 ^ Zpos p) by (apply Z.pow_pos_nonneg; lia).
    apply IH; [lia |]. apply IH; [nia |].
    replace (2 ^ Zpos p * (2 ^ Zpos p * L)) with (2 ^ Zpos p~0 * L);
      [replace (2 ^ Zpos p * (2 ^ Zpos p * K)) with (2 ^ Zpos p~0 * K);
       [exact H |] |];
      replace (Zpos p~0) with (Zpos p + Zpos p) by lia;
      rewrite !Z.pow_add_r by lia; ring.
  - apply shr_1_within; [exact HL | exact H].
Qed.

Lemma shr_fexp_within (L B k m e : Z) (l : location) (mrs' : shr_record) (e' : Z) :
  0 <= L -> 0 <= B < 2 ^ 53 -> 0 <= k <= 1074 -> e <= - k ->
  L * 2 ^ (- e - k) <= m ->
  m + loc_weight l <= B * 2 ^ (- e - k) ->
  shr_fexp prec emax m e l = (mrs', e') ->
  e' <= - k /\ shr_within mrs' (L * 2 ^ (- e' - k)) (B * 2 ^ (- e' - k)).
Proof.
  intros HL HB Hk He Hlo Hle. unfold shr_fexp, shr.
  assert (P : 0 < 2 ^ (- e - k)) by (apply Z.pow_pos_nonneg; lia).
  assert (I0 : shr_within (shr_record_of_loc m l)
                 (L * 2 ^ (- e - k)) (B * 2 ^ (- e - k))).
  { unfold shr_within. destruct l as [|[| |]]; cbn in *; lia. }
  destruct (fexp prec emax (Zdigits2 m + e) - e) as [|n|n] eqn:En;
    intros [= <- <-]; try (split; [lia | exact I0]).
  assert (Hd : Zdigits2 m <= 53 - e - k).
  { apply Zdigits2_upper; [nia | lia |].
    replace (53 - e - k) with (53 + (- e - k)) by lia.
    rewrite Z.pow_add_r by lia.
    assert (0 <= loc_weight l) by (destruct l; cbn; lia).
    nia. }
  assert (He' : e + Zpos n <= - k).
  { unfold fexp, emin, prec, emax in En. lia. }
  split; [exact He' |].
  assert (X : 2 ^ (- e - k) = 2 ^ Zpos n * 2 ^ (- (e + Zpos n) - k))
    by (rewrite <- Z.pow_add_r by lia; f_equal; lia).
  assert (0 < 2 ^ (- (e + Zpos n) - k)) by (apply Z.pow_pos_nonneg; lia).
  apply iter_shr_1_within; [nia |].
  replace (2 ^ Zpos n * (B * 2 ^ (- (e + Zpos n) - k))) with (B * 2 ^ (- e - k))
    by (rewrite X; ring).
  replace (2 ^ Zpos n * (L * 2 ^ (- (e + Zpos n) - k))) with (L * 2 ^ (- e - k))
    by (rewrite X; ring).
  exact I0.
Qed.

Lemma round_nearest_even_within (mrs : shr_record) (L K : Z) :
  shr_within mrs L K ->
  L <= round_nearest_even (shr_m mrs) (loc_of_shr_record mrs) <= K.
Proof.
  destruct mrs as [m r s]. unfold shr_within. cbn [shr_m shr_r shr_s].
  destruct r, s; cbn; try destruct (Z.even m); lia.
Qed.

Lemma binary_round_aux_within (L B k m e : Z) (l : location) :
  0 <= L -> 0 <= B < 2 ^ 53 -> 0 <= k <= 1074 -> e <= - k ->
  L * 2 ^ (- e - k) <= m ->
  m + loc_weight l <= B * 2 ^ (- e - k) ->
  within L B k (binary_round_aux prec emax false m e l).
Proof.
  intros HL HB Hk He Hlo Hle. unfold binary_round_aux.
  destruct (shr_fexp prec emax m e l) as [mrs' e'] eqn:E1.
  destruct (shr_fexp_within L B k m e l mrs' e' HL HB Hk He Hlo Hle E1) as [He' I1].
  pose proof (round_nearest_even_within mrs' _ _ I1) as R.
  destruct (shr_fexp prec emax _ e' loc_Exact) as [mrs'' e''] eqn:E2.
  apply (shr_fexp_within L B k) in E2;
    [| exact HL | exact HB | exact Hk | exact He' | lia | cbn; lia].
  destruct E2 as [He'' [I2 I2']].
  assert (P : 0 < 2 ^ (- e'' - k)) by (apply Z.pow_pos_nonneg; lia).
  destruct (shr_m mrs'') as [|q|q] eqn:Eq; cbn [within].
  - nia.
  - replace (e'' <=? emax - prec) with true
      by (symmetry; apply Z.leb_le; unfold emax, prec; lia).
    cbn [within]. split; [exact He'' |].
    destruct (shr_r mrs'' || shr_s mrs''); lia.
  - nia.
Qed.

Lemma digits2_pos_upper (p : positive) : Zpos p < 2 ^ Zpos (digits2_pos p).
Proof.
  induction p as [p IH|p IH|]; cbn [digits2_pos].
  - rewrite Pos2Z.inj_succ, Z.pow_succ_r by lia. lia.
  - rewrite Pos2Z.inj_succ, Z.pow_succ_r by lia. lia.
  - reflexivity.
Qed.

Lemma Zdigits2_le (p t : positive) :
  Zpos p <= Zpos t -> Zdigits2 (Zpos p) <= Zdigits2 (Zpos t).
Proof.
  intros H. apply Zdigits2_upper; [lia | cbn; lia |].
  cbn [Zdigits2]. pose proof (digits2_pos_upper t). lia.
Qed.

Lemma SFdiv_within (L B : Z) (p t : positive) :
  0 <= L -> 0 <= B < 2 ^ 53 -> Zpos p <= Zpos t ->
  L * Zpos t <= Zpos p * 2 ^ 52 -> Zpos p * 2 ^ 52 <= B * Zpos t ->
  within L B 52 (SFdiv prec emax (S754_finite false p 0) (S754_finite false t 0)).
Proof.
  intros HL HB Hpt Hlo Hhi. unfold SFdiv, SFdiv_core_binary.
  pose proof (Zdigits2_le p t Hpt) as Hd.
  set (e' := Z.min (fexp prec emax (Zdigits2 (Zpos p) + 0 - (Zdigits2 (Zpos t) + 0))) (0 - 0)).
  assert (He' : e' <= - 52).
  { unfold e', fexp, emin, prec, emax. lia. }
  set (m' := match 0 - 0 - e' with Zpos _ => Z.shiftl (Zpos p) (0 - 0 - e') | Z0 => Zpos p | Zneg _ => 0 end).
  assert (Em : m' = Zpos p * 2 ^ (- e')).
  { unfold m'. destruct (0 - 0 - e') as [|s|s] eqn:Es.
    - lia.
    - rewrite Z.shiftl_mul_pow2 by lia. f_equal. f_equal. lia.
    - lia. }
  clearbody m' e'.
  pose proof (Z_div_mod m' (Zpos t) eq_refl) as D.
  destruct (Z.div_eucl m' (Zpos t)) as [q r]. destruct D as [D Hr].
  cbn [xorb].
  assert (S : 0 < 2 ^ (- e' - 52)) by (apply Z.pow_pos_nonneg; lia).
  assert (X : 2 ^ (- e') = 2 ^ 52 * 2 ^ (- e' - 52))
    by (rewrite <- Z.pow_add_r by lia; f_equal; lia).
  rewrite X in Em. clear X.
  pose proof (new_location_weight (Zpos t) r ltac:(lia)) as W.
  assert (0 <= loc_weight (new_location (Zpos t) r)) by (destruct (new_location _ _); cbn; lia).
  apply binary_round_aux_within; [exact HL | exact HB | lia | exact He' | |];
    set (s := 2 ^ (- e' - 52)) in *; clearbody s;
    assert (A1 : L * Zpos t * s <= m') by nia;
    assert (A2 : m' <= B * Zpos t * s) by nia.
  - nia.
  - destruct (Z.eq_dec r 0) as [->|Hr0].
    + assert (loc_weight (new_location (Zpos t) 0) = 0) by lia. nia.
    + assert (loc_weight (new_location (Zpos t) r) <= 1)
        by (destruct (new_location _ _); cbn; lia).
      assert (q < B * s) by nia. lia.
Qed.

Lemma mul_int_100_within (L B L' B' : Z) (x : spec_float) :
  within L B 52 x ->
  0 <= L' -> 64 * L' <= 100 * L -> 100 * B <= 64 * B' -> 0 <= B' < 2 ^ 53 ->
  within L' B' 46 (mul_int x 100).
Proof.
  unfold mul_int.
  change (of_int 100) with (S754_finite false 7036874417766400 (-46)).
  destruct x as [s|s| |[|] m e]; cbn [within SFmul]; try tauto.
  - lia.
  - intros [He [Hlo Hhi]] HL' H1 H2 HB'. cbn [xorb].
    assert (S : 0 < 2 ^ (- e - 52)) by (apply Z.pow_pos_nonneg; lia).
    assert (X : 2 ^ (- (e + -46) - 46) = 2 ^ 52 * 2 ^ (- e - 52)).
    { rewrite <- Z.pow_add_r by lia. f_equal. lia. }
    apply binary_round_aux_within; [exact HL' | exact HB' | lia | lia | |].
    + rewrite X, Pos2Z.inj_mul. set (s := 2 ^ (- e - 52)) in *. clearbody s.
      change (2 ^ 52) with (64 * 70368744177664).
      change (Zpos 7036874417766400) with (100 * 70368744177664). nia.
    + cbn [loc_weight]. rewrite X, Pos2Z.inj_mul.
      set (s := 2 ^ (- e - 52)) in *. clearbody s.
      change (2 ^ 52) with (64 * 70368744177664).
      change (Zpos 7036874417766400) with (100 * 70368744177664). nia.
Qed.

(** The whole number [h] nearest to 100 times the float [p / t * 100] is
    within [1/2 + 2^-36] of [10000 p / t]: the two roundings of the float
    operations move the value by less than [2^-44]. *)
Lemma hundredths_accuracy (p t h : Z) (q : spec_float) :
  0 <= p <= t -> 0 < t -> truediv p t = Some q ->
  match mul_int q 100 with
  | S754_finite _ m e => 2 * Z.abs (h * 2 ^ (- e) - 100 * Zpos m) <= 2 ^ (- e)
  | _ => h = 0
  end ->
  2 ^ 36 * Z.abs (h * t - 10000 * p) <= (2 ^ 35 + 1) * t.
Proof.
  intros Hp Ht Hq Hn. unfold truediv in Hq.
  replace (t =? 0) with false in Hq by (symmetry; apply Z.eqb_neq; lia).
  destruct (is_finite _); [| discriminate]. injection Hq as <-.
  destruct t as [|t|t]; try lia. destruct p as [|p|p]; try lia.
  { unfold mul_int in Hn.
    change (of_int 100) with (S754_finite false 7036874417766400 (-46)) in Hn.
    cbn in Hn. subst h. cbn. lia. }
  cbn [operand] in Hn.
  set (Lq := Zpos p * 2 ^ 52 / Zpos t).
  assert (Dq : Lq * Zpos t <= Zpos p * 2 ^ 52 < (Lq + 1) * Zpos t).
  { unfold Lq. pose proof (Z.div_mod (Zpos p * 2 ^ 52) (Zpos t) ltac:(lia)) as D.
    pose proof (Z.mod_pos_bound (Zpos p * 2 ^ 52) (Zpos t) ltac:(lia)). nia. }
  assert (Rq : 0 <= Lq <= 2 ^ 52).
  { split; [apply Z.div_pos; lia |].
    apply Z.div_le_upper_bound; [lia |]. change (2 ^ 52) with 4503599627370496. nia. }
  clearbody Lq.
  set (Lx := 100 * Lq / 64).
  set (Bx := 100 * (Lq + 1) / 64 + 1).
  assert (Dx : 64 * Lx <= 100 * Lq < 64 * Lx + 64).
  { unfold Lx. pose proof (Z.div_mod (100 * Lq) 64 ltac:(lia)) as D.
    pose proof (Z.mod_pos_bound (100 * Lq) 64 ltac:(lia)). lia. }
  assert (Ex : 100 * (Lq + 1) <= 64 * Bx <= 100 * (Lq + 1) + 64).
  { unfold Bx. pose proof (Z.div_mod (100 * (Lq + 1)) 64 ltac:(lia)) as D.
    pose proof (Z.mod_pos_bound (100 * (Lq + 1)) 64 ltac:(lia)). lia. }
  clearbody Lx Bx.
  change (2 ^ 52) with 4503599627370496 in *.
  assert (Wq : within Lq (Lq + 1) 52
                 (SFdiv prec emax (S754_finite false p 0) (S754_finite false t 0))).
  { apply SFdiv_within;
      change (2 ^ 53) with 9007199254740992;
      change (2 ^ 52) with 4503599627370496; lia. }
  assert (Wx : within Lx Bx 46
                 (mul_int (SFdiv prec emax (S754_finite false p 0)
                             (S754_finite false t 0)) 100)).
  { apply (mul_int_100_within Lq (Lq + 1)); [exact Wq | | | |];
      change (2 ^ 53) with 9007199254740992; lia. }
  destruct (mul_int _ 100) as [s|s| |[|] m e]; cbn [within] in Wx; try tauto.
  - subst h. change (2 ^ 36) with 68719476736. change (2 ^ 35) with 34359738368.
    assert (Lq = 0) by lia. subst Lq. lia.
  - destruct Wx as (He & Wlo & Whi).
    assert (S : 0 < 2 ^ (- e - 46)) by (apply Z.pow_pos_nonneg; lia).
    assert (X : 2 ^ (- e) = 70368744177664 * 2 ^ (- e - 46)).
    { change 70368744177664 with (2 ^ 46).
      rewrite <- Z.pow_add_r by lia. f_equal. lia. }
    rewrite X in Hn. clear X.
    set (s := 2 ^ (- e - 46)) in *. clearbody s.
    change (2 ^ 36) with 68719476736. change (2 ^ 35) with 34359738368.
    set (A := Zpos m) in *. clearbody A.
    (* 64 A t is within 16400 s t of 10000 p 2^52 s *)
    assert (G1 : 64 * A * Zpos t >= s * (100 * Zpos p * 4503599627370496 - 163 * Zpos t)).
    { assert (64 * A >= s * (100 * Lq - 63)) by nia.
      assert (Lq * Zpos t >= Zpos p * 4503599627370496 - Zpos t) by lia.
      nia. }
    assert (G2 : 64 * A * Zpos t <= s * (100 * Zpos p * 4503599627370496 + 164 * Zpos t)).
    { assert (64 * A <= s * (100 * (Lq + 1) + 64)) by nia.
      nia. }
    assert (G3 : 2 * Z.abs (h * 4503599627370496 * s * Zpos t - 100 * 64 * A * Zpos t)
                 <= 4503599627370496 * s * Zpos t).
    { replace (h * 4503599627370496 * s * Zpos t - 100 * 64 * A * Zpos t)
        with ((h * (70368744177664 * s) - 100 * A) * (64 * Zpos t)) by ring.
      rewrite Z.abs_mul, (Z.abs_eq (64 * Zpos t)) by lia. nia. }
    assert (G4 : 2 * 4503599627370496 * (s * Z.abs (h * Zpos t - 10000 * Zpos p))
                 <= (4503599627370496 + 32800) * (s * Zpos t)).
    { assert (E : s * Z.abs (h * Zpos t - 10000 * Zpos p)
                  = Z.abs (s * (h * Zpos t - 10000 * Zpos p)))
        by (rewrite Z.abs_mul, (Z.abs_eq s) by lia; reflexivity).
      rewrite E. lia. }
    assert (G5 : 2 * 4503599627370496 * Z.abs (h * Zpos t - 10000 * Zpos p)
                 <= (4503599627370496 + 32800) * Zpos t) by nia.
    lia.
Qed.

Lemma round_half_even_nearest (n d : Z) :
  0 < d -> 2 * Z.abs (round_half_even n d * d - n) <= d.
Proof.
  intros Hd. unfold round_half_even.
  pose proof (Z.div_mod n d ltac:(lia)) as D.
  pose proof (Z.mod_pos_bound n d Hd) as M.
  destruct (Z.compare_spec (2 * (n mod d)) d) as [E|E|E];
    try destruct (Z.even (n / d)); nia.
Qed.

(** [round(x, 2)] of a percentage [x] is [h / 100] for a whole number [h]
    of hundredths between 0 and 10000, one that is nearest to [100 * x]. *)
Lemma round2_nearest (p t : Z) :
  0 <= p <= t -> 0 < t ->
  exists q h f,
    truediv p t = Some q /\ 0 <= h <= 10000 /\ truediv h 100 = Some f
    /\ round2 (Float (mul_int q 100)) = Float f
    /\ match mul_int q 100 with
       | S754_finite _ m e => 2 * Z.abs (h * 2 ^ (- e) - 100 * Zpos m) <= 2 ^ (- e)
       | _ => h = 0
       end.
Proof.
  intros Hp Ht.
  destruct (truediv_at_most p t Hp Ht) as (q & Hq & A).
  assert (Zq : q <> S754_zero true).
  { intros E. unfold truediv in Hq.
    destruct (t =? 0); [discriminate |].
    destruct (is_finite _); [| discriminate].
    injection Hq as Hq. rewrite E in Hq.
    apply SFdiv_zero_sign in Hq; [discriminate | lia | lia]. }
  pose proof (mul_int_100_at_most q A) as A'.
  pose proof (mul_int_100_zero_sign q) as Zx.
  exists q. cbn [round2].
  destruct (mul_int q 100) as [s|s| |[|] m e] eqn:X; cbn [at_most] in A'; try tauto.
  - exists 0, (S754_zero false). rewrite (Zx s A Zq eq_refl).
    split; [exact Hq |]. split; [lia |].
    split; [reflexivity |]. split; reflexivity.
  - destruct A' as [He Hm]. cbn [round2_float].
    assert (P : 0 < 2 ^ (- e)) by (apply Z.pow_pos_nonneg; lia).
    set (h := if 0 <=? e then Zpos m * 2 ^ e * 100
              else round_half_even (Zpos m * 100) (2 ^ (- e))).
    assert (Hh : 0 <= h <= 100 * 100).
    { unfold h. destruct (Z.leb_spec 0 e).
      - replace e with 0 in * by lia. cbn in Hm. lia.
      - apply round_half_even_upper; [exact P | lia]. }
    assert (Hn : 2 * Z.abs (h * 2 ^ (- e) - 100 * Zpos m) <= 2 ^ (- e)).
    { unfold h. destruct (Z.leb_spec 0 e).
      - replace e with 0 in * by lia. cbn. lia.
      - replace (100 * Zpos m) with (Zpos m * 100) by lia.
        now apply round_half_even_nearest. }
    clearbody h. exists h. destruct h as [|h|h]; [| | lia].
    + exists (S754_zero false).
      split; [exact Hq |]. split; [lia |].
      split; [reflexivity |]. split; [reflexivity | exact Hn].
    + exists (SFdiv prec emax (S754_finite false h 0) (S754_finite false 100 0)).
      split; [exact Hq |]. split; [lia |]. split; [| split; [reflexivity | exact Hn]].
      unfold truediv. cbn [Z.eqb operand].
      assert (F : at_most 100 (SFdiv prec emax (S754_finite false h 0)
                                 (S754_finite false 100 0))).
      { apply SFdiv_at_most; [split; [lia | reflexivity] | lia]. }
      now rewrite (at_most_finite _ _ F).
Qed.

Lemma round2_hundredths (p t : Z) :
  0 <= p <= t -> 0 < t ->
  exists q h f,
    truediv p t = Some q /\ 0 <= h <= 10000 /\ truediv h 100 = Some f
    /\ round2 (Float (mul_int q 100)) = Float f
    /\ match mul_int q 100 with
       | S754_finite _ m e => 2 * Z.abs (h * 2 ^ (- e) - 100 * Zpos m) <= 2 ^ (- e)
       | _ => h = 0
       end
    /\ 2 ^ 36 * Z.abs (h * t - 10000 * p) <= (2 ^ 35 + 1) * t.
Proof.
  intros Hp Ht.
  destruct (round2_nearest p t Hp Ht) as (q & h & f & Hq & Hh & Hf & R & Hn).
  exists q, h, f. repeat (split; [assumption |]).
  now apply hundredths_accuracy with q.
Qed.

(** ** The accumulation loop *)

Lemma add_key_NoDup (ks : list string) (k : string) : NoDup ks -> NoDup (add_key ks k).
Proof.
  intros H. unfold add_key. destruct (decide (k ∈ ks)) as [Hin|Hnin]; [exact H |].
  apply NoDup_app. split; [exact H |]. split; [| apply NoDup_singleton].
  intros x Hx Hx'. apply list_elem_of_singleton in Hx'. now subst.
Qed.

Lemma add_key_elem (ks : list string) (k x : string) :
  x ∈ add_key ks k <-> x ∈ ks \/ x = k.
Proof.
  unfold add_key. destruct (decide (k ∈ ks)) as [Hin|Hnin].
  - split; [now left | intros [H| ->]; assumption].
  - rewrite elem_of_app, list_elem_of_singleton. reflexivity.
Qed.

Lemma add_key_again (ks : list string) (k : string) :
  add_key (add_key ks k) k = add_key ks k.
Proof.
  unfold add_key at 1. destruct (decide (k ∈ add_key ks k)) as [H|H]; [reflexivity |].
  exfalso. apply H, add_key_elem. now right.
Qed.

Lemma distinct_snoc (ks : list string) (k : string) :
  distinct (ks ++ [k]) = add_key (distinct ks) k.
Proof. unfold distinct. now rewrite fold_left_app. Qed.

Lemma distinct_NoDup (ks : list string) : NoDup (distinct ks).
Proof.
  induction ks as [|k ks IH] using rev_ind; [constructor |].
  rewrite distinct_snoc. now apply add_key_NoDup.
Qed.

Lemma distinct_elem (ks : list string) (x : string) : x ∈ distinct ks <-> x ∈ ks.
Proof.
  induction ks as [|k ks IH] using rev_ind; [reflexivity |].
  rewrite distinct_snoc, add_key_elem, IH, elem_of_app, list_elem_of_singleton.
  reflexivity.
Qed.

Section Update.
Context {V : Type}.
Variable fresh : V.

Lemma dd_update_view (f : V -> V) (k : string) (g : string -> V) (ks : list string) :
  NoDup ks -> (k ∉ ks -> g k = fresh) ->
  dd_update fresh f k (view g ks)
  = view (fun x => if decide (x = k) then f (g x) else g x) (add_key ks k).
Proof.
  unfold view. induction ks as [|x ks IH]; intros ND Hf.
  - unfold add_key. destruct (decide (k ∈ [])) as [H|_]; [now apply not_elem_of_nil in H |].
    cbn [map app dd_update]. destruct (decide (k = k)); [| congruence].
    rewrite Hf; [reflexivity | apply not_elem_of_nil].
  - apply NoDup_cons in ND as [Hx ND]. cbn [map dd_update].
    destruct (decide (x = k)) as [->|Hne].
    + unfold add_key. destruct (decide (k ∈ k :: ks)) as [_|H];
        [| exfalso; apply H; left].
      cbn [map]. destruct (decide (k = k)); [| congruence].
      f_equal. apply map_ext_in. intros y Hy.
      destruct (decide (y = k)) as [->|]; [| reflexivity].
      exfalso. apply Hx. now apply list_elem_of_In.
    + rewrite IH; [| exact ND |].
      * unfold add_key.
        destruct (decide (k ∈ ks)) as [Hin|Hnin];
          destruct (decide (k ∈ x :: ks)) as [Hin'|Hnin'].
        -- cbn [map]. destruct (decide (x = k)); [congruence | reflexivity].
        -- exfalso. apply Hnin'. now right.
        -- exfalso. apply elem_of_cons in Hin' as [->|]; [congruence | tauto].
        -- cbn [map app]. destruct (decide (x = k)); [congruence | reflexivity].
      * intros Hnin. apply Hf. intros H.
        apply elem_of_cons in H as [->|]; [congruence | tauto].
Qed.
End Update.

Lemma rows_with_snoc (proj : row -> string) (k : string) (l : list row) (r : row) :
  rows_with proj k (l ++ [r])
  = rows_with proj k l ++ (if decide (proj r = k) then [r] else []).
Proof.
  unfold rows_with. rewrite filter_app. reflexivity.
Qed.

Lemma count_total_snoc (proj : row -> string) (k : string) (l : list row) (r : row) :
  count_total proj k (l ++ [r])
  = count_total proj k l + (if decide (proj r = k) then 1 else 0).
Proof.
  unfold count_total. rewrite rows_with_snoc, length_app.
  destruct (decide (proj r = k)); cbn; lia.
Qed.

Lemma count_present_snoc (proj : row -> string) (k : string) (l : list row) (r : row) :
  count_present proj k (l ++ [r])
  = count_present proj k l
    + (if decide (proj r = k) then (if String.eqb (status r) "P" then 1 else 0) else 0).
Proof.
  unfold count_present. rewrite rows_with_snoc, filter_app, length_app.
  destruct (decide (proj r = k)); [| cbn; lia].
  destruct (String.eqb_spec (status r) "P") as [E|E].
  - rewrite filter_cons_True by exact E. cbn. lia.
  - rewrite filter_cons_False by exact E. cbn. lia.
Qed.

Lemma name_of_snoc (sid : string) (l : list row) (r : row) :
  name_of sid (l ++ [r])
  = if decide (student_id r = sid) then Str.or_else (name_of sid l) (student_name r)
    else name_of sid l.
Proof.
  unfold name_of. rewrite rows_with_snoc.
  destruct (decide (student_id r = sid)) as [E|E]; [| now rewrite app_nil_r].
  rewrite map_app, filter_app. cbn [map].
  destruct (filter _ (map student_name (rows_with student_id sid l))) as [|n ns] eqn:F.
  - cbn [app head default Str.or_else Str.truthy].
    destruct (decide (student_name r ≠ "")) as [H|H].
    + now rewrite filter_cons_True.
    + rewrite filter_cons_False by exact H. cbn.
      destruct (student_name r); [reflexivity |]. exfalso. apply H. discriminate.
  - cbn [app head default]. unfold Str.or_else.
    assert (Hn : n ∈ filter (fun n => n ≠ "") (map student_name (rows_with student_id sid l)))
      by (rewrite F; left).
    apply list_elem_of_filter in Hn as [Hn _].
    destruct n; [congruence | reflexivity].
Qed.

Lemma absent_total (proj : row -> string) (k : string) (l : list row) :
  k ∉ map proj l -> rows_with proj k l = [].
Proof.
  intros H. unfold rows_with. induction l as [|r l IH]; [reflexivity |].
  cbn [map] in H. apply not_elem_of_cons in H as [H1 H2].
  rewrite filter_cons_False by congruence. now apply IH.
Qed.

Lemma acc_of_absent (l : list row) (sid : string) :
  sid ∉ distinct (map student_id l) -> acc_of l sid = fresh_student.
Proof.
  rewrite distinct_elem. intros H.
  unfold acc_of, name_of, count_present, count_total. now rewrite absent_total.
Qed.

Lemma day_acc_of_absent (l : list row) (d : string) :
  d ∉ distinct (map date l) -> day_acc_of l d = fresh_day.
Proof.
  rewrite distinct_elem. intros H.
  unfold day_acc_of, count_present, count_total. now rewrite absent_total.
Qed.

Lemma view_ext {V : Type} (g h : string -> V) (ks : list string) :
  (forall x, g x = h x) -> view g ks = view h ks.
Proof. intros H. unfold view. apply map_ext. intros x. now rewrite H. Qed.

Lemma dd_update_view_present {V : Type} (fresh : V) (f : V -> V) (k : string)
    (g : string -> V) (ks : list string) :
  NoDup ks ->
  dd_update fresh f k (view g (add_key ks k))
  = view (fun x => if decide (x = k) then f (g x) else g x) (add_key ks k).
Proof.
  intros ND. rewrite dd_update_view.
  - now rewrite add_key_again.
  - now apply add_key_NoDup.
  - intros H. exfalso. apply H, add_key_elem. now right.
Qed.

Lemma accumulate_view (l : list row) (r : row) :
  accumulate (view (acc_of l) (distinct (map student_id l)),
              view (day_acc_of l) (distinct (map date l))) r
  = (view (acc_of (l ++ [r])) (distinct (map student_id (l ++ [r]))),
     view (day_acc_of (l ++ [r])) (distinct (map date (l ++ [r])))).
Proof.
  unfold accumulate.
  rewrite !map_app. cbn [map]. rewrite !distinct_snoc.
  rewrite (dd_update_view fresh_student) by (apply distinct_NoDup || apply acc_of_absent).
  rewrite (dd_update_view_present fresh_student) by apply distinct_NoDup.
  rewrite (dd_update_view fresh_day) by (apply distinct_NoDup || apply day_acc_of_absent).
  destruct (String.eqb (status r) "P") eqn:EP.
  - rewrite (dd_update_view_present fresh_student) by apply distinct_NoDup.
    rewrite (dd_update_view_present fresh_day) by apply distinct_NoDup.
    f_equal; apply view_ext; intros x.
    + unfold acc_of. rewrite name_of_snoc, count_present_snoc, count_total_snoc, EP.
      destruct (decide (x = student_id r)) as [->|N].
      * destruct (decide (student_id r = student_id r)); [| congruence].
        cbn. f_equal.
      * destruct (decide (student_id r = x)); [congruence |].
        cbn. f_equal; lia.
    + unfold day_acc_of. rewrite count_present_snoc, count_total_snoc, EP.
      destruct (decide (x = date r)) as [->|N].
      * destruct (decide (date r = date r)); [| congruence]. reflexivity.
      * destruct (decide (date r = x)); [congruence |]. cbn. f_equal; lia.
  - f_equal; apply view_ext; intros x.
    + unfold acc_of. rewrite name_of_snoc, count_present_snoc, count_total_snoc, EP.
      destruct (decide (x = student_id r)) as [->|N].
      * destruct (decide (student_id r = student_id r)); [| congruence].
        cbn. f_equal. lia.
      * destruct (decide (student_id r = x)); [congruence |].
        cbn. f_equal; lia.
    + unfold day_acc_of. rewrite count_present_snoc, count_total_snoc, EP.
      destruct (decide (x = date r)) as [->|N].
      * destruct (decide (date r = date r)); [| congruence]. cbn. f_equal. lia.
      * destruct (decide (date r = x)); [congruence |]. cbn. f_equal; lia.
Qed.

Lemma fold_accumulate (l : list row) :
  fold_left accumulate l ([], [])
  = (view (acc_of l) (distinct (map student_id l)),
     view (day_acc_of l) (distinct (map date l))).
Proof.
  induction l as [|r l IH] using rev_ind; [reflexivity |].
  rewrite fold_left_app, IH. cbn [fold_left]. apply accumulate_view.
Qed.

(** ** Sorting the items of a dict *)

Lemma ascii_compare_lt (a b : ascii) :
  Ascii.compare a b = Lt <-> (N_of_ascii a < N_of_ascii b)%N.
Proof. unfold Ascii.compare. apply N.compare_lt_iff. Qed.

Lemma string_compare_lt_trans (a b c : string) :
  String.compare a b = Lt -> String.compare b c = Lt -> String.compare a c = Lt.
Proof.
  revert b c. induction a as [|x a IH]; intros [|y b] [|z c]; cbn; try congruence.
  destruct (Ascii.compare x y) eqn:Exy; try discriminate;
    destruct (Ascii.compare y z) eqn:Eyz; try discriminate; intros H1 H2.
  - apply Ascii.compare_eq_iff in Exy, Eyz. subst.
    replace (Ascii.compare z z) with Eq by (symmetry; apply N.compare_refl).
    now apply IH with b.
  - apply Ascii.compare_eq_iff in Exy. subst. now rewrite Eyz.
  - apply Ascii.compare_eq_iff in Eyz. subst. now rewrite Exy.
  - apply ascii_compare_lt in Exy, Eyz.
    replace (Ascii.compare x z) with Lt; [reflexivity |].
    symmetry. apply ascii_compare_lt. eapply N.lt_trans; eassumption.
Qed.

Lemma str_lt_trans (a b c : string) : str_lt a b -> str_lt b c -> str_lt a c.
Proof.
  unfold str_lt, String.ltb. 
  destruct (String.compare a b) eqn:E1; try discriminate.
  destruct (String.compare b c) eqn:E2; try discriminate.
  intros _ _. now rewrite (string_compare_lt_trans a b c E1 E2).
Qed.

Lemma leb_ne_lt (a b : string) : String.leb a b = true -> a ≠ b -> str_lt a b.
Proof.
  unfold str_lt, String.leb, String.ltb. intros H N.
  destruct (String.compare a b) eqn:E; [| reflexivity | discriminate].
  apply String.compare_eq_iff in E. congruence.
Qed.

Lemma not_leb_lt (a b : string) : String.leb a b = false -> str_lt b a.
Proof.
  unfold str_lt, String.leb, String.ltb. rewrite (String.compare_antisym b a).
  destruct (String.compare a b); cbn; congruence.
Qed.

Lemma insert_key_elem (k x : string) (ks : list string) :
  x ∈ insert_key k ks <-> x = k \/ x ∈ ks.
Proof.
  induction ks as [|y ks IH]; cbn.
  - rewrite list_elem_of_singleton, elem_of_nil. tauto.
  - destruct (String.leb k y).
    + rewrite elem_of_cons. reflexivity.
    + rewrite !elem_of_cons, IH. tauto.
Qed.

Lemma sort_keys_elem (x : string) (ks : list string) : x ∈ sort_keys ks <-> x ∈ ks.
Proof.
  induction ks as [|k ks IH]; [reflexivity |].
  cbn [sort_keys foldr]. fold (sort_keys ks).
  rewrite insert_key_elem, IH, elem_of_cons. reflexivity.
Qed.

Lemma insert_key_perm (k : string) (ks : list string) :
  Permutation (insert_key k ks) (k :: ks).
Proof.
  induction ks as [|y ks IH]; cbn; [reflexivity |].
  destruct (String.leb k y); [reflexivity |].
  rewrite IH. apply perm_swap.
Qed.

Lemma sort_keys_perm (ks : list string) : Permutation (sort_keys ks) ks.
Proof.
  induction ks as [|k ks IH]; [reflexivity |].
  cbn [sort_keys foldr]. fold (sort_keys ks).
  rewrite insert_key_perm. now constructor.
Qed.

Lemma insert_key_sorted (k : string) (ks : list string) :
  k ∉ ks -> StronglySorted str_lt ks -> StronglySorted str_lt (insert_key k ks).
Proof.
  intros Hk S. induction S as [|y ks S IH F]; cbn.
  - repeat constructor.
  - apply not_elem_of_cons in Hk as [Hne Hk].
    destruct (String.leb k y) eqn:E.
    + assert (L : str_lt k y) by now apply leb_ne_lt.
      constructor; [now constructor |].
      constructor; [exact L |].
      eapply Forall_impl; [exact F |]. intros z Hz. cbn in Hz.
      now apply str_lt_trans with y.
    + constructor; [now apply IH |].
      apply List.Forall_forall. intros z Hz.
      rewrite <- list_elem_of_In in Hz.
      apply insert_key_elem in Hz as [->|Hz].
      * now apply not_leb_lt.
      * rewrite List.Forall_forall in F. apply F. now rewrite <- list_elem_of_In.
Qed.

Lemma sort_keys_sorted (ks : list string) :
  NoDup ks -> StronglySorted str_lt (sort_keys ks).
Proof.
  induction 1 as [|k ks Hk ND IH]; [constructor |].
  cbn [sort_keys foldr]. fold (sort_keys ks).
  apply insert_key_sorted; [| exact IH].
  now rewrite sort_keys_elem.
Qed.

Lemma insert_item_view {V : Type} (g : string -> V) (k : string) (ks : list string) :
  insert_item (k, g k) (view g ks) = view g (insert_key k ks).
Proof.
  unfold view. induction ks as [|y ks IH]; [reflexivity |].
  cbn [map insert_item insert_key fst].
  destruct (String.leb k y); [reflexivity |].
  cbn [map]. now rewrite IH.
Qed.

Lemma sorted_items_view {V : Type} (g : string -> V) (ks : list string) :
  sorted_items (view g ks) = view g (sort_keys ks).
Proof.
  induction ks as [|k ks IH]; [reflexivity |].
  cbn [sort_keys foldr]. fold (sort_keys ks).
  rewrite <- insert_item_view, <- IH. reflexivity.
Qed.

(** ** [analyze] in closed form *)

Lemma count_bounds (proj : row -> string) (k : string) (l : list row) :
  0 <= count_present proj k l <= count_total proj k l.
Proof.
  unfold count_present, count_total.
  pose proof (length_filter (fun r => status r = "P") (rows_with proj k l)). lia.
Qed.

Lemma count_total_pos (proj : row -> string) (k : string) (l : list row) :
  k ∈ map proj l -> 0 < count_total proj k l.
Proof.
  intros H. unfold count_total, rows_with.
  apply list_elem_of_fmap in H as (r & -> & Hr).
  assert (Hin : r ∈ filter (fun r' => proj r' = proj r) l)
    by (apply list_elem_of_filter; split; [reflexivity | exact Hr]).
  destruct (filter _ l); [inversion Hin | cbn; lia].
Qed.

Lemma summarize_view (l : list row) (ks : list string) :
  mapM summarize (view (acc_of l) ks) = Some (map (summary_of l) ks).
Proof.
  induction ks as [|k ks IH]; [reflexivity |].
  destruct (percent_in_range _ _ (count_bounds student_id k l)) as (x & Hx & _).
  assert (E : summarize (k, acc_of l k) = Some (summary_of l k)).
  { unfold summarize, summary_of. cbn [acc_of acc_present acc_total acc_name].
    now rewrite Hx. }
  cbn [view map mapM]. fold (view (acc_of l) ks). now rewrite E, IH.
Qed.

Lemma day_summarize_view (l : list row) (ks : list string) :
  mapM day_summarize (view (day_acc_of l) ks) = Some (map (day_rate_of l) ks).
Proof.
  induction ks as [|k ks IH]; [reflexivity |].
  destruct (percent_in_range _ _ (count_bounds date k l)) as (x & Hx & _).
  assert (E : day_summarize (k, day_acc_of l k) = Some (day_rate_of l k)).
  { unfold day_summarize, day_rate_of. cbn [day_acc_of day_present day_total].
    now rewrite Hx. }
  cbn [view map mapM]. fold (view (day_acc_of l) ks). now rewrite E, IH.
Qed.

Lemma analyze_closed_form (rs : list row) (t : number) :
  analyze rs t
  = Some (mkAnalysis
      (map (summary_of (deduplicate_records rs))
           (distinct (map student_id (deduplicate_records rs))))
      (filter (fun r => Is_true (Num.ltb (percentage r) t))
         (map (summary_of (deduplicate_records rs))
              (distinct (map student_id (deduplicate_records rs)))))
      (map (day_rate_of (deduplicate_records rs))
           (sort_keys (distinct (map date (deduplicate_records rs)))))).
Proof.
  unfold analyze. rewrite fold_accumulate, summarize_view.
  cbn [mbind option_bind]. now rewrite sorted_items_view, day_summarize_view.
Qed.

Lemma filter_summary_id (l : list row) (sid : string) (ks : list string) :
  NoDup ks -> sid ∈ ks ->
  filter (fun s => summary_id s = sid) (map (summary_of l) ks) = [summary_of l sid].
Proof.
  induction 1 as [|k ks Hk ND IH]; intros Hin; [inversion Hin |].
  cbn [map]. destruct (decide (k = sid)) as [->|Hne].
  - rewrite filter_cons_True by reflexivity. f_equal.
    clear IH Hin ND. induction ks as [|y ks IH]; [reflexivity |].
    apply not_elem_of_cons in Hk as [Hy Hk]. cbn [map].
    rewrite filter_cons_False by (cbn; congruence). now apply IH.
  - rewrite filter_cons_False by exact Hne.
    apply IH. apply elem_of_cons in Hin as [->|Hin]; [congruence | exact Hin].
Qed.

Lemma count_present_conj (proj : row -> string) (k : string) (l : list row) :
  count_present proj k l
  = Z.of_nat (length (filter (fun r => proj r = k /\ status r = "P") l)).
Proof.
  unfold count_present, rows_with. rewrite list_filter_filter.
  do 2 f_equal. apply list_filter_iff. intros r. tauto.
Qed.

(** C5: for a student of the deduplicated input there is exactly one
    summary; its [total] is the number of the student's records, its
    [present] the number of those with status P, and its [percentage] is
    [round(present / total * 100, 2)], computed without an exception; the
    formula gives 0 for a total of 0; and 3 present out of 4 give 75.0.
    The percentage has two decimals: it is the float [h / 100] for a whole
    number [h] of hundredths from 0 to 10000.  This [h] is nearest to 100
    times the float [x = present / total * 100]: with [x] of mantissa [m]
    and exponent [e], [|h - 100 m 2^e| <= 1/2].  And it is the exact
    [10000 present / total] rounded to a whole number, but for the error of
    the two float operations: [|h - 10000 present / total| <= 1/2 + 2^-36],
    written without fractions.  For some counts the list
    gives [h]: 1 of 3 is 33.33 and 2 of 3 is 66.67; 1 of 32, exactly
    3.125, is 3.12 and 3 of 32, exactly 9.375, is 9.38, the even
    neighbour; 1 of 160 is 0.62 and 19999 of 20000 is 100.0, as the
    binary values of 0.625 and 99.995 decide. *)
Theorem analyze_student_counts (rs : list row) (t : number) (sid : string) :
  sid ∈ map student_id (deduplicate_records rs) ->
  exists res s q,
    analyze rs t = Some res
    /\ filter (fun s' => summary_id s' = sid) (students res) = [s]
    /\ total s
       = Z.of_nat (length (filter (fun r => student_id r = sid) (deduplicate_records rs)))
    /\ present s
       = Z.of_nat (length (filter (fun r => student_id r = sid /\ status r = "P")
                             (deduplicate_records rs)))
    /\ 0 < total s
    /\ truediv (present s) (total s) = Some q
    /\ percentage s = round2 (Float (mul_int q 100))
    /\ (forall p, round2 <$> percent p 0 = Some (Int 0))
    /\ (present s = 3 -> total s = 4 -> percentage s = Float (of_int 75))
    /\ (exists h f,
          0 <= h <= 10000 /\ truediv h 100 = Some f /\ percentage s = Float f
          /\ match mul_int q 100 with
             | S754_finite _ m e =>
                 2 * Z.abs (h * 2 ^ (- e) - 100 * Zpos m) <= 2 ^ (- e)
             | _ => h = 0
             end
          /\ 2 ^ 36 * Z.abs (h * total s - 10000 * present s) <= (2 ^ 35 + 1) * total s)
    /\ (forall p n h,
          In (p, n, h)
             [(1, 3, 3333); (2, 3, 6667); (1, 6, 1667); (1, 7, 1429); (5, 9, 5556);
              (29, 30, 9667); (1, 8, 1250); (1, 32, 312); (3, 32, 938); (1, 128, 78);
              (7, 128, 547); (1, 160, 62); (3, 160, 188); (1, 800, 12);
              (1, 20000, 1); (1, 40000, 0); (1999, 2000, 9995); (19999, 20000, 10000)] ->
          present s = p -> total s = n ->
          Some (percentage s) = Float <$> truediv h 100).
Proof.
  intros Hin. rewrite analyze_closed_form.
  set (ds := deduplicate_records rs) in *.
  assert (Hpos : 0 < count_total student_id sid ds) by now apply count_total_pos.
  destruct (truediv_at_most _ _ (count_bounds student_id sid ds) Hpos) as (q & Hq & _).
  exists (mkAnalysis (map (summary_of ds) (distinct (map student_id ds)))
            (filter (fun r => Is_true (Num.ltb (percentage r) t))
               (map (summary_of ds) (distinct (map student_id ds))))
            (map (day_rate_of ds) (sort_keys (distinct (map date ds))))),
    (summary_of ds sid), q.
  cbn [students summary_of total present percentage].
  split; [reflexivity |].
  split; [apply filter_summary_id; [apply distinct_NoDup | now apply distinct_elem] |].
  split; [reflexivity |].
  split; [apply count_present_conj |].
  split; [exact Hpos |].
  split; [exact Hq |].
  assert (P : percent (count_present student_id sid ds) (count_total student_id sid ds)
              = Some (Float (mul_int q 100))).
  { unfold percent. replace (_ =? 0) with false by (symmetry; apply Z.eqb_neq; lia).
    now rewrite Hq. }
  split; [now rewrite P |].
  split; [reflexivity |].
  split; [intros -> ->; reflexivity |].
  split.
  - destruct (round2_hundredths _ _ (count_bounds student_id sid ds) Hpos)
      as (q' & h & f & Hq' & Hh & Hf & R & Hn & Ha).
    exists h, f. split; [exact Hh |]. split; [exact Hf |].
    rewrite Hq in Hq'. injection Hq' as <-. rewrite P.
    split; [exact R |]. split; [exact Hn | exact Ha].
  - clear P. intros p n h H.
    repeat (destruct H as [H | H];
            [injection H as <- <- <-; intros -> ->; vm_compute; reflexivity |]).
    destruct H.
Qed.

Lemma analyze_student_counts_witness :
  exists res s,
    analyze [mkRow "S1" "Alice" "2024-01-01" "P"; mkRow "S1" "Alice" "2024-01-02" "P";
             mkRow "S1" "Alice" "2024-01-03" "A"; mkRow "S1" "Alice" "2024-01-04" "P"]
            default_threshold = Some res
    /\ filter (fun s' => summary_id s' = "S1") (students res) = [s]
    /\ total s = 4 /\ present s = 3
    /\ percentage s = Float (of_int 75).
Proof.
  destruct (analyze_student_counts
              [mkRow "S1" "Alice" "2024-01-01" "P"; mkRow "S1" "Alice" "2024-01-02" "P";
               mkRow "S1" "Alice" "2024-01-03" "A"; mkRow "S1" "Alice" "2024-01-04" "P"]
              default_threshold "S1")
    as (res & s & q & E & F & T & P & _ & _ & _ & _ & X & _).
  - vm_compute. left.
  - exists res, s.
    assert (T' : total s = 4) by (rewrite T; reflexivity).
    assert (P' : present s = 3) by (rewrite P; reflexivity).
    repeat split; [exact E | exact F | exact T' | exact P' | exact (X P' T')].
Defined.

Lemma summary_of_elem (l : list row) (ks : list string) (s : student_summary) :
  s ∈ map (summary_of l) ks <-> exists sid, sid ∈ ks /\ s = summary_of l sid.
Proof.
  rewrite list_elem_of_fmap. split; intros (sid & H1 & H2); exists sid; tauto.
Qed.

(** C6: the defaulters are exactly the summaries, in the order of
    [students], whose percentage is strictly below the threshold; under the
    default threshold of 75 a percentage equal to 75 is no defaulter, and a
    student none of whose records is present has percentage 0.0 and is
    one. *)
Theorem analyze_defaulters (rs : list row) (t : number) :
  exists res,
    analyze rs t = Some res
    /\ defaulters res
       = filter (fun s => Is_true (Num.ltb (percentage s) t)) (students res)
    /\ (forall s, s ∈ defaulters res
                  <-> s ∈ students res /\ Num.ltb (percentage s) t = true)
    /\ (forall s, s ∈ students res -> 0 < total s)
    /\ (t = default_threshold ->
        forall s, s ∈ students res ->
          (Num.eqb (percentage s) (Int 75) = true -> s ∉ defaulters res)
          /\ (present s = 0 ->
              percentage s = Float (S754_zero false) /\ s ∈ defaulters res)).
Proof.
  rewrite analyze_closed_form. eexists. split; [reflexivity |].
  cbn [students defaulters].
  set (ds := deduplicate_records rs).
  set (ss := map (summary_of ds) (distinct (map student_id ds))).
  assert (D : forall s, s ∈ filter (fun s => Is_true (Num.ltb (percentage s) t)) ss
                        <-> s ∈ ss /\ Num.ltb (percentage s) t = true).
  { intros s. rewrite list_elem_of_filter, Is_true_true. tauto. }
  assert (T : forall s, s ∈ ss -> 0 < total s).
  { intros s Hs. apply summary_of_elem in Hs as (sid & Hsid & ->).
    cbn [summary_of total]. apply count_total_pos. now apply distinct_elem. }
  split; [reflexivity |].
  split; [exact D |].
  split; [exact T |].
  intros -> s Hs. split.
  - intros E H. apply D in H as [_ H].
    unfold Num.eqb in E. unfold Num.ltb, default_threshold in H.
    destruct (Num.compare (percentage s) (Int 75)) as [[| |]|]; discriminate.
  - intros P0. pose proof (T s Hs) as Tpos.
    apply summary_of_elem in Hs as Hs'. destruct Hs' as (sid & Hsid & ->).
    cbn [summary_of total present percentage] in *.
    rewrite P0, percent_zero_present by exact Tpos.
    split; [reflexivity |].
    apply D. split; [exact Hs |].
    cbn [summary_of percentage].
    rewrite P0, percent_zero_present by exact Tpos. reflexivity.
Qed.

Lemma analyze_defaulters_witness :
  exists res s,
    analyze [mkRow "S1" "Alice" "2024-01-01" "A"; mkRow "S2" "Bob" "2024-01-01" "P"]
            default_threshold = Some res
    /\ defaulters res = [s]
    /\ summary_id s = "S1" /\ percentage s = Float (S754_zero false).
Proof.
  destruct (analyze_defaulters
              [mkRow "S1" "Alice" "2024-01-01" "A"; mkRow "S2" "Bob" "2024-01-01" "P"]
              default_threshold) as (res & E & F & _ & _ & Z).
  vm_compute in E. injection E as <-.
  eexists. exists (mkSummary "S1" "Alice" 0 1 (Float (S754_zero false))).
  split; [vm_compute; reflexivity |].
  destruct (Z eq_refl (mkSummary "S1" "Alice" 0 1 (Float (S754_zero false)))) as [_ Z'].
  - left.
  - destruct (Z' eq_refl) as [P _].
    split; [reflexivity |]. split; [reflexivity | exact P].
Defined.

Lemma dedup_dates (rs : list row) (d : string) :
  d ∈ map date (deduplicate_records rs) <-> d ∈ map date rs.
Proof.
  split; intros H; apply list_elem_of_fmap in H as (r & -> & Hr).
  - apply list_elem_of_fmap. exists r. split; [reflexivity |].
    eapply elem_of_sublist; [exact Hr | apply dedup_sublist].
  - assert (K : key r ∈ map key (deduplicate_records rs)).
    { apply dedup_keys, list_elem_of_fmap. now exists r. }
    apply list_elem_of_fmap in K as (r' & E & Hr').
    apply list_elem_of_fmap. exists r'. split; [| exact Hr'].
    unfold key in E. congruence.
Qed.

(** C7: [daily_rates] is in strictly ascending order of date, with one
    entry for each date of the input, whatever the order of the input. *)
Theorem analyze_daily_rates_sorted (rs : list row) (t : number) :
  exists res,
    analyze rs t = Some res
    /\ StronglySorted str_lt (map rate_date (daily_rates res))
    /\ NoDup (map rate_date (daily_rates res))
    /\ (forall d, d ∈ map rate_date (daily_rates res) <-> d ∈ map date rs).
Proof.
  rewrite analyze_closed_form. eexists. split; [reflexivity |].
  cbn [daily_rates]. rewrite map_map. cbn [day_rate_of rate_date]. rewrite map_id.
  split; [apply sort_keys_sorted, distinct_NoDup |].
  split.
  - rewrite sort_keys_perm. apply distinct_NoDup.
  - intros d. now rewrite sort_keys_elem, distinct_elem, dedup_dates.
Qed.

Lemma analyze_daily_rates_sorted_witness :
  exists res,
    analyze [mkRow "S1" "Alice" "2024-01-03" "P"; mkRow "S1" "Alice" "2024-01-02" "A";
             mkRow "S2" "Bob" "2024-01-02" "P"; mkRow "S1" "Alice" "2024-01-01" "P"]
            default_threshold = Some res
    /\ map rate_date (daily_rates res) = ["2024-01-01"; "2024-01-02"; "2024-01-03"]
    /\ "2024-01-02" ∈ map rate_date (daily_rates res).
Proof.
  destruct (analyze_daily_rates_sorted
              [mkRow "S1" "Alice" "2024-01-03" "P"; mkRow "S1" "Alice" "2024-01-02" "A";
               mkRow "S2" "Bob" "2024-01-02" "P"; mkRow "S1" "Alice" "2024-01-01" "P"]
              default_threshold) as (res & E & _ & _ & M).
  exists res. split; [exact E |]. split.
  - vm_compute in E. injection E as <-. reflexivity.
  - apply M. vm_compute. right. left.
Defined.

Example analyze_daily_rates_reverse_order :
  (daily_rates <$>
     analyze [mkRow "S1" "Alice" "2024-01-03" "P"; mkRow "S1" "Alice" "2024-01-02" "A";
              mkRow "S2" "Bob" "2024-01-02" "P"; mkRow "S1" "Alice" "2024-01-01" "P"]
             default_threshold)
  = Some [mkDayRate "2024-01-01" 1 1 (Float (of_int 100));
          mkDayRate "2024-01-02" 1 2 (Float (of_int 50));
          mkDayRate "2024-01-03" 1 1 (Float (of_int 100))].
Proof. vm_compute. reflexivity. Qed.

Lemma name_of_first (sid : string) (pre post : list row) (r : row) :
  student_id r = sid -> student_name r ≠ "" ->
  (forall r', r' ∈ pre -> student_id r' = sid -> student_name r' = "") ->
  name_of sid (pre ++ r :: post) = student_name r.
Proof.
  intros Hid Hname Hpre. unfold name_of, rows_with.
  rewrite filter_app, map_app, filter_app.
  replace (filter (fun n => n ≠ "") (map student_name (filter (fun r0 => student_id r0 = sid) pre)))
    with (@nil string).
  - rewrite filter_cons_True by exact Hid. cbn [map app].
    now rewrite filter_cons_True by exact Hname.
  - symmetry. induction pre as [|x pre IH]; [reflexivity |].
    destruct (decide (student_id x = sid)) as [E|E].
    + rewrite filter_cons_True by exact E. cbn [map].
      rewrite filter_cons_False.
      * apply IH. intros r' Hr'. apply Hpre. now right.
      * intros N. apply N. apply Hpre; [left | exact E].
    + rewrite filter_cons_False by exact E.
      apply IH. intros r' Hr'. apply Hpre. now right.
Qed.

Lemma name_of_none (sid : string) (l : list row) :
  (forall r, r ∈ l -> student_id r = sid -> student_name r = "") ->
  name_of sid l = "".
Proof.
  intros H. unfold name_of, rows_with.
  induction l as [|x l IH]; [reflexivity |].
  destruct (decide (student_id x = sid)) as [E|E].
  - rewrite filter_cons_True by exact E. cbn [map].
    rewrite filter_cons_False.
    + apply IH. intros r Hr. apply H. now right.
    + intros N. apply N. apply H; [left | exact E].
  - rewrite filter_cons_False by exact E.
    apply IH. intros r Hr. apply H. now right.
Qed.

(** C9: the [name] of a student's summary is the [student_name] of the
    first record of that student, in deduplicated order, whose name is not
    empty; later records do not change it; when every record of the student
    has an empty name, the name is the empty string. *)
Theorem analyze_student_name (rs : list row) (t : number) (sid : string) :
  sid ∈ map student_id (deduplicate_records rs) ->
  exists res s,
    analyze rs t = Some res
    /\ filter (fun s' => summary_id s' = sid) (students res) = [s]
    /\ (forall pre r post,
          deduplicate_records rs = pre ++ r :: post ->
          student_id r = sid -> student_name r ≠ "" ->
          (forall r', r' ∈ pre -> student_id r' = sid -> student_name r' = "") ->
          name s = student_name r)
    /\ ((forall r, r ∈ deduplicate_records rs -> student_id r = sid ->
                   student_name r = "") ->
        name s = "").
Proof.
  intros Hin. rewrite analyze_closed_form.
  eexists. exists (summary_of (deduplicate_records rs) sid).
  split; [reflexivity |]. cbn [students summary_of name].
  split; [apply filter_summary_id; [apply distinct_NoDup | now apply distinct_elem] |].
  split.
  - intros pre r post E Hid Hname Hpre. rewrite E. now apply name_of_first.
  - apply name_of_none.
Qed.

Lemma analyze_student_name_witness :
  exists res s,
    analyze [mkRow "S1" "" "2024-01-01" "P"; mkRow "S1" "Alice" "2024-01-02" "P";
             mkRow "S1" "Alicia" "2024-01-03" "A"] default_threshold = Some res
    /\ students res = [s] /\ name s = "Alice".
Proof.
  destruct (analyze_student_name
              [mkRow "S1" "" "2024-01-01" "P"; mkRow "S1" "Alice" "2024-01-02" "P";
               mkRow "S1" "Alicia" "2024-01-03" "A"] default_threshold "S1")
    as (res & s & E & F & N & _).
  - vm_compute. left.
  - exists res, s. split; [exact E |].
    vm_compute in E. injection E as <-.
    split; [exact F |].
    apply (N [mkRow "S1" "" "2024-01-01" "P"] (mkRow "S1" "Alice" "2024-01-02" "P")
             [mkRow "S1" "Alicia" "2024-01-03" "A"]).
    + reflexivity.
    + reflexivity.
    + discriminate.
    + intros r' Hr' _. apply list_elem_of_singleton in Hr'. now subst.
Defined.

(** ** Sums of the totals *)

Lemma sum_Z_app (l1 l2 : list Z) : sum_Z (l1 ++ l2) = sum_Z l1 + sum_Z l2.
Proof. induction l1 as [|x l1 IH]; cbn; [reflexivity | unfold sum_Z in *; lia]. Qed.

Lemma sum_Z_map_add {A : Type} (f g : A -> Z) (l : list A) :
  sum_Z (map (fun x => f x + g x) l) = sum_Z (map f l) + sum_Z (map g l).
Proof. induction l as [|x l IH]; cbn; [reflexivity | unfold sum_Z in *; lia]. Qed.

Lemma sum_Z_perm (l1 l2 : list Z) : Permutation l1 l2 -> sum_Z l1 = sum_Z l2.
Proof. induction 1; cbn; unfold sum_Z in *; lia. Qed.

Lemma sum_indicator (a : string) (ks : list string) :
  NoDup ks ->
  sum_Z (map (fun k => if decide (a = k) then 1 else 0) ks)
  = if decide (a ∈ ks) then 1 else 0.
Proof.
  induction 1 as [|k ks Hk ND IH].
  - cbn. destruct (decide (a ∈ [])) as [H|_]; [inversion H | reflexivity].
  - cbn [map sum_Z foldr]. fold (sum_Z (map (fun k => if decide (a = k) then 1 else 0) ks)).
    rewrite IH.
    destruct (decide (a = k)) as [->|Hne].
    + destruct (decide (k ∈ ks)); [tauto |].
      destruct (decide (k ∈ k :: ks)) as [_|H]; [lia | exfalso; apply H; left].
    + destruct (decide (a ∈ ks)) as [Hin|Hnin];
        destruct (decide (a ∈ k :: ks)) as [Hin'|Hnin']; try lia.
      * exfalso. apply Hnin'. now right.
      * exfalso. apply elem_of_cons in Hin' as [->|]; tauto.
Qed.

Lemma sum_count_total (proj : row -> string) (l : list row) :
  sum_Z (map (fun k => count_total proj k l) (distinct (map proj l)))
  = Z.of_nat (length l).
Proof.
  induction l as [|r l IH] using rev_ind; [reflexivity |].
  rewrite map_app. cbn [map]. rewrite distinct_snoc, length_app. cbn [length].
  rewrite (map_ext _ (fun k => count_total proj k l + (if decide (proj r = k) then 1 else 0)))
    by (intros k; apply count_total_snoc).
  rewrite sum_Z_map_add, sum_indicator by apply add_key_NoDup, distinct_NoDup.
  destruct (decide (proj r ∈ add_key (distinct (map proj l)) (proj r))) as [_|H];
    [| exfalso; apply H, add_key_elem; now right].
  unfold add_key. destruct (decide (proj r ∈ distinct (map proj l))) as [Hin|Hnin].
  - rewrite IH. lia.
  - rewrite map_app, sum_Z_app, IH. cbn [map sum_Z foldr].
    unfold count_total at 1. rewrite absent_total by now rewrite <- distinct_elem.
    cbn. lia.
Qed.

Lemma day_rate_of_elem (l : list row) (ks : list string) (d : day_rate) :
  d ∈ map (day_rate_of l) ks <-> exists k, k ∈ ks /\ d = day_rate_of l k.
Proof.
  rewrite list_elem_of_fmap. split; intros (k & H1 & H2); exists k; tauto.
Qed.

(** C10: every summary and every day rate has [0 <= present <= total] and a
    percentage (rate) between 0 and 100, and the totals of the students, as
    those of the days, add up to the number of deduplicated records. *)
Theorem analyze_invariants (rs : list row) (t : number) :
  exists res,
    analyze rs t = Some res
    /\ (forall s, s ∈ students res ->
          0 <= present s <= total s
          /\ Num.leb (Int 0) (percentage s) = true
          /\ Num.leb (percentage s) (Int 100) = true)
    /\ (forall d, d ∈ daily_rates res ->
          0 <= rate_present d <= rate_total d
          /\ Num.leb (Int 0) (rate d) = true
          /\ Num.leb (rate d) (Int 100) = true)
    /\ sum_Z (map total (students res)) = Z.of_nat (length (deduplicate_records rs))
    /\ sum_Z (map rate_total (daily_rates res))
       = Z.of_nat (length (deduplicate_records rs)).
Proof.
  rewrite analyze_closed_form. eexists. split; [reflexivity |].
  cbn [students daily_rates].
  set (ds := deduplicate_records rs).
  split; [| split; [| split]].
  - intros s Hs. apply summary_of_elem in Hs as (sid & _ & ->).
    cbn [summary_of present total percentage].
    split; [apply count_bounds |].
    destruct (percent_in_range _ _ (count_bounds student_id sid ds)) as (x & -> & _ & R).
    exact R.
  - intros d Hd. apply day_rate_of_elem in Hd as (k & _ & ->).
    cbn [day_rate_of rate_present rate_total rate].
    split; [apply count_bounds |].
    destruct (percent_in_range _ _ (count_bounds date k ds)) as (x & -> & _ & R).
    exact R.
  - rewrite map_map. cbn [summary_of total]. apply sum_count_total.
  - rewrite map_map. cbn [day_rate_of rate_total].
    rewrite (sum_Z_perm _ (map (fun k => count_total date k ds) (distinct (map date ds)))).
    + apply sum_count_total.
    + apply Permutation_map, sort_keys_perm.
Qed.

Lemma analyze_invariants_witness :
  exists res s,
    analyze [mkRow "S1" "Alice" "2024-01-01" "P"; mkRow "S1" "Alice" "2024-01-01" "A";
             mkRow "S1" "Alice" "2024-01-02" "A"; mkRow "S2" "Bob" "2024-01-02" "P"]
            default_threshold = Some res
    /\ s ∈ students res
    /\ summary_id s = "S1"
    /\ 0 <= present s <= total s
    /\ Num.leb (Int 0) (percentage s) = true
    /\ Num.leb (percentage s) (Int 100) = true
    /\ sum_Z (map total (students res)) = 3.
Proof.
  destruct (analyze_invariants
              [mkRow "S1" "Alice" "2024-01-01" "P"; mkRow "S1" "Alice" "2024-01-01" "A";
               mkRow "S1" "Alice" "2024-01-02" "A"; mkRow "S2" "Bob" "2024-01-02" "P"]
              default_threshold) as (res & E & S & _ & T & _).
  exists res, (mkSummary "S1" "Alice" 1 2 (Float (of_int 50))).
  split; [exact E |].
  vm_compute in E. injection E as <-.
  assert (I : mkSummary "S1" "Alice" 1 2 (Float (of_int 50))
              ∈ [mkSummary "S1" "Alice" 1 2 (Float (of_int 50));
                 mkSummary "S2" "Bob" 1 1 (Float (of_int 100))]) by left.
  split; [exact I |]. split; [reflexivity |].
  destruct (S _ I) as (B & L & U).
  split; [exact B |]. split; [exact L |]. split; [exact U |].
  exact T.
Defined.

(** * Further properties *)

(** ** The status after cleaning *)

Lemma isoformat_length (d : Dates.date) :
  length (Str.chars (Dates.isoformat d)) = 10%nat.
Proof. now rewrite chars_isoformat. Qed.

Lemma plain_known (st : string) : known_status st = true -> plain_char st.
Proof.
  unfold known_status. intros K. apply bool_decide_eq_true in K.
  destruct K as [-> | [-> | [-> | ->]]]; repeat split; vm_compute; reflexivity.
Qed.

Lemma clean_status_cases (raw : string) :
  clean_status raw = "" \/ plain_char (clean_status raw).
Proof.
  unfold clean_status.
  pose proof (upper_starts_clean _ (strip_starts_clean raw)) as Sc.
  pose proof (upper_fixed (Str.strip raw)) as Fx.
  pose proof (chars_well_formed (Str.upper (Str.strip raw))) as W.
  pose proof (join_chars (Str.upper (Str.strip raw))) as J.
  destruct (Str.truthy (Str.upper (Str.strip raw))) eqn:T.
  - right. destruct (known_status (Str.upper (Str.strip raw))) eqn:K; cbn [andb negb].
    + now apply plain_known.
    + unfold Str.first_char.
      destruct (Str.chars (Str.upper (Str.strip raw))) as [|c cs] eqn:E.
      * rewrite <- J in T. discriminate.
      * split; [| split].
        -- apply (well_formed_single _ c W). now left.
        -- exact Sc.
        -- apply Fx. now left.
  - left. cbn [andb]. now destruct (Str.upper (Str.strip raw)).
Qed.

Lemma clean_status_plain (c : string) : plain_char c -> clean_status c = c.
Proof.
  intros (S & Sp & U). unfold clean_status.
  rewrite (strip_single c S Sp), (upper_single c S U), (single_truthy c S).
  destruct (known_status c); cbn [andb negb]; [reflexivity |].
  now apply first_char_single.
Qed.

Lemma clean_status_idempotent (raw : string) :
  clean_status (clean_status raw) = clean_status raw.
Proof.
  destruct (clean_status_cases raw) as [E | P].
  - now rewrite E.
  - now apply clean_status_plain.
Qed.

(** ** [clean_row] on its own output *)

Lemma cell_raw_row (a b c d : string) :
  cell (raw_row a b c d) "student_id" = Some a
  /\ cell (raw_row a b c d) "student_name" = Some b
  /\ cell (raw_row a b c d) "date" = Some c
  /\ cell (raw_row a b c d) "status" = Some d.
Proof.
  unfold raw_row.
  repeat split;
    repeat (rewrite cell_insert_eq || rewrite cell_insert_ne by discriminate);
    reflexivity.
Qed.

Lemma get_raw_row (a b c d : string) :
  get (raw_row a b c d) "student_id" = a
  /\ get (raw_row a b c d) "student_name" = b
  /\ get (raw_row a b c d) "date" = c
  /\ get (raw_row a b c d) "status" = d.
Proof.
  destruct (cell_raw_row a b c d) as (E1 & E2 & E3 & E4).
  unfold get. now rewrite E1, E2, E3, E4.
Qed.

(** [clean_row] on four [str]s. *)
Lemma clean_row_raw_row (a b c d : string) :
  clean_row (raw_row a b c d)
  = match Dates.strptime (Str.strip c) with
    | Some dt =>
        Returned (mkRow (Str.strip a) (Str.strip b) (Dates.isoformat dt) (clean_status d))
    | None => Raised ValueError ("Invalid date: " ++ Str.strip c)%string
    end.
Proof.
  destruct (cell_raw_row a b c d) as (_ & E2 & E3 & _).
  destruct (get_raw_row a b c d) as (G1 & _ & _ & G4).
  unfold clean_row. now rewrite E2, E3, G1, G4.
Qed.

Lemma clean_row_normalized (r : gmap string (option string)) (out : row) :
  clean_row r = Returned out -> normalized out.
Proof.
  unfold normalized. intros H.
  apply clean_row_inv in H as (nm & dt & d & _ & _ & P & ->).
  cbn [student_id student_name date status].
  assert (V : Dates.valid d = true) by now apply strptime_valid with (Str.strip dt).
  rewrite clean_row_raw_row, strip_isoformat, strptime_isoformat by exact V.
  now rewrite !strip_idempotent, clean_status_idempotent.
Qed.

(** X1: [clean_row] is idempotent: a row it returned, handed to it again
    field by field, is returned unchanged. *)
Theorem clean_row_idempotent (r : gmap string (option string)) (out : row) :
  clean_row r = Returned out ->
  clean_row (raw_row (student_id out) (student_name out) (date out) (status out))
  = Returned out.
Proof. apply clean_row_normalized. Qed.

Lemma clean_row_idempotent_witness :
  clean_row (raw_row "S1" "Zoë" "2024-01-05" "É")
  = Returned (mkRow "S1" "Zoë" "2024-01-05" "É").
Proof.
  exact (clean_row_idempotent
           (raw_row " S1 " ("Zoë  " ++ Str.encode 160) " ２０２４-1-5" " été")
           (mkRow "S1" "Zoë" "2024-01-05" "É") ltac:(vm_compute; reflexivity)).
Defined.

(** X2: in a row returned by [clean_row] no field has leading or trailing
    whitespace, the date has exactly ten characters, and the status is
    empty or a single character, one code point, that is not whitespace and
    that [upper] leaves as it is. *)
Theorem clean_row_normal_form (r : gmap string (option string)) (out : row) :
  clean_row r = Returned out ->
  Str.strip (student_id out) = student_id out
  /\ Str.strip (student_name out) = student_name out
  /\ Str.strip (date out) = date out
  /\ Str.strip (status out) = status out
  /\ length (Str.chars (date out)) = 10%nat
  /\ (status out = ""
      \/ Str.chars (status out) = [status out]
         /\ Str.is_space (status out) = false
         /\ Str.upper (status out) = status out).
Proof.
  intros H.
  apply clean_row_inv in H as (nm & dt & d & _ & _ & P & ->).
  cbn [student_id student_name date status].
  split; [apply strip_idempotent |].
  split; [apply strip_idempotent |].
  split; [apply strip_isoformat |].
  split; [| split; [apply isoformat_length |]].
  - destruct (clean_status_cases (get r "status")) as [E | (S & Sp & U)].
    + now rewrite E.
    + now apply strip_single.
  - destruct (clean_status_cases (get r "status")) as [E | (S & Sp & U)].
    + now left.
    + right. split; [exact S |]. split; [exact Sp |]. now apply upper_single.
Qed.

Lemma clean_row_normal_form_witness :
  Str.strip "S1" = "S1" /\ Str.upper "É" = "É".
Proof.
  destruct (clean_row_normal_form
              (raw_row " S1 " ("Zoë  " ++ Str.encode 160) " ２０２４-1-5" " été")
              (mkRow "S1" "Zoë" "2024-01-05" "É") ltac:(vm_compute; reflexivity))
    as (A & _ & _ & _ & _ & [E | (_ & _ & U)]).
  - discriminate E.
  - exact (conj A U).
Defined.

(** ** ISO dates compare as calendar dates *)

Lemma digit_char_compare (a b : Z) :
  Ascii.compare (Dates.digit_char a) (Dates.digit_char b) = (a mod 10 ?= b mod 10).
Proof.
  unfold Ascii.compare, Dates.digit_char.
  assert (Ha : 0 <= a mod 10 < 10) by (apply Z.mod_pos_bound; lia).
  assert (Hb : 0 <= b mod 10 < 10) by (apply Z.mod_pos_bound; lia).
  rewrite !N_ascii_embedding by lia.
  rewrite Z2N.inj_compare by lia.
  apply Z.add_compare_mono_l.
Qed.

Lemma pad2_compare (a b : Z) (k1 k2 : string) :
  String.compare (Dates.pad2 a k1) (Dates.pad2 b k2)
  = match a mod 100 ?= b mod 100 with
    | Eq => String.compare k1 k2
    | c => c
    end.
Proof.
  unfold Dates.pad2. cbn [String.compare]. rewrite !digit_char_compare.
  destruct (Z.compare_spec ((a / 10) mod 10) ((b / 10) mod 10)) as [E1|E1|E1];
    destruct (Z.compare_spec (a mod 10) (b mod 10)) as [E2|E2|E2];
    destruct (Z.compare_spec (a mod 100) (b mod 100)) as [E3|E3|E3];
    try reflexivity; exfalso;
    Z.to_euclidean_division_equations; lia.
Qed.

Lemma pad4_pad2 (n : Z) (k : string) :
  Dates.pad4 n k = Dates.pad2 (n / 100) (Dates.pad2 n k).
Proof.
  unfold Dates.pad4, Dates.pad2. rewrite Z.div_div by lia. reflexivity.
Qed.

Lemma pad4_compare (a b : Z) (k1 k2 : string) :
  0 <= a <= 9999 -> 0 <= b <= 9999 ->
  String.compare (Dates.pad4 a k1) (Dates.pad4 b k2)
  = match a ?= b with
    | Eq => String.compare k1 k2
    | c => c
    end.
Proof.
  intros Ha Hb. rewrite !pad4_pad2, !pad2_compare.
  destruct (Z.compare_spec ((a / 100) mod 100) ((b / 100) mod 100)) as [E1|E1|E1];
    destruct (Z.compare_spec (a mod 100) (b mod 100)) as [E2|E2|E2];
    destruct (Z.compare_spec a b) as [E3|E3|E3];
    try reflexivity; exfalso;
    Z.to_euclidean_division_equations; lia.
Qed.

Lemma small_mod (a : Z) : 0 <= a < 100 -> a mod 100 = a.
Proof. intros H. now apply Z.mod_small. Qed.

Lemma isoformat_compare (a b : Dates.date) :
  Dates.valid a = true -> Dates.valid b = true ->
  String.compare (Dates.isoformat a) (Dates.isoformat b) = date_compare a b.
Proof.
  intros Va Vb.
  destruct (valid_bounds a Va) as (Ya & Ma & Da).
  destruct (valid_bounds b Vb) as (Yb & Mb & Db).
  unfold Dates.isoformat, date_compare.
  rewrite pad4_compare by lia.
  destruct (Dates.year a ?= Dates.year b); try reflexivity.
  cbn [String.compare]. replace (Ascii.compare "-" "-") with Eq by reflexivity.
  rewrite pad2_compare, !small_mod by lia.
  destruct (Dates.month a ?= Dates.month b); try reflexivity.
  cbn [String.compare]. replace (Ascii.compare "-" "-") with Eq by reflexivity.
  rewrite pad2_compare, !small_mod by lia.
  now destruct (Dates.day a ?= Dates.day b).
Qed.

(** X3: the dates of two rows returned by [clean_row] compare as strings
    exactly as the calendar dates they were parsed from compare, by year,
    then month, then day; so sorting cleaned rows by their date string is
    sorting them by day. *)
Theorem clean_row_dates_chronological (r1 r2 : gmap string (option string))
    (o1 o2 : row) (d1 d2 : Dates.date) :
  clean_row r1 = Returned o1 -> clean_row r2 = Returned o2 ->
  Dates.strptime (Str.strip (get r1 "date")) = Some d1 ->
  Dates.strptime (Str.strip (get r2 "date")) = Some d2 ->
  String.compare (date o1) (date o2) = date_compare d1 d2
  /\ (str_lt (date o1) (date o2) <-> date_compare d1 d2 = Lt)
  /\ (date o1 = date o2 <-> d1 = d2).
Proof.
  intros H1 H2 P1 P2.
  apply clean_row_returned_get in H1 as (d1' & P1' & ->).
  apply clean_row_returned_get in H2 as (d2' & P2' & ->).
  rewrite P1 in P1'. injection P1' as <-.
  rewrite P2 in P2'. injection P2' as <-.
  cbn [date].
  assert (V1 : Dates.valid d1 = true) by now apply strptime_valid in P1.
  assert (V2 : Dates.valid d2 = true) by now apply strptime_valid in P2.
  pose proof (isoformat_compare d1 d2 V1 V2) as C.
  split; [exact C |]. split.
  - unfold str_lt, String.ltb. rewrite C. now destruct (date_compare d1 d2).
  - split; [| now intros ->].
    intros E.
    pose proof (strptime_isoformat d1 V1) as R1.
    rewrite E, strptime_isoformat in R1 by exact V2. congruence.
Qed.

Lemma clean_row_dates_chronological_witness :
  str_lt "2024-02-09" "2024-10-01".
Proof.
  apply (proj1 (proj2 (clean_row_dates_chronological
           (raw_row "S1" "A" "2024-2-9" "P") (raw_row "S1" "A" "2024-10-1" "P")
           (mkRow "S1" "A" "2024-02-09" "P") (mkRow "S1" "A" "2024-10-01" "P")
           (Dates.mkDate 2024 2 9) (Dates.mkDate 2024 10 1)
           eq_refl eq_refl eq_refl eq_refl))).
  reflexivity.
Defined.

(** ** More on [deduplicate_records] *)

Lemma dedup_fixed_iff (rs : list row) :
  deduplicate_records rs = rs <-> NoDup (map key rs).
Proof.
  split; [intros <-; apply dedup_NoDup |].
  induction rs as [|r rs IH] using rev_ind; [reflexivity |].
  rewrite map_app. cbn [map]. intros ND.
  apply NoDup_app in ND as (ND & Hr & _).
  rewrite dedup_snoc, IH by exact ND.
  destruct (decide (key r ∈ map key rs)) as [Hin|_]; [| reflexivity].
  exfalso. apply (Hr (key r) Hin). left.
Qed.

(** X4: [deduplicate_records] returns its input unchanged exactly when no
    two records of the input share a (student_id, date) key. *)
Theorem deduplicate_records_fixed_point (rs : list row) :
  deduplicate_records rs = rs <-> NoDup (map key rs).
Proof. apply dedup_fixed_iff. Qed.

Lemma deduplicate_records_fixed_point_witness :
  deduplicate_records [mkRow "S1" "A" "2024-01-01" "P"; mkRow "S1" "A" "2024-01-02" "P"]
  = [mkRow "S1" "A" "2024-01-01" "P"; mkRow "S1" "A" "2024-01-02" "P"].
Proof.
  apply deduplicate_records_fixed_point. cbn.
  apply NoDup_cons. split.
  - rewrite list_elem_of_singleton. discriminate.
  - apply NoDup_singleton.
Defined.

(** X5: the number of records kept is the number of distinct keys of the
    input, and never more than the number of records given. *)
Theorem deduplicate_records_length (rs : list row) :
  length (deduplicate_records rs)
  = size (list_to_set (map key rs) : gset (string * string))
  /\ (length (deduplicate_records rs) <= length rs)%nat.
Proof.
  split.
  - rewrite <- (length_map key), <- (size_list_to_set (C := gset (string * string)))
      by apply dedup_NoDup.
    f_equal. apply set_eq. intros k. rewrite !elem_of_list_to_set. apply dedup_keys.
  - apply sublist_length, dedup_sublist.
Qed.

Lemma rows_with_key_nil (k : string * string) (l : list row) :
  k ∉ map key l -> filter (fun r => key r = k) l = [].
Proof.
  induction l as [|r l IH]; [reflexivity |].
  cbn [map]. intros H. apply not_elem_of_cons in H as [H1 H2].
  rewrite filter_cons_False by congruence. now apply IH.
Qed.

Lemma rows_with_key_cons (k : string * string) (l : list row) :
  k ∈ map key l -> exists r t, filter (fun r => key r = k) l = r :: t.
Proof.
  intros H. apply list_elem_of_fmap in H as (r & -> & Hr).
  assert (Hin : r ∈ filter (fun r' => key r' = key r) l)
    by (apply list_elem_of_filter; split; [reflexivity | exact Hr]).
  destruct (filter _ l) as [|x t]; [inversion Hin | eauto].
Qed.

(** X6: for every key, the output holds the first input record with that
    key and no other record with it: first write wins. *)
Theorem deduplicate_records_keeps_first (rs : list row) (k : string * string) :
  filter (fun r => key r = k) (deduplicate_records rs)
  = take 1 (filter (fun r => key r = k) rs).
Proof.
  induction rs as [|r rs IH] using rev_ind; [reflexivity |].
  rewrite dedup_snoc, !filter_app, IH.
  destruct (decide (key r ∈ map key rs)) as [Hin|Hnin].
  - rewrite filter_nil, app_nil_r.
    destruct (decide (key r = k)) as [E|E].
    + rewrite E in Hin. destruct (rows_with_key_cons k rs Hin) as (x & t & ->).
      reflexivity.
    + rewrite (filter_cons_False _ r) by exact E. now rewrite filter_nil, app_nil_r.
  - destruct (decide (key r = k)) as [E|E].
    + rewrite E in Hnin. rewrite (rows_with_key_nil k rs Hnin).
      rewrite filter_cons_True by exact E. reflexivity.
    + rewrite (filter_cons_False _ r) by exact E. now rewrite filter_nil, !app_nil_r.
Qed.

(** X7: deduplicating a concatenation is deduplicating the first part and
    then adding, from the deduplicated second part, the records whose key
    the first part does not have. *)
Theorem deduplicate_records_app (l1 l2 : list row) :
  deduplicate_records (l1 ++ l2)
  = deduplicate_records l1
    ++ filter (fun r => key r ∉ map key l1) (deduplicate_records l2).
Proof.
  induction l2 as [|r l2 IH] using rev_ind.
  - now rewrite !app_nil_r.
  - rewrite app_assoc, !dedup_snoc, IH, filter_app, <- app_assoc. f_equal. f_equal.
    rewrite map_app.
    destruct (decide (key r ∈ map key l1 ++ map key l2)) as [Hin|Hnin];
      destruct (decide (key r ∈ map key l2)) as [Hin2|Hnin2].
    + reflexivity.
    + apply elem_of_app in Hin as [Hin|Hin]; [| tauto].
      rewrite filter_cons_False by tauto. reflexivity.
    + exfalso. apply Hnin, elem_of_app. now right.
    + rewrite filter_cons_True; [reflexivity |].
      intros H. apply Hnin, elem_of_app. now left.
Qed.

(** ** More on [analyze] *)

Lemma analyze_students_ids (rs : list row) (t : number) :
  exists res,
    analyze rs t = Some res
    /\ map summary_id (students res)
       = distinct (map student_id (deduplicate_records rs))
    /\ map rate_date (daily_rates res)
       = sort_keys (distinct (map date (deduplicate_records rs))).
Proof.
  rewrite analyze_closed_form. eexists. split; [reflexivity |].
  cbn [students daily_rates]. rewrite !map_map.
  cbn [summary_of summary_id day_rate_of rate_date]. now rewrite !map_id.
Qed.

Lemma filter_sublist_impl {A : Type} (P Q : A -> Prop)
    `{!forall x, Decision (P x)} `{!forall x, Decision (Q x)} (l : list A) :
  (forall x, x ∈ l -> P x -> Q x) -> sublist (filter P l) (filter Q l).
Proof.
  induction l as [|x l IH]; intros Himp; [constructor |].
  assert (IH' : sublist (filter P l) (filter Q l))
    by (apply IH; intros y Hy; apply Himp; now right).
  destruct (decide (P x)) as [Hp|Hp].
  - rewrite (filter_cons_True P) by exact Hp.
    rewrite (filter_cons_True Q) by (apply Himp; [left | exact Hp]).
    now constructor.
  - rewrite (filter_cons_False P) by exact Hp.
    destruct (decide (Q x)) as [Hq|Hq].
    + rewrite (filter_cons_True Q) by exact Hq. now constructor.
    + now rewrite (filter_cons_False Q) by exact Hq.
Qed.

(** X8: the summaries come one per student, in the order in which the
    students first occur in the deduplicated input, and the defaulters keep
    that order. *)
Theorem analyze_students_order (rs : list row) (t : number) :
  exists res,
    analyze rs t = Some res
    /\ map summary_id (students res)
       = distinct (map student_id (deduplicate_records rs))
    /\ NoDup (map summary_id (students res))
    /\ (forall sid, sid ∈ map summary_id (students res) <-> sid ∈ map student_id rs)
    /\ sublist (defaulters res) (students res).
Proof.
  destruct (analyze_students_ids rs t) as (res & E & I & _).
  exists res. split; [exact E |]. split; [exact I |].
  split; [rewrite I; apply distinct_NoDup |].
  split.
  - intros sid. rewrite I, distinct_elem. split; intros H.
    + apply list_elem_of_fmap in H as (r & -> & Hr).
      apply list_elem_of_fmap. exists r. split; [reflexivity |].
      eapply elem_of_sublist; [exact Hr | apply dedup_sublist].
    + apply list_elem_of_fmap in H as (r & -> & Hr).
      assert (K : key r ∈ map key (deduplicate_records rs)).
      { apply dedup_keys, list_elem_of_fmap. now exists r. }
      apply list_elem_of_fmap in K as (r' & Ek & Hr').
      apply list_elem_of_fmap. exists r'. split; [| exact Hr'].
      unfold key in Ek. congruence.
  - rewrite analyze_closed_form in E. injection E as <-.
    cbn [students defaulters]. apply sublist_filter.
Qed.

Lemma filter_rate_date (l : list row) (d : string) (ks : list string) :
  NoDup ks -> d ∈ ks ->
  filter (fun x => rate_date x = d) (map (day_rate_of l) ks) = [day_rate_of l d].
Proof.
  induction 1 as [|k ks Hk ND IH]; intros Hin; [inversion Hin |].
  cbn [map]. destruct (decide (k = d)) as [->|Hne].
  - rewrite filter_cons_True by reflexivity. f_equal.
    clear IH Hin ND. induction ks as [|y ks IH]; [reflexivity |].
    apply not_elem_of_cons in Hk as [Hy Hk]. cbn [map].
    rewrite filter_cons_False by (cbn; congruence). now apply IH.
  - rewrite filter_cons_False by exact Hne.
    apply IH. apply elem_of_cons in Hin as [->|Hin]; [congruence | exact Hin].
Qed.

(** X9: for every date of the input there is exactly one day rate; its
    total is the number of deduplicated records of that date, its present
    count the number of those with status P, and its rate is
    [round(present / total * 100, 2)]: the float [h / 100] for a whole
    number [h] of hundredths from 0 to 10000 that is nearest to 100 times
    the float [present / total * 100] and within [1/2 + 2^-36] of the exact
    [10000 present / total]; the list gives [h] for some counts (2 of 3 is
    66.67; 1 of 32, exactly 3.125, is 3.12). *)
Theorem analyze_day_counts (rs : list row) (t : number) (d : string) :
  d ∈ map date rs ->
  exists res x q,
    analyze rs t = Some res
    /\ filter (fun x' => rate_date x' = d) (daily_rates res) = [x]
    /\ rate_total x
       = Z.of_nat (length (filter (fun r => date r = d) (deduplicate_records rs)))
    /\ rate_present x
       = Z.of_nat (length (filter (fun r => date r = d /\ status r = "P")
                             (deduplicate_records rs)))
    /\ 0 < rate_total x
    /\ truediv (rate_present x) (rate_total x) = Some q
    /\ rate x = round2 (Float (mul_int q 100))
    /\ (exists h f,
          0 <= h <= 10000 /\ truediv h 100 = Some f /\ rate x = Float f
          /\ match mul_int q 100 with
             | S754_finite _ m e =>
                 2 * Z.abs (h * 2 ^ (- e) - 100 * Zpos m) <= 2 ^ (- e)
             | _ => h = 0
             end
          /\ 2 ^ 36 * Z.abs (h * rate_total x - 10000 * rate_present x) <= (2 ^ 35 + 1) * rate_total x)
    /\ (forall p n h,
          In (p, n, h)
             [(1, 3, 3333); (2, 3, 6667); (1, 6, 1667); (1, 7, 1429); (5, 9, 5556);
              (29, 30, 9667); (1, 8, 1250); (1, 32, 312); (3, 32, 938); (1, 128, 78);
              (7, 128, 547); (1, 160, 62); (3, 160, 188); (1, 800, 12);
              (1, 20000, 1); (1, 40000, 0); (1999, 2000, 9995); (19999, 20000, 10000)] ->
          rate_present x = p -> rate_total x = n ->
          Some (rate x) = Float <$> truediv h 100).
Proof.
  intros Hin. apply dedup_dates in Hin. rewrite analyze_closed_form.
  set (ds := deduplicate_records rs) in *.
  assert (Hpos : 0 < count_total date d ds) by now apply count_total_pos.
  destruct (truediv_at_most _ _ (count_bounds date d ds) Hpos) as (q & Hq & _).
  eexists. exists (day_rate_of ds d), q.
  split; [reflexivity |]. cbn [daily_rates day_rate_of rate_total rate_present rate].
  split.
  { apply filter_rate_date.
    - rewrite sort_keys_perm. apply distinct_NoDup.
    - now apply sort_keys_elem, distinct_elem. }
  split; [reflexivity |].
  split; [apply count_present_conj |].
  split; [exact Hpos |].
  split; [exact Hq |].
  assert (P : percent (count_present date d ds) (count_total date d ds)
              = Some (Float (mul_int q 100))).
  { unfold percent. replace (_ =? 0) with false by (symmetry; apply Z.eqb_neq; lia).
    now rewrite Hq. }
  split; [now rewrite P |].
  split.
  - destruct (round2_hundredths _ _ (count_bounds date d ds) Hpos)
      as (q' & h & f & Hq' & Hh & Hf & R & Hn & Ha).
    exists h, f. split; [exact Hh |]. split; [exact Hf |].
    rewrite Hq in Hq'. injection Hq' as <-. rewrite P.
    split; [exact R |]. split; [exact Hn | exact Ha].
  - clear P. intros p n h H.
    repeat (destruct H as [H | H];
            [injection H as <- <- <-; intros -> ->; vm_compute; reflexivity |]).
    destruct H.
Qed.

Lemma analyze_day_counts_witness :
  exists res x,
    analyze [mkRow "S1" "A" "2024-01-02" "P"; mkRow "S2" "B" "2024-01-02" "A";
             mkRow "S1" "A" "2024-01-01" "P"] default_threshold = Some res
    /\ filter (fun x' => rate_date x' = "2024-01-02") (daily_rates res) = [x]
    /\ rate_total x = 2 /\ rate_present x = 1.
Proof.
  destruct (analyze_day_counts
              [mkRow "S1" "A" "2024-01-02" "P"; mkRow "S2" "B" "2024-01-02" "A";
               mkRow "S1" "A" "2024-01-01" "P"] default_threshold "2024-01-02")
    as (res & x & q & E & F & T & P & _).
  - vm_compute. left.
  - exists res, x. split; [exact E |]. split; [exact F |].
    split; [rewrite T | rewrite P]; reflexivity.
Defined.

Lemma sum_weighted_indicator (a : string) (c : Z) (ks : list string) :
  NoDup ks ->
  sum_Z (map (fun k => if decide (a = k) then c else 0) ks)
  = if decide (a ∈ ks) then c else 0.
Proof.
  induction 1 as [|k ks Hk ND IH].
  - cbn. destruct (decide (a ∈ [])) as [H|_]; [inversion H | reflexivity].
  - cbn [map sum_Z foldr]. fold (sum_Z (map (fun k => if decide (a = k) then c else 0) ks)).
    rewrite IH.
    destruct (decide (a = k)) as [->|Hne].
    + destruct (decide (k ∈ ks)); [tauto |].
      destruct (decide (k ∈ k :: ks)) as [_|H]; [lia | exfalso; apply H; left].
    + destruct (decide (a ∈ ks)) as [Hin|Hnin];
        destruct (decide (a ∈ k :: ks)) as [Hin'|Hnin']; try lia.
      * exfalso. apply Hnin'. now right.
      * exfalso. apply elem_of_cons in Hin' as [->|]; tauto.
Qed.

Lemma sum_count_present (proj : row -> string) (l : list row) :
  sum_Z (map (fun k => count_present proj k l) (distinct (map proj l)))
  = Z.of_nat (length (filter (fun r => status r = "P") l)).
Proof.
  induction l as [|r l IH] using rev_ind; [reflexivity |].
  rewrite map_app. cbn [map]. rewrite distinct_snoc, filter_app, length_app.
  rewrite (map_ext _ (fun k => count_present proj k l
             + (if decide (proj r = k)
                then (if String.eqb (status r) "P" then 1 else 0) else 0)))
    by (intros k; apply count_present_snoc).
  rewrite sum_Z_map_add, sum_weighted_indicator by apply add_key_NoDup, distinct_NoDup.
  destruct (decide (proj r ∈ add_key (distinct (map proj l)) (proj r))) as [_|H];
    [| exfalso; apply H, add_key_elem; now right].
  assert (E : Z.of_nat (length (filter (fun r0 => status r0 = "P") [r]))
              = if String.eqb (status r) "P" then 1 else 0).
  { destruct (String.eqb_spec (status r) "P") as [Ep|Ep].
    - now rewrite filter_cons_True.
    - now rewrite filter_cons_False. }
  rewrite Nat2Z.inj_add, E.
  unfold add_key. destruct (decide (proj r ∈ distinct (map proj l))) as [Hin|Hnin].
  - rewrite IH. lia.
  - rewrite map_app, sum_Z_app, IH. cbn [map sum_Z foldr].
    unfold count_present at 1. rewrite absent_total by now rewrite <- distinct_elem.
    cbn. lia.
Qed.

(** X10: the present counts of the students and the present counts of the
    days both add up to the number of deduplicated records with status P. *)
Theorem analyze_present_sums (rs : list row) (t : number) :
  exists res,
    analyze rs t = Some res
    /\ sum_Z (map present (students res))
       = Z.of_nat (length (filter (fun r => status r = "P") (deduplicate_records rs)))
    /\ sum_Z (map rate_present (daily_rates res))
       = Z.of_nat (length (filter (fun r => status r = "P") (deduplicate_records rs))).
Proof.
  rewrite analyze_closed_form. eexists. split; [reflexivity |].
  cbn [students daily_rates]. rewrite !map_map.
  cbn [summary_of present day_rate_of rate_present].
  split; [apply sum_count_present |].
  rewrite (sum_Z_perm _ (map (fun k => count_present date k (deduplicate_records rs))
                           (distinct (map date (deduplicate_records rs))))).
  - apply sum_count_present.
  - apply Permutation_map, sort_keys_perm.
Qed.

(** X11: a record whose (student_id, date) key already occurs earlier in
    the input does not change the result of [analyze]. *)
Theorem analyze_ignores_later_duplicate (rs : list row) (r : row) (t : number) :
  key r ∈ map key rs -> analyze (rs ++ [r]) t = analyze rs t.
Proof.
  intros Hin. unfold analyze. rewrite dedup_snoc.
  destruct (decide (key r ∈ map key rs)); [| tauto]. now rewrite app_nil_r.
Qed.

Lemma analyze_ignores_later_duplicate_witness :
  analyze ([mkRow "S1" "A" "2024-01-01" "P"] ++ [mkRow "S1" "A" "2024-01-01" "A"])
          default_threshold
  = analyze [mkRow "S1" "A" "2024-01-01" "P"] default_threshold.
Proof.
  apply analyze_ignores_later_duplicate. cbn. left.
Defined.

(** ** Percentages against thresholds *)

Lemma truediv_self (n : Z) : 0 < n -> truediv n n = Some (of_int 1).
Proof.
  intros Hn. unfold truediv.
  replace (n =? 0) with false by (symmetry; apply Z.eqb_neq; lia).
  destruct n as [|p|p]; try lia.
  assert (E : SFdiv prec emax (operand (Zpos p)) (operand (Zpos p)) = of_int 1).
  { unfold operand, SFdiv, SFdiv_core_binary.
    replace (Zdigits2 (Zpos p) + 0 - (Zdigits2 (Zpos p) + 0)) with 0 by lia.
    change (Z.min (fexp prec emax 0) (0 - 0)) with (-53).
    change (0 - 0 - -53) with 53.
    cbv iota.
    rewrite Z.shiftl_mul_pow2 by lia.
    assert (D : Z.div_eucl (Zpos p * 2 ^ 53) (Zpos p) = (2 ^ 53, 0)).
    { rewrite (surjective_pairing (Z.div_eucl _ _)).
      change (fst (Z.div_eucl (Zpos p * 2 ^ 53) (Zpos p)))
        with ((Zpos p * 2 ^ 53) / Zpos p).
      change (snd (Z.div_eucl (Zpos p * 2 ^ 53) (Zpos p)))
        with ((Zpos p * 2 ^ 53) mod Zpos p).
      rewrite (Z.mul_comm (Zpos p)), Z.div_mul, Z.mod_mul by lia. reflexivity. }
    rewrite D.
    replace (new_location (Zpos p) 0) with loc_Exact
      by (unfold new_location, new_location_even, new_location_odd;
          now destruct (Z.even (Zpos p))).
    reflexivity. }
  now rewrite E.
Qed.

Lemma percent_all_present (n : Z) :
  0 < n -> round2 <$> percent n n = Some (Float (of_int 100)).
Proof.
  intros Hn. unfold percent.
  replace (n =? 0) with false by (symmetry; apply Z.eqb_neq; lia).
  now rewrite truediv_self.
Qed.

Lemma value_of_le_int (x : number) (a b : Z) :
  Num.leb x (Int a) = true -> a < b -> Num.ltb x (Int b) = true.
Proof.
  unfold Num.leb, Num.ltb, Num.compare. cbn [value_of].
  destruct (value_of x) as [|s|m e]; cbn [compare_value]; [discriminate | now destruct s |].
  intros H Hab.
  assert (P : 0 < 2 ^ (0 - Z.min e 0)) by (apply Z.pow_pos_nonneg; lia).
  destruct (Z.compare_spec (m * 2 ^ (e - Z.min e 0)) (a * 2 ^ (0 - Z.min e 0)));
    try discriminate;
    (replace (m * 2 ^ (e - Z.min e 0) ?= b * 2 ^ (0 - Z.min e 0)) with Lt;
     [reflexivity | symmetry; apply Z.compare_lt_iff; nia]).
Qed.

Lemma value_of_lt_int_mono (x : number) (a b : Z) :
  Num.ltb x (Int a) = true -> a <= b -> Num.ltb x (Int b) = true.
Proof.
  unfold Num.ltb, Num.compare. cbn [value_of].
  destruct (value_of x) as [|s|m e]; cbn [compare_value]; [discriminate | now destruct s |].
  intros H Hab.
  assert (P : 0 < 2 ^ (0 - Z.min e 0)) by (apply Z.pow_pos_nonneg; lia).
  destruct (Z.compare_spec (m * 2 ^ (e - Z.min e 0)) (a * 2 ^ (0 - Z.min e 0)));
    try discriminate.
  replace (m * 2 ^ (e - Z.min e 0) ?= b * 2 ^ (0 - Z.min e 0)) with Lt;
    [reflexivity | symmetry; apply Z.compare_lt_iff; nia].
Qed.

Lemma value_of_ge_int (x : number) (a b : Z) :
  Num.leb (Int a) x = true -> b <= a -> Num.ltb x (Int b) = false.
Proof.
  unfold Num.leb, Num.ltb, Num.compare. cbn [value_of].
  destruct (value_of x) as [|s|m e]; cbn [compare_value]; [discriminate | now destruct s |].
  intros H Hab.
  rewrite (Z.min_comm 0 e) in H.
  assert (P : 0 < 2 ^ (0 - Z.min e 0)) by (apply Z.pow_pos_nonneg; lia).
  destruct (Z.compare_spec (a * 2 ^ (0 - Z.min e 0)) (m * 2 ^ (e - Z.min e 0)));
    try discriminate;
    (destruct (Z.compare_spec (m * 2 ^ (e - Z.min e 0)) (b * 2 ^ (0 - Z.min e 0)));
     [reflexivity | exfalso; nia | reflexivity]).
Qed.

Lemma summary_in_range (l : list row) (sid : string) :
  in_percent_range (percentage (summary_of l sid)).
Proof.
  cbn [summary_of percentage].
  destruct (percent_in_range _ _ (count_bounds student_id sid l)) as (x & -> & _ & R).
  exact R.
Qed.

(** X12: a student all of whose deduplicated records have status P has a
    percentage of exactly 100.0, and is then no defaulter under any integer
    threshold up to 100. *)
Theorem analyze_all_present (rs : list row) (z : Z) :
  exists res,
    analyze rs (Int z) = Some res
    /\ forall s, s ∈ students res -> present s = total s ->
         percentage s = Float (of_int 100)
         /\ (z <= 100 -> s ∉ defaulters res).
Proof.
  rewrite analyze_closed_form. eexists. split; [reflexivity |].
  cbn [students defaulters]. intros s Hs Hall.
  assert (Hp : percentage s = Float (of_int 100)).
  { apply summary_of_elem in Hs as (sid & Hsid & ->).
    cbn [summary_of present total percentage] in *.
    assert (Hpos : 0 < count_total student_id sid (deduplicate_records rs))
      by now apply count_total_pos, distinct_elem.
    rewrite Hall.
    pose proof (percent_all_present _ Hpos) as P.
    destruct (percent _ _) as [x|]; cbn in P |- *; [now injection P | discriminate]. }
  split; [exact Hp |].
  intros Hz Hd. apply list_elem_of_filter in Hd as [Hd _].
  apply Is_true_true in Hd. rewrite Hp in Hd.
  rewrite (value_of_ge_int (Float (of_int 100)) 100 z) in Hd; [discriminate | reflexivity | exact Hz].
Qed.

Lemma analyze_all_present_witness :
  exists res,
    analyze [mkRow "S1" "A" "2024-01-01" "P"; mkRow "S1" "A" "2024-01-02" "P";
             mkRow "S1" "A" "2024-01-03" "P"] (Int 100) = Some res
    /\ map percentage (students res) = [Float (of_int 100)]
    /\ defaulters res = [].
Proof.
  destruct (analyze_all_present
              [mkRow "S1" "A" "2024-01-01" "P"; mkRow "S1" "A" "2024-01-02" "P";
               mkRow "S1" "A" "2024-01-03" "P"] 100) as (res & E & _).
  exists res. split; [exact E |].
  vm_compute in E. injection E as <-. split; reflexivity.
Defined.

Lemma filter_all {A : Type} (P : A -> Prop) `{!forall x, Decision (P x)} (l : list A) :
  (forall x, x ∈ l -> P x) -> filter P l = l.
Proof.
  induction l as [|x l IH]; intros Hall; [reflexivity |].
  rewrite filter_cons_True by (apply Hall; left).
  f_equal. apply IH. intros y Hy. apply Hall. now right.
Qed.

Lemma filter_none {A : Type} (P : A -> Prop) `{!forall x, Decision (P x)} (l : list A) :
  (forall x, x ∈ l -> ~ P x) -> filter P l = [].
Proof.
  induction l as [|x l IH]; intros Hall; [reflexivity |].
  rewrite filter_cons_False by (apply Hall; left).
  apply IH. intros y Hy. apply Hall. now right.
Qed.

(** X13: with an integer threshold above 100 every student is a defaulter;
    with an integer threshold of 0 or less no student is. *)
Theorem analyze_threshold_extremes (rs : list row) (z : Z) :
  exists res,
    analyze rs (Int z) = Some res
    /\ (100 < z -> defaulters res = students res)
    /\ (z <= 0 -> defaulters res = []).
Proof.
  rewrite analyze_closed_form. eexists. split; [reflexivity |].
  cbn [students defaulters]. split; intros Hz.
  - apply filter_all. intros s Hs.
    apply summary_of_elem in Hs as (sid & _ & ->).
    apply Is_true_true.
    apply value_of_le_int with 100; [apply summary_in_range | exact Hz].
  - apply filter_none. intros s Hs.
    apply summary_of_elem in Hs as (sid & _ & ->).
    rewrite Is_true_true.
    rewrite (value_of_ge_int _ 0 z); [discriminate | apply summary_in_range | exact Hz].
Qed.

Lemma analyze_threshold_extremes_witness :
  exists res,
    analyze [mkRow "S1" "A" "2024-01-01" "P"] (Int 101) = Some res
    /\ defaulters res = students res.
Proof.
  destruct (analyze_threshold_extremes [mkRow "S1" "A" "2024-01-01" "P"] 101)
    as (res & E & H & _).
  exists res. split; [exact E | apply H; lia].
Defined.

(** X14: raising an integer threshold never removes a defaulter: the
    defaulters under a threshold are, in order, among the defaulters under
    any larger one, and the students are the same. *)
Theorem analyze_threshold_monotone (rs : list row) (a b : Z) :
  a <= b ->
  exists ra rb,
    analyze rs (Int a) = Some ra /\ analyze rs (Int b) = Some rb
    /\ students ra = students rb
    /\ daily_rates ra = daily_rates rb
    /\ sublist (defaulters ra) (defaulters rb).
Proof.
  intros Hab. rewrite !analyze_closed_form. do 2 eexists.
  split; [reflexivity |]. split; [reflexivity |].
  cbn [students daily_rates defaulters].
  split; [reflexivity |]. split; [reflexivity |].
  apply filter_sublist_impl. intros s _ H.
  apply Is_true_true. apply Is_true_true in H.
  now apply value_of_lt_int_mono with a.
Qed.

Lemma analyze_threshold_monotone_witness :
  exists ra rb,
    analyze [mkRow "S1" "A" "2024-01-01" "A"; mkRow "S2" "B" "2024-01-01" "P"] (Int 50)
    = Some ra
    /\ analyze [mkRow "S1" "A" "2024-01-01" "A"; mkRow "S2" "B" "2024-01-01" "P"] (Int 101)
       = Some rb
    /\ sublist (defaulters ra) (defaulters rb).
Proof.
  destruct (analyze_threshold_monotone
              [mkRow "S1" "A" "2024-01-01" "A"; mkRow "S2" "B" "2024-01-01" "P"] 50 101)
    as (ra & rb & Ea & Eb & _ & _ & S); [lia |].
  exists ra, rb. auto.
Defined.

(** ** The record store *)

Lemma clean_row_ext (r r' : gmap string (option string)) :
  get r "student_id" = get r' "student_id" ->
  cell r "student_name" = cell r' "student_name" ->
  cell r "date" = cell r' "date" ->
  get r "status" = get r' "status" ->
  clean_row r = clean_row r'.
Proof. intros E1 E2 E3 E4. unfold clean_row. now rewrite E1, E2, E3, E4. Qed.

Lemma dict_row_header (a b c d : string) (more : list string) :
  dict_row header (a :: b :: c :: d :: more)
  = <["status" := Some d]> (<["date" := Some c]>
      (<["student_name" := Some b]> (<["student_id" := Some a]> ∅))).
Proof. unfold dict_row, header. cbn. now rewrite drop_nil. Qed.

Ltac cells :=
  unfold get;
  repeat (rewrite cell_insert_eq || rewrite cell_insert_ne by discriminate);
  reflexivity.

Lemma clean_row_dict_full (a b c d : string) (more : list string) :
  clean_row (dict_row header (a :: b :: c :: d :: more))
  = clean_row (raw_row a b c d).
Proof.
  rewrite dict_row_header. unfold raw_row. apply clean_row_ext; cells.
Qed.

(** A row of three cells has [None] for its status, which [str] turns into
    the text [None]. *)
Lemma clean_row_dict_three (a b c : string) :
  clean_row (dict_row header [a; b; c]) = clean_row (raw_row a b c "None").
Proof.
  unfold dict_row, header, raw_row. cbn [length drop zip zip_with fold_left fst snd].
  apply clean_row_ext; cells.
Qed.

Lemma clean_row_dict_short (a : string) (rest : list string) :
  (length rest <= 1)%nat ->
  clean_row (dict_row header (a :: rest)) = Raised AttributeError no_strip.
Proof.
  intros H. apply clean_row_none.
  destruct rest as [|b [|c rest]]; cbn in H; try lia;
    unfold dict_row, header; cbn [length drop zip zip_with fold_left fst snd].
  - left. unfold cell.
    repeat (rewrite lookup_insert_eq || rewrite lookup_insert_ne by discriminate).
    reflexivity.
  - right. unfold cell.
    repeat (rewrite lookup_insert_eq || rewrite lookup_insert_ne by discriminate).
    reflexivity.
Qed.

Lemma read_row_app (fn : list string) (rows : list (list string))
    (recs : list row) (out : list string) :
  fold_left (read_row fn) rows (recs, out)
  = (recs ++ fst (fold_left (read_row fn) rows ([], [])),
     out ++ snd (fold_left (read_row fn) rows ([], []))).
Proof.
  revert recs out. induction rows as [|c rows IH]; intros recs out.
  - cbn. now rewrite !app_nil_r.
  - cbn [fold_left].
    assert (E : read_row fn (recs, out) c
                = (recs ++ fst (read_row fn ([], []) c),
                   out ++ snd (read_row fn ([], []) c))).
    { unfold read_row. destruct c as [|x c']; [cbn; now rewrite !app_nil_r |].
      destruct (clean_row _); cbn; now rewrite ?app_nil_r. }
    rewrite E, IH.
    destruct (read_row fn ([], []) c) as [r1 o1]. cbn [fst snd].
    rewrite (IH r1 o1). cbn [fst snd]. now rewrite !app_assoc.
Qed.

Lemma read_all_records_app (fn : list string) (rows1 rows2 : list (list string)) :
  read_all_records (fn :: rows1 ++ rows2)
  = (fst (read_all_records (fn :: rows1)) ++ fst (read_all_records (fn :: rows2)),
     snd (read_all_records (fn :: rows1)) ++ snd (read_all_records (fn :: rows2))).
Proof.
  unfold read_all_records. rewrite fold_left_app.
  destruct (fold_left (read_row fn) rows1 ([], [])) as [recs out].
  now rewrite read_row_app.
Qed.

Lemma read_row_normalized (r : row) (st : list row * list string) :
  normalized r -> read_row header st (cells_of r) = (fst st ++ [r], snd st).
Proof.
  intros N. unfold read_row, cells_of. rewrite clean_row_dict_full.
  unfold normalized in N. now rewrite N.
Qed.

Lemma read_cells_of (rs : list row) :
  (forall r, r ∈ rs -> normalized r) ->
  read_all_records (header :: map cells_of rs) = (rs, []).
Proof.
  induction rs as [|r rs IH] using rev_ind; intros N; [reflexivity |].
  rewrite map_app, read_all_records_app, IH by (intros x Hx; apply N, elem_of_app; now left).
  cbn [map read_all_records fold_left fst snd].
  rewrite read_row_normalized by (apply N, elem_of_app; right; left).
  reflexivity.
Qed.

Lemma read_all_records_normalized (f : list (list string)) (r : row) :
  r ∈ fst (read_all_records f) -> normalized r.
Proof.
  destruct f as [|fn rows]; [intros H; inversion H |].
  induction rows as [|c rows IH] using rev_ind; [intros H; inversion H |].
  rewrite read_all_records_app. cbn [fst]. rewrite elem_of_app. intros [H|H]; [now apply IH |].
  cbn in H. unfold read_row in H. destruct c as [|x c']; [inversion H |].
  destruct (clean_row _) as [r'|k e] eqn:E; cbn in H; [| inversion H].
  apply list_elem_of_singleton in H. subst. now apply clean_row_normalized in E.
Qed.

Lemma normalized_date (r : row) :
  normalized r ->
  exists d, Dates.strptime (date r) = Some d /\ Dates.isoformat d = date r.
Proof.
  unfold normalized. intros N.
  apply clean_row_inv in N as (nm & dt & d & _ & _ & P & N).
  exists d. rewrite N at 1. cbn [date].
  assert (V : Dates.valid d = true) by now apply strptime_valid in P.
  split; [now apply strptime_isoformat | now rewrite N].
Qed.

(** X15: every record that [read_all_records] returns is a fixed point of
    [clean_row], and its date is the ISO rendering of a calendar date. *)
Theorem read_all_records_clean (f : list (list string)) (r : row) :
  r ∈ fst (read_all_records f) ->
  clean_row (raw_row (student_id r) (student_name r) (date r) (status r)) = Returned r
  /\ exists d, Dates.strptime (date r) = Some d /\ Dates.isoformat d = date r.
Proof.
  intros H. apply read_all_records_normalized in H.
  split; [exact H | now apply normalized_date].
Qed.

Lemma read_all_records_clean_witness :
  exists d, Dates.strptime "2024-01-05" = Some d /\ Dates.isoformat d = "2024-01-05".
Proof.
  apply (proj2 (read_all_records_clean [header; ["S1"; "Alice"; " 2024-1-5"; "p"]]
           (mkRow "S1" "Alice" "2024-01-05" "P") ltac:(vm_compute; left))).
Defined.

(** X16: rows are read independently of each other: reading a file is
    reading its first rows and then its later rows, so a row that is
    skipped changes neither the records of the other rows nor their
    diagnostics; and every non-empty row gives one record or one
    diagnostic. *)
Theorem read_all_records_rowwise (fn : list string) (rows1 rows2 : list (list string)) :
  fst (read_all_records (fn :: rows1 ++ rows2))
  = fst (read_all_records (fn :: rows1)) ++ fst (read_all_records (fn :: rows2))
  /\ snd (read_all_records (fn :: rows1 ++ rows2))
     = snd (read_all_records (fn :: rows1)) ++ snd (read_all_records (fn :: rows2))
  /\ (length (fst (read_all_records (fn :: rows1)))
      + length (snd (read_all_records (fn :: rows1)))
      = length (filter (fun c => c ≠ []) rows1))%nat.
Proof.
  rewrite read_all_records_app. cbn [fst snd]. split; [reflexivity |].
  split; [reflexivity |].
  induction rows1 as [|c rows IH] using rev_ind; [reflexivity |].
  rewrite read_all_records_app, filter_app. cbn [fst snd].
  rewrite !length_app, <- IH.
  set (n1 := length (fst (read_all_records (fn :: rows)))).
  set (n2 := length (snd (read_all_records (fn :: rows)))).
  cbn [read_all_records fold_left]. unfold read_row.
  destruct c as [|x c'].
  - rewrite filter_cons_False by (intros H; now apply H). cbn. lia.
  - rewrite filter_cons_True by discriminate.
    destruct (clean_row _); cbn; lia.
Qed.

(** X17: under the header the program writes, a row with only one or two
    cells is skipped with a diagnostic, a row with exactly three cells is
    read as if its status cell were the text None, so with status N, and
    cells beyond the fourth are ignored. *)
Theorem read_all_records_short_row (a : string) (rest : list string) (b c : string) :
  ((length rest <= 1)%nat ->
   read_all_records [header; a :: rest]
   = ([], ["Skipping invalid row: 'NoneType' object has no attribute 'strip'"]))
  /\ read_all_records [header; [a; b; c]] = read_all_records [header; [a; b; c; "None"]]
  /\ (forall r, fst (read_all_records [header; [a; b; c]]) = [r] -> status r = "N")
  /\ (forall d more,
        read_all_records [header; a :: b :: c :: d :: more]
        = read_all_records [header; [a; b; c; d]]).
Proof.
  split; [| split; [| split]]; cycle 3.
  { intros d more. cbn [read_all_records fold_left]. unfold read_row.
    now rewrite !clean_row_dict_full. }
  - intros H. cbn [read_all_records fold_left]. unfold read_row.
    now rewrite clean_row_dict_short.
  - cbn [read_all_records fold_left]. unfold read_row.
    now rewrite clean_row_dict_three, clean_row_dict_full.
  - intros r. cbn [read_all_records fold_left]. unfold read_row.
    rewrite clean_row_dict_three, clean_row_raw_row.
    destruct (Dates.strptime (Str.strip c)) as [d|].
    + cbn [fst app]. intros [= <-]. reflexivity.
    + cbn. discriminate.
Qed.

Lemma read_all_records_short_row_witness :
  read_all_records [header; ["S1"; "Alice"]]
  = ([], ["Skipping invalid row: 'NoneType' object has no attribute 'strip'"])
  /\ status (mkRow "S1" "Alice" "2024-01-01" "N") = "N".
Proof.
  destruct (read_all_records_short_row "S1" ["Alice"] "Alice" "2024-01-01")
    as (A & _ & B & _).
  split; [apply A; cbn; lia | apply B; reflexivity].
Defined.

Lemma dedup_normalized (rs : list row) :
  (forall r, r ∈ rs -> normalized r) ->
  forall r, r ∈ deduplicate_records rs -> normalized r.
Proof.
  intros N r Hr. apply N.
  eapply elem_of_sublist; [exact Hr | apply dedup_sublist].
Qed.

Lemma read_after_save (records : list row) (f : list (list string)) :
  (forall r, r ∈ records -> normalized r) ->
  read_all_records (fst (save_cleaned records f)) = (deduplicate_records records, []).
Proof.
  intros N. unfold save_cleaned. cbn [fst].
  apply read_cells_of. now apply dedup_normalized.
Qed.

Lemma read_clean_file (f : list (list string)) :
  read_all_records (clean_file f)
  = (deduplicate_records (fst (read_all_records f)), []).
Proof.
  unfold clean_file. apply read_after_save.
  intros r. apply read_all_records_normalized.
Qed.


(** X19: what [save_cleaned] writes is read back by [read_all_records] as
    the deduplicated records, in order and without a diagnostic, whenever
    the records saved are rows [clean_row] returns unchanged (as the records
    of [read_all_records] are). *)
Theorem save_cleaned_read_back (records : list row) (f : list (list string)) :
  (forall r, r ∈ records ->
     clean_row (raw_row (student_id r) (student_name r) (date r) (status r))
     = Returned r) ->
  read_all_records (fst (save_cleaned records f)) = (deduplicate_records records, []).
Proof. apply read_after_save. Qed.

Lemma save_cleaned_read_back_witness :
  read_all_records
    (fst (save_cleaned [mkRow "S1" "Alice" "2024-01-01" "P";
                        mkRow "S1" "Alice" "2024-01-01" "A"] []))
  = ([mkRow "S1" "Alice" "2024-01-01" "P"], []).
Proof.
  apply (save_cleaned_read_back
           [mkRow "S1" "Alice" "2024-01-01" "P"; mkRow "S1" "Alice" "2024-01-01" "A"] []).
  intros r Hr.
  apply elem_of_cons in Hr as [->|Hr]; [reflexivity |].
  apply list_elem_of_singleton in Hr as ->. reflexivity.
Defined.

(** X20: cleaning the file (read, deduplicate, write back) leaves a file
    that reads as the deduplicated records of the old one, without
    diagnostics and with no key twice; cleaning a second time changes
    nothing. *)
Theorem clean_file_idempotent (f : list (list string)) :
  read_all_records (clean_file f)
  = (deduplicate_records (fst (read_all_records f)), [])
  /\ NoDup (map key (fst (read_all_records (clean_file f))))
  /\ clean_file (clean_file f) = clean_file f.
Proof.
  split; [apply read_clean_file |].
  split; [rewrite read_clean_file; apply dedup_NoDup |].
  unfold clean_file at 1. rewrite read_clean_file. cbn [fst].
  unfold save_cleaned, clean_file. cbn [fst].
  now rewrite dedup_idempotent.
Qed.

(** X21: cleaning the file does not change what [analyze] computes from
    it. *)
Theorem clean_file_preserves_analysis (f : list (list string)) (t : number) :
  analyze (fst (read_all_records (clean_file f))) t
  = analyze (fst (read_all_records f)) t.
Proof.
  rewrite read_clean_file. cbn [fst]. unfold analyze. now rewrite dedup_idempotent.
Qed.



(** ** The order of numbers *)

Lemma compare_scale (m1 e1 m2 e2 e : Z) :
  e <= e1 -> e <= e2 ->
  (m1 * 2 ^ (e1 - Z.min e1 e2) ?= m2 * 2 ^ (e2 - Z.min e1 e2))
  = (m1 * 2 ^ (e1 - e) ?= m2 * 2 ^ (e2 - e)).
Proof.
  intros H1 H2.
  assert (P : 0 < 2 ^ (Z.min e1 e2 - e)) by (apply Z.pow_pos_nonneg; lia).
  replace (e1 - e) with ((e1 - Z.min e1 e2) + (Z.min e1 e2 - e)) by lia.
  replace (e2 - e) with ((e2 - Z.min e1 e2) + (Z.min e1 e2 - e)) by lia.
  rewrite !Z.pow_add_r, !Z.mul_assoc by lia.
  apply Zmult_compare_compat_r. lia.
Qed.

Lemma compare_value_antisym (a b : value) :
  compare_value b a = CompOpp <$> compare_value a b.
Proof.
  destruct a as [|s1|m1 e1], b as [|s2|m2 e2]; cbn; try reflexivity.
  - now destruct s1, s2.
  - now destruct s1.
  - now destruct s2.
  - rewrite (Z.min_comm e2 e1). f_equal. apply Z.compare_antisym.
Qed.

Lemma compare_value_le_trans (a b c : value) (x y : comparison) :
  compare_value a b = Some x -> x ≠ Gt ->
  compare_value b c = Some y -> y ≠ Gt ->
  exists z, compare_value a c = Some z /\ z ≠ Gt.
Proof.
  destruct a as [|s1|m1 e1], b as [|s2|m2 e2], c as [|s3|m3 e3];
    cbn [compare_value]; intros H1 Hx H2 Hy; try discriminate.
  all: try (repeat match goal with s : bool |- _ => destruct s end;
            cbn in *; injection H1 as <-; injection H2 as <-; try congruence;
            eexists; (split; [reflexivity | discriminate])).
  rewrite (compare_scale m1 e1 m2 e2 (Z.min e1 (Z.min e2 e3))) in H1 by lia.
  rewrite (compare_scale m2 e2 m3 e3 (Z.min e1 (Z.min e2 e3))) in H2 by lia.
  rewrite (compare_scale m1 e1 m3 e3 (Z.min e1 (Z.min e2 e3))) by lia.
  injection H1 as <-. injection H2 as <-. eexists; split; [reflexivity |].
  set (e := Z.min e1 (Z.min e2 e3)) in *.
  destruct (Z.compare_spec (m1 * 2 ^ (e1 - e)) (m2 * 2 ^ (e2 - e))); try congruence;
    destruct (Z.compare_spec (m2 * 2 ^ (e2 - e)) (m3 * 2 ^ (e3 - e))); try congruence;
    destruct (Z.compare_spec (m1 * 2 ^ (e1 - e)) (m3 * 2 ^ (e3 - e))); try discriminate;
    lia.
Qed.

Lemma percentage_ge_trans (a b c : student_summary) :
  percentage_ge a b -> percentage_ge b c -> percentage_ge a c.
Proof.
  unfold percentage_ge, Num.leb, Num.compare. intros H1 H2.
  destruct (compare_value (value_of (percentage c)) (value_of (percentage b)))
    as [y|] eqn:E2; [| discriminate].
  destruct (compare_value (value_of (percentage b)) (value_of (percentage a)))
    as [x|] eqn:E1; [| discriminate].
  destruct (compare_value_le_trans _ _ _ y x E2 ltac:(now destruct y) E1 ltac:(now destruct x))
    as (z & -> & Hz).
  now destruct z.
Qed.

Lemma percentage_not_lt (x y : student_summary) :
  comparable x -> comparable y ->
  Num.ltb (percentage x) (percentage y) = false -> percentage_ge x y.
Proof.
  unfold comparable, percentage_ge, Num.ltb, Num.leb, Num.compare.
  intros Cx Cy. rewrite (compare_value_antisym (value_of (percentage x))).
  destruct (compare_value (value_of (percentage x)) (value_of (percentage y)))
    as [[| |]|] eqn:E; cbn; try congruence.
  destruct (value_of (percentage x)) as [|s1|m1 e1]; [congruence | |];
    destruct (value_of (percentage y)) as [|s2|m2 e2]; try congruence;
    cbn in E; discriminate.
Qed.

Lemma percentage_lt_ge (x y : student_summary) :
  Num.ltb (percentage x) (percentage y) = true -> percentage_ge y x.
Proof.
  unfold percentage_ge, Num.ltb, Num.leb.
  now destruct (Num.compare (percentage x) (percentage y)) as [[| |]|].
Qed.

(** ** The chart of the best students *)

Lemma insert_desc_perm (x : student_summary) (l : list student_summary) :
  Permutation (insert_desc x l) (x :: l).
Proof.
  induction l as [|y l IH]; cbn; [reflexivity |].
  destruct (Num.ltb (percentage x) (percentage y)); [| reflexivity].
  rewrite IH. apply perm_swap.
Qed.

Lemma sorted_desc_perm (l : list student_summary) : Permutation (sorted_desc l) l.
Proof.
  induction l as [|x l IH]; [reflexivity |].
  cbn [sorted_desc foldr]. fold (sorted_desc l).
  rewrite insert_desc_perm. now constructor.
Qed.

Lemma insert_desc_sorted (x : student_summary) (l : list student_summary) :
  comparable x -> Forall comparable l ->
  StronglySorted percentage_ge l -> StronglySorted percentage_ge (insert_desc x l).
Proof.
  intros Cx Cl S. induction S as [|y l S IH F]; cbn.
  - repeat constructor.
  - apply Forall_cons in Cl as [Cy Cl].
    destruct (Num.ltb (percentage x) (percentage y)) eqn:E.
    + constructor; [now apply IH |].
      rewrite (insert_desc_perm x l). constructor; [now apply percentage_lt_ge | exact F].
    + assert (G : percentage_ge x y) by now apply percentage_not_lt.
      constructor; [now constructor |].
      constructor; [exact G |].
      eapply List.Forall_impl; [| exact F]. intros z Hz.
      now apply percentage_ge_trans with y.
Qed.

Lemma sorted_desc_sorted (l : list student_summary) :
  Forall comparable l -> StronglySorted percentage_ge (sorted_desc l).
Proof.
  induction l as [|x l IH]; intros C; [constructor |].
  apply Forall_cons in C as [Cx Cl].
  cbn [sorted_desc foldr]. fold (sorted_desc l).
  apply insert_desc_sorted; [exact Cx | | now apply IH].
  now rewrite sorted_desc_perm.
Qed.

Lemma slice_to_take {A : Type} (n : Z) (l : list A) :
  exists k, slice_to n l = take k l /\ (0 <= n -> k = Z.to_nat n).
Proof.
  unfold slice_to. destruct (Z.leb_spec 0 n).
  - exists (Z.to_nat n). auto.
  - eexists. split; [reflexivity | lia].
Qed.

Lemma sorted_take_drop (l : list student_summary) (k : nat) :
  StronglySorted percentage_ge l ->
  StronglySorted percentage_ge (take k l)
  /\ forall x y, x ∈ take k l -> y ∈ drop k l -> percentage_ge x y.
Proof.
  intros S. rewrite <- (take_drop k l) in S.
  split.
  - clear -S. induction (take k l) as [|x t IH]; [constructor |].
    cbn in S. apply StronglySorted_inv in S as [S F].
    constructor; [now apply IH |].
    apply Forall_app in F. tauto.
  - intros x y Hx Hy. clear -S Hx Hy.
    induction (take k l) as [|z t IH]; [inversion Hx |].
    cbn in S. apply StronglySorted_inv in S as [S F].
    apply elem_of_cons in Hx as [->|Hx]; [| now apply IH].
    rewrite List.Forall_forall in F. apply F.
    apply list_elem_of_In, elem_of_app. now right.
Qed.

(** X23: the chart of [plot_attendance_by_student] shows the students with
    the highest percentages: the students shown and the others together are
    the students given; those shown are in descending order of percentage
    and none of the others has a higher percentage than one shown; for
    [top_n >= 0] they are [top_n] students, or all if there are fewer; the
    bars are given from the lowest to the highest; and no chart is drawn
    exactly when no student is shown. *)
Theorem plot_attendance_by_student_top (students : list student_summary) (top_n : Z) :
  Forall comparable students ->
  exists shown others,
    Permutation students (shown ++ others)
    /\ StronglySorted percentage_ge shown
    /\ (forall x y, x ∈ shown -> y ∈ others -> percentage_ge x y)
    /\ (0 <= top_n -> length shown = Nat.min (Z.to_nat top_n) (length students))
    /\ match snd (plot_attendance_by_student students top_n) with
       | None =>
           shown = []
           /\ fst (plot_attendance_by_student students top_n)
              = ["No student data to plot."]
       | Some c =>
           shown ≠ []
           /\ bar_labels c
              = reverse (map (fun x => (name x ++ " (" ++ summary_id x ++ ")")%string) shown)
           /\ bar_values c = reverse (map percentage shown)
           /\ bar_count c = length shown
       end.
Proof.
  intros C. unfold plot_attendance_by_student.
  destruct (slice_to_take top_n (sorted_desc students)) as (k & -> & Hk).
  exists (take k (sorted_desc students)), (drop k (sorted_desc students)).
  destruct (sorted_take_drop _ k (sorted_desc_sorted _ C)) as [S1 S2].
  split; [rewrite take_drop; symmetry; apply sorted_desc_perm |].
  split; [exact S1 |]. split; [exact S2 |].
  split.
  - intros H. rewrite length_take, (Permutation_length (sorted_desc_perm students)).
    now rewrite Hk.
  - destruct (take k (sorted_desc students)) as [|x t]; cbn [snd fst].
    + split; reflexivity.
    + split; [discriminate |]. cbn [bar_labels bar_values bar_count].
      split; [reflexivity |]. split; [reflexivity |]. now rewrite length_map.
Qed.

Lemma plot_attendance_by_student_top_witness :
  exists c,
    snd (plot_attendance_by_student
           [mkSummary "a" "A" 1 2 (Float (of_int 50));
            mkSummary "b" "B" 3 4 (Float (of_int 75));
            mkSummary "e" "E" 0 0 (Int 0)] 2) = Some c
    /\ bar_labels c = ["A (a)"; "B (b)"]
    /\ bar_count c = 2%nat.
Proof.
  destruct (plot_attendance_by_student_top
              [mkSummary "a" "A" 1 2 (Float (of_int 50));
               mkSummary "b" "B" 3 4 (Float (of_int 75));
               mkSummary "e" "E" 0 0 (Int 0)] 2) as (shown & others & _).
  - repeat constructor; discriminate.
  - eexists. split; [vm_compute; reflexivity |]. split; reflexivity.
Defined.

(** ** From the file to the daily rates *)

Lemma sorted_map_dates (l : list string) :
  StronglySorted str_lt l ->
  (forall s, s ∈ l -> exists d, Dates.strptime s = Some d /\ Dates.isoformat d = s) ->
  exists ds,
    map Dates.isoformat ds = l
    /\ Forall (fun d => Dates.valid d = true) ds
    /\ StronglySorted (fun a b => date_compare a b = Lt) ds.
Proof.
  induction 1 as [|s l S IH F]; intros Hd.
  - exists []. repeat constructor.
  - destruct IH as (ds & E & V & Sd); [intros x Hx; apply Hd; now right |].
    destruct (Hd s ltac:(left)) as (d & P & I).
    assert (Vd : Dates.valid d = true) by now apply strptime_valid in P.
    exists (d :: ds). cbn [map]. split; [now rewrite I, E |].
    split; [now constructor |].
    constructor; [exact Sd |].
    apply List.Forall_forall. intros d' Hd'.
    rewrite List.Forall_forall in F, V.
    assert (L : str_lt s (Dates.isoformat d'))
      by (apply F; rewrite <- E; now apply in_map).
    unfold str_lt, String.ltb in L. rewrite <- I in L.
    rewrite isoformat_compare in L by auto.
    now destruct (date_compare d d').
Qed.

(** X24: the daily rates computed from the records read from a file are in
    calendar order: their dates are the ISO renderings of valid dates that
    strictly increase by year, then month, then day. *)
Theorem daily_rates_chronological (f : list (list string)) (t : number) :
  exists res ds,
    analyze (fst (read_all_records f)) t = Some res
    /\ map Dates.isoformat ds = map rate_date (daily_rates res)
    /\ Forall (fun d => Dates.valid d = true) ds
    /\ StronglySorted (fun a b => date_compare a b = Lt) ds.
Proof.
  destruct (analyze_students_ids (fst (read_all_records f)) t) as (res & E & _ & D).
  exists res.
  destruct (sorted_map_dates (map rate_date (daily_rates res))) as (ds & H1 & H2 & H3).
  - rewrite D. apply sort_keys_sorted, distinct_NoDup.
  - intros s Hs. rewrite D, sort_keys_elem, distinct_elem, dedup_dates in Hs.
    apply list_elem_of_fmap in Hs as (r & -> & Hr).
    apply normalized_date. now apply read_all_records_normalized with f.
  - exists ds. auto.
Qed.
